(** * Apigen: framework detection and source-to-model extraction

    A shallow embedding of the detector ([src/core/orchestrator.ts],
    class [ProjectDetector]) and of the extractors
    ([src/extractors/base.ts], [src/extractors/openapi.ts],
    [src/extractors/python/fastapi.ts], the Django REST extractor, and
    the Flask, Spring Boot and ASP.NET Core extractors of
    [src/extractors/python/flask.ts]), followed by the properties of the
    specification that concern them.

    Conventions of the embedding.
    - A JavaScript string is a [string]: a sequence of code units below 256.
      The functions modelled here compare code units with ASCII
      characters, and [toLowerCase] is modelled on all code units below
      256, so the model is exact on every string made of such code units.
      Messages are kept as the source has them.
    - A JavaScript number is a [Z]; [NaN] is [None] in an [option Z].  The
      numbers of the program are scores, counts and status codes, far below
      2^53, where doubles are exact.
    - A [Map] is an association list in insertion order where the program
      iterates over it, and a [gmap] where it only looks keys up.
    - The file system, [glob] and the regular expressions that scan whole
      source files are inputs: a scanned file is given by the facts the
      program reads off it (which tests succeed, how many matches are
      found). *)

From Stdlib Require Import String Ascii List ZArith Lia Bool.
From stdpp Require Import base strings list gmap.
From Equations.Prop Require Import Equations Logic.

Open Scope string_scope.

(** ** JavaScript primitives used by the program *)

Module Js.

(** [search] is read at the start of [s]. *)
Fixpoint isPrefix (search s : string) : bool :=
  match search, s with
  | EmptyString, _ => true
  | String a search', String b s' => Ascii.eqb a b && isPrefix search' s'
  | String _ _, EmptyString => false
  end.

(** [String.prototype.startsWith]. *)
Definition startsWith (s search : string) : bool := isPrefix search s.

(** [String.prototype.endsWith]: some tail of [s] is [search]. *)
Fixpoint endsWith (s search : string) : bool :=
  if String.eqb s search then true
  else match s with
       | EmptyString => false
       | String _ s' => endsWith s' search
       end.

(** [String.prototype.includes]: [search] is a prefix of some tail. *)
Fixpoint includes (s search : string) : bool :=
  if isPrefix search s then true
  else match s with
       | EmptyString => false
       | String _ s' => includes s' search
       end.

(** [s.slice(0, -1)]: all but the last code unit. *)
Fixpoint slice_0_m1 (s : string) : string :=
  match s with
  | EmptyString => EmptyString
  | String c EmptyString => EmptyString
  | String c s' => String c (slice_0_m1 s')
  end.

(** [s.replace(/\/+/g, '/')]: scanning left to right, the first slash of
    a run is kept and the slashes that follow it in the run are dropped.
    [inRun] tells that the previous code unit was a slash. *)
Fixpoint replaceSlashRuns_from (inRun : bool) (s : string) : string :=
  match s with
  | EmptyString => EmptyString
  | String c s' =>
      if Ascii.eqb c "/"
      then if inRun then replaceSlashRuns_from true s'
           else String "/" (replaceSlashRuns_from true s')
      else String c (replaceSlashRuns_from false s')
  end.

Definition replaceSlashRuns (s : string) : string :=
  replaceSlashRuns_from false s.

(** [String.prototype.toLowerCase] on code units below 256: the letters
    A-Z and the Latin-1 capitals (all of 0xC0-0xDE but the sign 0xD7). *)
Definition lowerChar (c : ascii) : ascii :=
  let n := nat_of_ascii c in
  if (Nat.leb 65 n && Nat.leb n 90)
     || (Nat.leb 192 n && Nat.leb n 222 && negb (Nat.eqb n 215))
  then ascii_of_nat (n + 32)
  else c.

Fixpoint toLowerCase (s : string) : string :=
  match s with
  | EmptyString => EmptyString
  | String c s' => String (lowerChar c) (toLowerCase s')
  end.

(** The letters A-Z, and whether a string holds one. *)
Definition isAsciiUpper (c : ascii) : bool :=
  let n := nat_of_ascii c in
  Nat.leb 65 n && Nat.leb n 90.

Fixpoint hasAsciiUpper (s : string) : bool :=
  match s with
  | EmptyString => false
  | String c s' => isAsciiUpper c || hasAsciiUpper s'
  end.

(** *** [parseInt(s, 10)] *)

(** White space and line terminators among the code units below 256. *)
Definition isStrWhiteSpace (c : ascii) : bool :=
  let n := nat_of_ascii c in
  (Nat.leb 9 n && Nat.leb n 13) || Nat.eqb n 32 || Nat.eqb n 160.

Fixpoint trimStart (s : string) : string :=
  match s with
  | EmptyString => EmptyString
  | String c s' => if isStrWhiteSpace c then trimStart s' else s
  end.

Definition digitValue (c : ascii) : option Z :=
  let n := nat_of_ascii c in
  if Nat.leb 48 n && Nat.leb n 57 then Some (Z.of_nat (n - 48)) else None.

(** The value of the longest prefix of decimal digits, [acc] being the
    value of the digits read so far ([None]: no digit yet). *)
Fixpoint leadingDigits (acc : option Z) (s : string) : option Z :=
  match s with
  | EmptyString => acc
  | String c s' =>
      match digitValue c with
      | Some d => leadingDigits (Some (10 * default 0%Z acc + d)%Z) s'
      | None => acc
      end
  end.

(** [parseInt(s, 10)]: leading white space is skipped, one sign is
    read, then the longest run of decimal digits; what follows the
    digits is ignored.  Without a digit the result is [NaN]. *)
Definition parseInt10 (s : string) : option Z :=
  match trimStart s with
  | String "-" r => Z.opp <$> leadingDigits None r
  | String "+" r => leadingDigits None r
  | r => leadingDigits None r
  end.

(** *** Property lookup on an object literal *)

(** The own property names of [Object.prototype], the prototype of every
    object literal. *)
Definition Object_prototype_keys : list string :=
  [ "constructor"; "__defineGetter__"; "__defineSetter__";
    "hasOwnProperty"; "__lookupGetter__"; "__lookupSetter__";
    "isPrototypeOf"; "propertyIsEnumerable"; "toString"; "valueOf";
    "__proto__"; "toLocaleString" ].

(** The value of [obj[key]] for an object literal [obj] whose own
    properties are [own]: an own property, else a member inherited from
    [Object.prototype] (a function, or the prototype object itself for
    [__proto__]), else [undefined]. *)
Inductive Property (V : Type) : Type :=
| Own (v : V)
| Inherited (key : string)
| Undefined.
Arguments Own {V} v.
Arguments Inherited {V} key.
Arguments Undefined {V}.

Fixpoint ownProperty {V : Type} (own : list (string * V)) (key : string)
  : option V :=
  match own with
  | [] => None
  | (k, v) :: own' => if String.eqb k key then Some v else ownProperty own' key
  end.

Definition getProperty {V : Type} (own : list (string * V)) (key : string)
  : Property V :=
  match ownProperty own key with
  | Some v => Own v
  | None =>
      if existsb (String.eqb key) Object_prototype_keys
      then Inherited key
      else Undefined
  end.

(** What an expression of declared type [T] evaluates to: a [T], or,
    where the lookup above leaves the declared type, a member of
    [Object.prototype]. *)
Inductive Runtime (T : Type) : Type :=
| Typed (v : T)
| Foreign (protoKey : string).
Arguments Typed {T} v.
Arguments Foreign {T} protoKey.

(** [table[key] || fallback], for a table whose values are non-empty
    strings (enum members), hence truthy; inherited members are
    functions or objects, truthy as well. *)
Definition lookupOr {V : Type} (table : list (string * V)) (key : string)
    (fallback : V) : Runtime V :=
  match getProperty table key with
  | Own v => Typed v
  | Inherited k => Foreign k
  | Undefined => Typed fallback
  end.

(** *** [Map] in insertion order *)

(** [Map.prototype.has], [get] and [set] on a map in insertion order:
    [set] on a present key replaces the value where the key stands. *)
Fixpoint map_get {V : Type} (m : list (string * V)) (k : string) : option V :=
  match m with
  | [] => None
  | (k', v) :: m' => if String.eqb k' k then Some v else map_get m' k
  end.

Definition map_has {V : Type} (m : list (string * V)) (k : string) : bool :=
  match map_get m k with Some _ => true | None => false end.

Fixpoint map_set {V : Type} (m : list (string * V)) (k : string) (v : V)
  : list (string * V) :=
  match m with
  | [] => [(k, v)]
  | (k', v') :: m' =>
      if String.eqb k' k then (k, v) :: m' else (k', v') :: map_set m' k v
  end.

(** [Array.prototype.sort] with a comparator: the sort is stable, an
    element stays before the later elements it does not compare greater
    than. *)
Fixpoint sort_insert {A : Type} (compare : A -> A -> Z) (x : A) (l : list A)
  : list A :=
  match l with
  | [] => [x]
  | y :: l' =>
      if (compare x y <=? 0)%Z then x :: l else y :: sort_insert compare x l'
  end.

Definition sort {A : Type} (compare : A -> A -> Z) (l : list A) : list A :=
  fold_right (sort_insert compare) [] l.

(** [String.prototype.trim]. *)
Fixpoint trimEnd (s : string) : string :=
  match s with
  | EmptyString => EmptyString
  | String c s' =>
      let t := trimEnd s' in
      if isStrWhiteSpace c && String.eqb t "" then EmptyString else String c t
  end.

Definition trim (s : string) : string := trimEnd (trimStart s).

(** [s.split(sep)[0]] for a separator of one code unit: what precedes its
    first occurrence. *)
Fixpoint beforeFirst (sep : ascii) (s : string) : string :=
  match s with
  | EmptyString => EmptyString
  | String c s' =>
      if Ascii.eqb c sep then EmptyString else String c (beforeFirst sep s')
  end.

(** [m.get(k)!.push(x)] on a map whose values are arrays: the array held
    under the key is extended in place. *)
Fixpoint map_push {V : Type} (m : list (string * list V)) (k : string) (x : V)
  : list (string * list V) :=
  match m with
  | [] => []
  | (k', l) :: m' =>
      if String.eqb k' k then (k', (l ++ [x])%list) :: m'
      else (k', l) :: map_push m' k x
  end.

(** The body of a grouping loop:
    [if (!m.has(k)) { m.set(k, []) }  m.get(k)!.push(x)]. *)
Definition map_file {V : Type} (m : list (string * list V)) (k : string)
    (x : V) : list (string * list V) :=
  let m := if negb (map_has m k) then map_set m k [] else m in
  map_push m k x.

(** [Array.prototype.join] on an array of strings. *)
Fixpoint join (sep : string) (l : list string) : string :=
  match l with
  | [] => EmptyString
  | [x] => x
  | x :: l' => x ++ sep ++ join sep l'
  end.

(** *** Upper case *)

(** The code units of a string. *)
Fixpoint codeUnits (s : string) : list N :=
  match s with
  | EmptyString => []
  | String c s' => N_of_ascii c :: codeUnits s'
  end.

(** The string of a sequence of code units, when all are below 256. *)
Fixpoint ofCodeUnits (units : list N) : option string :=
  match units with
  | [] => Some EmptyString
  | n :: rest =>
      if (n <? 256)%N then String (ascii_of_N n) <$> ofCodeUnits rest
      else None
  end.

(** [String.prototype.toUpperCase] on code units below 256, as the
    sequence of the code units of the result: the letters a-z and the
    small Latin-1 letters (0xE0-0xFE but the sign 0xF7) go to their
    capitals, the sharp s (0xDF) to [SS], and the micro sign (0xB5) and
    the y with diaeresis (0xFF) to capitals above 255. *)
Definition upperUnits (c : ascii) : list N :=
  let n := N_of_ascii c in
  if ((97 <=? n) && (n <=? 122))%N then [(n - 32)%N]
  else if (n =? 181)%N then [924%N]
  else if (n =? 223)%N then [83%N; 83%N]
  else if (n =? 255)%N then [376%N]
  else if ((224 <=? n) && (n <=? 254) && negb (n =? 247))%N then [(n - 32)%N]
  else [n].

Fixpoint toUpperCase (s : string) : list N :=
  match s with
  | EmptyString => []
  | String c s' => (upperUnits c ++ toUpperCase s')%list
  end.

(** [s.replace(/suffix$/, replacement)] for a literal [suffix]: the
    pattern matches at the end of the text only. *)
Definition replaceSuffix (suffix replacement s : string) : string :=
  if endsWith s suffix
  then String.substring 0 (String.length s - String.length suffix) s
         ++ replacement
  else s.

End Js.

(** ** The normalized model ([core/types]) *)

(** [ProjectType]: the values that an expression of this type takes at
    run time.  They are the seven members of the enum and [undefined]:
    the enum declares no member [DJANGO_REST], so the member access
    [ProjectType.DJANGO_REST] of the detector and of the Django extractor
    evaluates to [undefined]. *)
Inductive ProjectType : Set :=
| OPENAPI | FASTAPI | FLASK | SPRING_BOOT | ASPNET_CORE | EXPRESS | UNKNOWN
| undefined.

(** The expression [ProjectType.DJANGO_REST]. *)
Definition DJANGO_REST : ProjectType := undefined.

Inductive HttpMethod : Set :=
| GET | POST | PUT | DELETE | PATCH | OPTIONS | HEAD.

Inductive ParameterLocation : Set := PATH | QUERY | HEADER | COOKIE.

Inductive SchemaType : Set :=
| STRING | NUMBER | INTEGER | BOOLEAN | ARRAY | OBJECT | NULL.

#[global] Instance ProjectType_eq_dec : EqDecision ProjectType.
Proof. solve_decision. Defined.
#[global] Instance HttpMethod_eq_dec : EqDecision HttpMethod.
Proof. solve_decision. Defined.
#[global] Instance ParameterLocation_eq_dec : EqDecision ParameterLocation.
Proof. solve_decision. Defined.
#[global] Instance SchemaType_eq_dec : EqDecision SchemaType.
Proof. solve_decision. Defined.

(** [ApiSchema]: only the [type] tag is modelled; the constraint fields
    are copied through by the extractors and read by no property below. *)
Record ApiSchema : Type := { schema_type : Js.Runtime SchemaType }.

(** [ApiParameter].  The field [in] is declared a [ParameterLocation];
    what [parseParameterLocation] stores there is a [Js.Runtime] value. *)
Record ApiParameter : Type := {
  param_name : string;
  param_in : Js.Runtime ParameterLocation;
  param_required : bool;
  param_schema : ApiSchema
}.

Record ApiRequestBody : Type := {
  body_required : bool;
  body_contentType : option string;
  body_schema : ApiSchema
}.

Record ApiResponse : Type := {
  statusCode : Z;
  description : option string;
  contentType : option string
}.

(** [ApiEndpoint] (without [summary], [description] and [deprecated]). *)
Record ApiEndpoint : Type := {
  method : HttpMethod;
  path : string;
  operationId : option string;
  tags : option (list string);
  parameters : list ApiParameter;
  requestBody : option ApiRequestBody;
  responses : list ApiResponse
}.

Record ApiGroup : Type := {
  group_name : string;
  group_description : option string;
  endpoints : list ApiEndpoint
}.

(** [ApiProject]: of [info] the title and the version, of [config] the
    base URL. *)
Record ApiProject : Type := {
  info_title : string;
  info_version : string;
  baseUrl : string;
  groups : list ApiGroup;
  projectType : ProjectType;
  sourcePath : string
}.

(** [ExtractorResult]: [project] and [errors] are optional properties. *)
Record ExtractorResult : Type := {
  success : bool;
  project : option ApiProject;
  errors : option (list string);
  warnings : option (list string);
  filesProcessed : nat;
  endpointsFound : nat
}.

(** [DetectionResult] (the diagnostic lists [reasons] and [projectFiles]
    are not modelled). *)
Record DetectionResult : Type := {
  type : ProjectType;
  confidence : Z;
  specFile : option string;
  estimatedEndpoints : option Z
}.

(** [ApigenConfig], as far as the extractors read it. *)
Record ApigenConfig : Type := { config_baseUrl : string }.

(** What a call that may throw comes to. *)
Inductive Outcome (A : Type) : Type :=
| Returned (a : A)
| Thrown (message : string).
Arguments Returned {A} a.
Arguments Thrown {A} message.

(** ** The shared extractor base ([extractors/base.ts]) *)

Module BaseExtractor.

(** [createSuccessResult]: the endpoints of all groups are counted. *)
Definition createSuccessResult (p : ApiProject) (files : nat)
    (warns : option (list string)) : ExtractorResult :=
  {| success := true;
     project := Some p;
     errors := None;
     warnings := warns;
     filesProcessed := files;
     endpointsFound :=
       fold_left (fun sum g => sum + length (endpoints g)) (groups p) 0 |}.

Definition createErrorResult (errs : list string)
    (warns : option (list string)) : ExtractorResult :=
  {| success := false;
     project := None;
     errors := Some errs;
     warnings := warns;
     filesProcessed := 0;
     endpointsFound := 0 |}.

(** [createEmptyProject] (the auth descriptor and the mock-data settings
    are not modelled). *)
Definition createEmptyProject (ptype : ProjectType) (source : string)
    (config : ApigenConfig) : ApiProject :=
  {| info_title := "API Documentation";
     info_version := "1.0.0";
     baseUrl := config_baseUrl config;
     groups := [];
     projectType := ptype;
     sourcePath := source |}.

(** The table of [parseParameterLocation], an object literal. *)
Definition locations : list (string * ParameterLocation) :=
  [ ("path", PATH); ("query", QUERY); ("header", HEADER); ("cookie", COOKIE) ].

(** [parseParameterLocation]: [locations[lower] || ParameterLocation.PATH]. *)
Definition parseParameterLocation (location : string)
  : Js.Runtime ParameterLocation :=
  let lower := Js.toLowerCase location in
  Js.lookupOr locations lower PATH.

(** The table of [parseSchemaType]. *)
Definition types : list (string * SchemaType) :=
  [ ("string", STRING); ("str", STRING);
    ("number", NUMBER); ("float", NUMBER); ("double", NUMBER);
    ("decimal", NUMBER);
    ("integer", INTEGER); ("int", INTEGER); ("long", INTEGER);
    ("boolean", BOOLEAN); ("bool", BOOLEAN);
    ("array", ARRAY); ("list", ARRAY);
    ("object", OBJECT); ("dict", OBJECT); ("map", OBJECT);
    ("null", NULL); ("none", NULL) ].

Definition parseSchemaType (ty : string) : Js.Runtime SchemaType :=
  let lower := Js.toLowerCase ty in
  Js.lookupOr types lower STRING.

(** The regular expression [\{([^}]+)\}] tried at the code unit after an
    opening brace: [braceBody s] is [Some (b, a)] when [s] is [b], a
    closing brace, then [a], with no closing brace in [b]. *)
Fixpoint braceBody (s : string) : option (string * string) :=
  match s with
  | EmptyString => None
  | String c s' =>
      if Ascii.eqb c "}" then Some (EmptyString, s')
      else match braceBody s' with
           | Some (b, a) => Some (String c b, a)
           | None => None
           end
  end.

(** [extractPathParams]: the loop of [regex.exec] with the global flag.
    At an opening brace followed by a non-empty body and a closing brace
    the body is pushed and the search resumes after the closing brace;
    anywhere else it resumes at the next code unit. *)
Equations? extractPathParams (p : string) : list string
  by wf (String.length p) lt :=
extractPathParams EmptyString := [];
extractPathParams (String c rest) with Ascii.eqb c "{" := {
  | false := extractPathParams rest
  | true with inspect (braceBody rest) := {
      | exist _ (Some (String b0 b, after)) Heq :=
          String b0 b :: extractPathParams after
      | exist _ _ _ := extractPathParams rest } }.
Proof.
  all: try (simpl; lia).
  clear extractPathParams. simpl.
  enough (String.length after < String.length rest) by lia.
  generalize (String b0 b) Heq. clear. revert after.
  induction rest as [|c rest IH]; intros after body; simpl; [discriminate|].
  destruct (Ascii.eqb c "}").
  - intros [= _ <-]. lia.
  - destruct (braceBody rest) as [[b' a']|] eqn:E; [|discriminate].
    intros [= _ <-]. specialize (IH _ _ eq_refl). lia.
Qed.

(** [normalizePath]. *)
Definition normalizePath (p : string) : string :=
  let normalized := p in
  (* add a leading slash *)
  let normalized :=
    if negb (Js.startsWith normalized "/") then "/" ++ normalized
    else normalized in
  (* remove the trailing slash (but for the root path) *)
  let normalized :=
    if Nat.ltb 1 (String.length normalized) && Js.endsWith normalized "/"
    then Js.slice_0_m1 normalized
    else normalized in
  (* clean repeated slashes *)
  Js.replaceSlashRuns normalized.

(** [getStatusDescription] and [createDefaultResponse]. *)
Definition getStatusDescription (code : Z) : string :=
  if (code =? 200)%Z then "Successful response"
  else if (code =? 201)%Z then "Created"
  else if (code =? 204)%Z then "No content"
  else if (code =? 400)%Z then "Bad request"
  else if (code =? 401)%Z then "Unauthorized"
  else if (code =? 403)%Z then "Forbidden"
  else if (code =? 404)%Z then "Not found"
  else if (code =? 422)%Z then "Validation error"
  else if (code =? 500)%Z then "Internal server error"
  else "Response".

Definition createDefaultResponse (code : Z) (descr : option string)
  : ApiResponse :=
  {| statusCode := code;
     description :=
       Some (match descr with
             | Some d => if String.eqb d "" then getStatusDescription code else d
             | None => getStatusDescription code
             end);
     contentType := Some "application/json" |}.

(** [groupEndpoints]: the groups are the entries of the map, in
    insertion order. *)
Definition groupEndpoints (eps : list ApiEndpoint)
    (getGroupName : ApiEndpoint -> string) : list ApiGroup :=
  let groupMap :=
    fold_left
      (fun groupMap endpoint =>
         let groupName := getGroupName endpoint in
         Js.map_file groupMap groupName endpoint)
      eps [] in
  map
    (fun '(name, eps) =>
       {| group_name := name; group_description := None; endpoints := eps |})
    groupMap.

(** The table of [parseHttpMethod]. *)
Definition methods : list (string * HttpMethod) :=
  [ ("GET", GET); ("POST", POST); ("PUT", PUT); ("DELETE", DELETE);
    ("PATCH", PATCH); ("OPTIONS", OPTIONS); ("HEAD", HEAD) ].

(** The values of the members of [HttpMethod]. *)
Definition methodValue (m : HttpMethod) : string :=
  match m with
  | GET => "GET" | POST => "POST" | PUT => "PUT" | DELETE => "DELETE"
  | PATCH => "PATCH" | OPTIONS => "OPTIONS" | HEAD => "HEAD"
  end.

(** [parseHttpMethod]: [methods[upper]].  A name with a code unit above
    255 is the name of no property. *)
Definition parseHttpMethod (method : string) : Js.Property HttpMethod :=
  match Js.ofCodeUnits (Js.toUpperCase method) with
  | Some upper => Js.getProperty methods upper
  | None => Js.Undefined
  end.

End BaseExtractor.

(** ** Path parameters of an endpoint *)

(** A parameter whose location is PATH. *)
Definition isPathParameter (p : ApiParameter) : bool :=
  match param_in p with
  | Js.Typed PATH => true
  | _ => false
  end.

(** The names of the path parameters of an endpoint, in order. *)
Definition pathParameterNames (e : ApiEndpoint) : list string :=
  map param_name (List.filter isPathParameter (parameters e)).

(** The path parameters of an endpoint that bear the name [name]. *)
Definition pathParametersNamed (name : string) (e : ApiEndpoint)
  : list ApiParameter :=
  List.filter (fun p => isPathParameter p && String.eqb (param_name p) name)
    (parameters e).

(** Path-parameter completeness: each placeholder of the path of the
    endpoint has exactly one path parameter of its name, and that
    parameter is required. *)
Definition PathParameterComplete (e : ApiEndpoint) : Prop :=
  forall name, In name (BaseExtractor.extractPathParams (path e)) ->
    exists p, pathParametersNamed name e = [p] /\ param_required p = true.


(** ** Groups of endpoints *)

(** The distinct strings of a list, each at its first occurrence. *)
Definition addKey (keys : list string) (k : string) : list string :=
  if existsb (String.eqb k) keys then keys else (keys ++ [k])%list.

Definition distinctInOrder (l : list string) : list string :=
  fold_left addKey l [].

(** The number of endpoints of a list of groups. *)
Definition endpointCountOf (gs : list ApiGroup) : nat :=
  length (concat (map endpoints gs)).

(** ** The OpenAPI extractor ([extractors/openapi.ts]) *)

Module OpenApiExtractor.

(** The document types, as declared.  An object whose entries the program
    enumerates ([Object.entries], [Object.keys], [Object.values]) is the
    list of its entries in enumeration order. *)
Record OpenApiSchema : Type := { s_type : option string }.

Record OpenApiParameter : Type := {
  p_name : string;
  p_in : string;
  p_required : option bool;
  p_schema : option OpenApiSchema
}.

Record OpenApiMedia : Type := { m_schema : option OpenApiSchema }.

Record OpenApiRequestBody : Type := {
  rb_required : option bool;
  rb_content : list (string * OpenApiMedia)
}.

Record OpenApiResponse : Type := {
  r_description : string;
  r_content : option (list (string * OpenApiMedia))
}.

Record OpenApiOperation : Type := {
  op_operationId : option string;
  op_tags : option (list string);
  op_parameters : option (list OpenApiParameter);
  op_requestBody : option OpenApiRequestBody;
  op_responses : list (string * OpenApiResponse)
}.

Record OpenApiPathItem : Type := {
  pi_get : option OpenApiOperation;
  pi_post : option OpenApiOperation;
  pi_put : option OpenApiOperation;
  pi_delete : option OpenApiOperation;
  pi_patch : option OpenApiOperation;
  pi_options : option OpenApiOperation;
  pi_head : option OpenApiOperation;
  pi_parameters : option (list OpenApiParameter)
}.

Record OpenApiTag : Type := {
  tag_name : string;
  tag_description : option string
}.

Record OpenApiDocument : Type := {
  doc_title : string;
  doc_version : string;
  doc_servers : option (list string);
  doc_paths : list (string * OpenApiPathItem);
  doc_tags : option (list OpenApiTag)
}.

(** [convertSchema], the [type] tag: [parseSchemaType(schema.type || 'string')].
    The sub-schemas ([properties], [items], [additionalProperties],
    [oneOf], [anyOf], [allOf]), into which the source recurses, are not
    modelled: a schema is taken to be a finite tree, on which the
    recursion ends and leaves the [type] tag as it is. *)
Definition convertSchema (s : OpenApiSchema) : ApiSchema :=
  {| schema_type :=
       BaseExtractor.parseSchemaType
         (match s_type s with
          | Some t => if String.eqb t "" then "string" else t
          | None => "string"
          end) |}.

(** [convertParameter]. *)
Definition convertParameter (param : OpenApiParameter) : ApiParameter :=
  {| param_name := p_name param;
     param_in := BaseExtractor.parseParameterLocation (p_in param);
     param_required := default false (p_required param);
     param_schema :=
       match p_schema param with
       | Some s => convertSchema s
       | None => {| schema_type := Js.Typed STRING |}
       end |}.

(** The representative content of a request body or response:
    [content['application/json'] || Object.values(content)[0]], with the
    content type that goes with it. *)
Definition firstContent (content : list (string * OpenApiMedia))
  : option (string * OpenApiMedia) :=
  match Js.ownProperty content "application/json" with
  | Some m => Some ("application/json", m)
  | None => head content
  end.

(** [convertRequestBody]. *)
Definition convertRequestBody (body : OpenApiRequestBody) : ApiRequestBody :=
  let first := firstContent (rb_content body) in
  {| body_required := default false (rb_required body);
     body_contentType := fst <$> first;
     body_schema :=
       match first ≫= (fun km => m_schema (snd km)) with
       | Some s => convertSchema s
       | None => {| schema_type := Js.Typed OBJECT |}
       end |}.

(** [convertResponse]: [isNaN(statusCode) ? 200 : statusCode]. *)
Definition convertResponse (code : option Z) (response : OpenApiResponse)
  : ApiResponse :=
  {| statusCode := match code with None => 200%Z | Some n => n end;
     description := Some (r_description response);
     contentType := fst <$> (r_content response ≫= firstContent) |}.

(** [createEndpoint]. *)
Definition createEndpoint (p : string) (m : HttpMethod)
    (operation : OpenApiOperation) (pathParams : list OpenApiParameter)
  : ApiEndpoint :=
  (* path-level and operation-level parameters, joined *)
  let allParams := (pathParams ++ default [] (op_parameters operation))%list in
  let parameters := map convertParameter allParams in
  let requestBody := convertRequestBody <$> op_requestBody operation in
  let responses :=
    map (fun '(code, resp) => convertResponse (Js.parseInt10 code) resp)
        (op_responses operation) in
  {| method := m;
     path := BaseExtractor.normalizePath p;
     operationId := op_operationId operation;
     tags := op_tags operation;
     parameters := parameters;
     requestBody := requestBody;
     responses := responses |}.

(** [extractEndpoints]: for each path, the seven methods in a fixed order;
    a method without operation is skipped. *)
Definition methodsOf (item : OpenApiPathItem)
  : list (HttpMethod * option OpenApiOperation) :=
  [ (GET, pi_get item); (POST, pi_post item); (PUT, pi_put item);
    (DELETE, pi_delete item); (PATCH, pi_patch item);
    (OPTIONS, pi_options item); (HEAD, pi_head item) ].

Definition extractEndpoints (api : OpenApiDocument) : list ApiEndpoint :=
  flat_map
    (fun '(pathUrl, pathItem) =>
       let pathParams := default [] (pi_parameters pathItem) in
       flat_map
         (fun '(m, operation) =>
            match operation with
            | None => []
            | Some op => [createEndpoint pathUrl m op pathParams]
            end)
         (methodsOf pathItem))
    (doc_paths api).

(** *** Authentication *)

(** [AuthType] and [ApiAuth] of [core/types] (without the OAuth2
    scopes). *)
Inductive AuthType : Set := BEARER | API_KEY | BASIC | OAUTH2 | NONE.

Inductive KeyLocation : Set := header | query.

Record ApiAuth : Type := {
  auth_type : AuthType;
  keyName : option string;
  keyLocation : option KeyLocation;
  tokenPlaceholder : string
}.

Record OpenApiSecurityScheme : Type := {
  ss_type : string;
  ss_scheme : option string;
  ss_name : option string;
  ss_in : option string
}.

(** What one round of the loop of [extractAuthFromSecuritySchemes]
    returns, [None] when it goes on to the next scheme. *)
Definition authOfScheme (scheme : OpenApiSecurityScheme) : option ApiAuth :=
  if String.eqb (ss_type scheme) "http"
     && bool_decide (ss_scheme scheme = Some "bearer")
  then Some {| auth_type := BEARER;
               keyName := None;
               keyLocation := None;
               tokenPlaceholder := "{{token}}" |}
  else if String.eqb (ss_type scheme) "apiKey"
  then Some {| auth_type := API_KEY;
               keyName :=
                 Some (match ss_name scheme with
                       | Some n => if String.eqb n "" then "X-API-Key" else n
                       | None => "X-API-Key"
                       end);
               keyLocation :=
                 Some (if bool_decide (ss_in scheme = Some "query")
                       then query else header);
               tokenPlaceholder := "{{apiKey}}" |}
  else if String.eqb (ss_type scheme) "http"
          && bool_decide (ss_scheme scheme = Some "basic")
  then Some {| auth_type := BASIC;
               keyName := None;
               keyLocation := None;
               tokenPlaceholder := "{{basicAuth}}" |}
  else None.

(** [extractAuthFromSecuritySchemes], over the entries of the schemes in
    enumeration order. *)
Fixpoint extractAuthFromSecuritySchemes
    (schemes : list (string * OpenApiSecurityScheme)) : option ApiAuth :=
  match schemes with
  | [] => None
  | (name, scheme) :: rest =>
      match authOfScheme scheme with
      | Some auth => Some auth
      | None => extractAuthFromSecuritySchemes rest
      end
  end.

(** *** Grouping by tag *)

(** The values of [tagMap]. *)
Record TagData : Type := {
  data_description : option string;
  data_endpoints : list ApiEndpoint
}.

(** [data.endpoints.push(endpoint)]. *)
Definition pushed (e : ApiEndpoint) (d : TagData) : TagData :=
  {| data_description := data_description d;
     data_endpoints := (data_endpoints d ++ [e])%list |}.

(** [tagMap.get(tagName)!.endpoints.push(endpoint)]: the value object of
    the key is mutated in place. *)
Fixpoint push_endpoint (m : list (string * TagData)) (k : string)
    (e : ApiEndpoint) : list (string * TagData) :=
  match m with
  | [] => []
  | (k', d) :: m' =>
      if String.eqb k' k
      then (k', pushed e d) :: m'
      else (k', d) :: push_endpoint m' k e
  end.

(** [endpoint.tags?.[0] || 'default']: the first tag, unless there is none
    or it is the empty string. *)
Definition tagNameOf (e : ApiEndpoint) : string :=
  match tags e with
  | Some (t :: _) => if String.eqb t "" then "default" else t
  | _ => "default"
  end.

(** The declared tags, then the [default] group. *)
Definition initialTagMap (declared : option (list OpenApiTag))
  : list (string * TagData) :=
  let tagMap :=
    fold_left
      (fun m tag =>
         Js.map_set m (tag_name tag)
           {| data_description := tag_description tag; data_endpoints := [] |})
      (default [] declared) [] in
  Js.map_set tagMap "default"
    {| data_description := None; data_endpoints := [] |}.

(** The loop that distributes the endpoints. *)
Definition placeEndpoint (m : list (string * TagData)) (e : ApiEndpoint)
  : list (string * TagData) :=
  let tagName := tagNameOf e in
  let m :=
    if negb (Js.map_has m tagName)
    then Js.map_set m tagName {| data_description := None; data_endpoints := [] |}
    else m in
  push_endpoint m tagName e.

(** The final loop: empty groups are filtered out. *)
Definition materialize (m : list (string * TagData)) : list ApiGroup :=
  flat_map
    (fun '(name, data) =>
       if Nat.ltb 0 (length (data_endpoints data))
       then [ {| group_name := name;
                 group_description := data_description data;
                 endpoints := data_endpoints data |} ]
       else [])
    m.

(** [groupEndpointsByTag]. *)
Definition groupEndpointsByTag (eps : list ApiEndpoint)
    (declared : option (list OpenApiTag)) : list ApiGroup :=
  materialize (fold_left placeEndpoint eps (initialTagMap declared)).

(** The endpoints of [eps] that go under the name [k], in their order. *)
Definition tagged (k : string) (eps : list ApiEndpoint) : list ApiEndpoint :=
  List.filter (fun e => String.eqb (tagNameOf e) k) eps.

(** The invariant of the distribution loop: the keys are distinct, each
    value holds the endpoints seen so far that go under its key, and the
    key of every endpoint seen so far is present. *)
Record distributed (m : list (string * TagData))
    (seen : list ApiEndpoint) : Prop := {
  keys_distinct : NoDup (map fst m);
  holds_tagged :
    forall k d, Js.map_get m k = Some d -> data_endpoints d = tagged k seen;
  key_present : forall e, In e seen -> is_Some (Js.map_get m (tagNameOf e))
}.

(** *** Parsing and the whole extraction *)

(** The two entry points of [SwaggerParser] that the extractor calls. *)
Inductive ParserCall : Set := Dereference | Bundle.

Section Extract.

(** [SwaggerParser.dereference] and [SwaggerParser.bundle]. *)
Variable dereference : string -> Outcome OpenApiDocument.
Variable bundle : string -> Outcome OpenApiDocument.

(** [parseSpec], with the calls it makes to the parser, in order. *)
Definition parseSpec (source : string)
  : option OpenApiDocument * list ParserCall :=
  match dereference source with
  | Returned api => (Some api, [Dereference])
  | Thrown _ =>
      (* dereferencing failed: try bundling *)
      match bundle source with
      | Returned api => (Some api, [Dereference; Bundle])
      | Thrown _ => (None, [Dereference; Bundle])
      end
  end.

(** The [try] block of [extract].  The document is read at its declared
    type, with schemas that are finite trees: there the steps after
    [parseSpec] do not throw.  On a document that is not so (no [info],
    an operation without [responses], a circular schema) one of them
    throws, and [extract] returns the error result of its [catch]. *)
Definition extract_try (source : string) (config : ApigenConfig)
  : Outcome ExtractorResult :=
  match fst (parseSpec source) with
  | None =>
      Returned (BaseExtractor.createErrorResult
                  ["OpenAPI spec dosyası parse edilemedi"] None)
  | Some api =>
      let project := BaseExtractor.createEmptyProject OPENAPI source config in
      let eps := extractEndpoints api in
      let project :=
        {| info_title := doc_title api;
           info_version := doc_version api;
           baseUrl :=
             match doc_servers api with
             | Some (url :: _) => url
             | _ => baseUrl project
             end;
           groups := groupEndpointsByTag eps (doc_tags api);
           projectType := projectType project;
           sourcePath := sourcePath project |} in
      Returned (BaseExtractor.createSuccessResult project 1 None)
  end.

(** [extract]: whatever the [try] block throws becomes an error result. *)
Definition extract (source : string) (config : ApigenConfig)
  : ExtractorResult :=
  match extract_try source config with
  | Returned r => r
  | Thrown errorMessage =>
      BaseExtractor.createErrorResult
        ["OpenAPI parse hatası: " ++ errorMessage] None
  end.

End Extract.

End OpenApiExtractor.

(** ** The FastAPI extractor ([extractors/python/fastapi.ts]) *)

Module FastApiExtractor.

Record ExtractedRoute : Type := {
  route_method : HttpMethod;
  route_path : string;
  functionName : string;
  routerName : string;
  filePath : string;
  functionParams : string
}.

Record ExtractedModel : Type := {
  model_name : string;
  model_filePath : string
}.

Record RouterInfo : Type := {
  router_name : string;
  prefix : string;
  router_filePath : string
}.

(** An entry of what [parseFunctionParams] returns. *)
Record FuncParam : Type := {
  fp_name : string;
  fp_type : string;
  hasDefault : bool
}.

Definition TYPE_PATTERNS : list (string * SchemaType) :=
  [ ("str", STRING); ("int", INTEGER); ("float", NUMBER); ("bool", BOOLEAN);
    ("list", ARRAY); ("dict", OBJECT); ("List", ARRAY); ("Dict", OBJECT);
    ("Optional", STRING); ("Any", STRING) ].

(** [pythonTypeToSchemaType]: the generic part is cut off, then
    [TYPE_PATTERNS[cleanType] || SchemaType.STRING]. *)
Definition pythonTypeToSchemaType (pythonType : string)
  : Js.Runtime SchemaType :=
  let cleanType := Js.beforeFirst "[" (Js.trim pythonType) in
  Js.lookupOr TYPE_PATTERNS cleanType STRING.

Section Extractor.

(** The state of the extractor after the scan of the files. *)
Variable models : gmap string ExtractedModel.
Variable routers : gmap string RouterInfo.

(** [parseFunctionParams], which splits the parameter text of a handler
    with regular expressions; its result is taken as given. *)
Variable parseFunctionParams : string -> list FuncParam.

(** The router prefix is applied when the router is known and its prefix
    is not the empty string. *)
Definition fullPathOf (route : ExtractedRoute) : string :=
  match routers !! routerName route with
  | Some routerInfo =>
      if String.eqb (prefix routerInfo) "" then route_path route
      else prefix routerInfo ++ route_path route
  | None => route_path route
  end.

(** The first loop of [routeToEndpoint]: one parameter for each
    placeholder of the path. *)
Definition pathParameters (pathParams : list string)
    (funcParams : list FuncParam) : list ApiParameter :=
  map
    (fun paramName =>
       let funcParam :=
         find (fun p => String.eqb (fp_name p) paramName) funcParams in
       {| param_name := paramName;
          param_in := Js.Typed PATH;
          param_required := true;
          param_schema :=
            {| schema_type :=
                 match funcParam with
                 | Some fp => pythonTypeToSchemaType (fp_type fp)
                 | None => Js.Typed STRING
                 end |} |})
    pathParams.

(** The second loop: the handler parameters that are no placeholder, no
    injected object and no model become query parameters. *)
Definition queryParameters (pathParams : list string)
    (funcParams : list FuncParam) : list ApiParameter :=
  flat_map
    (fun param =>
       if existsb (String.eqb (fp_name param)) pathParams then []
       else if String.eqb (fp_name param) "request"
               || String.eqb (fp_name param) "db"
               || String.eqb (fp_name param) "session" then []
       else if bool_decide (is_Some (models !! fp_type param)) then []
       else [ {| param_name := fp_name param;
                 param_in := Js.Typed QUERY;
                 param_required := negb (hasDefault param);
                 param_schema :=
                   {| schema_type := pythonTypeToSchemaType (fp_type param) |}
              |} ])
    funcParams.

Definition bodyMethod (m : HttpMethod) : bool :=
  match m with POST | PUT | PATCH => true | _ => false end.

(** [routeToEndpoint]. *)
Definition routeToEndpoint (route : ExtractedRoute) : ApiEndpoint :=
  let fullPath := fullPathOf route in
  let pathParams := BaseExtractor.extractPathParams fullPath in
  let funcParams := parseFunctionParams (functionParams route) in
  let parameters :=
    (pathParameters pathParams funcParams
       ++ queryParameters pathParams funcParams)%list in
  let bodyParam :=
    find (fun p => bool_decide (is_Some (models !! fp_type p))) funcParams in
  let requestBody :=
    match bodyParam with
    | Some bp =>
        if bodyMethod (route_method route)
        then Some {| body_required := negb (hasDefault bp);
                     body_contentType := Some "application/json";
                     body_schema := {| schema_type := Js.Typed OBJECT |} |}
        else None
    | None => None
    end in
  {| method := route_method route;
     path := BaseExtractor.normalizePath fullPath;
     operationId := Some (functionName route);
     tags := None;
     parameters := parameters;
     requestBody := requestBody;
     responses :=
       [ BaseExtractor.createDefaultResponse 200 (Some "Successful Response");
         BaseExtractor.createDefaultResponse 422 (Some "Validation Error") ] |}.

End Extractor.

(** *** Splitting the parameter text of a handler *)

Definition isOpening (char : ascii) : bool :=
  Ascii.eqb char "(" || Ascii.eqb char "[" || Ascii.eqb char "{".

Definition isClosing (char : ascii) : bool :=
  Ascii.eqb char ")" || Ascii.eqb char "]" || Ascii.eqb char "}".

(** The loop of [splitParams], from the state [result], [current],
    [depth], over what is left of the text. *)
Fixpoint splitParams_from (result : list string) (current : string)
    (depth : Z) (str : string) : list string :=
  match str with
  | EmptyString =>
      if negb (String.eqb current "") then (result ++ [current])%list
      else result
  | String char rest =>
      if isOpening char
      then splitParams_from result (current ++ String char "") (depth + 1) rest
      else if isClosing char
      then splitParams_from result (current ++ String char "") (depth - 1) rest
      else if Ascii.eqb char "," && (depth =? 0)%Z
      then splitParams_from (result ++ [current])%list "" depth rest
      else splitParams_from result (current ++ String char "") depth rest
  end.

(** [splitParams]. *)
Definition splitParams (str : string) : list string :=
  splitParams_from [] "" 0 str.

(** The depth of brackets after a text read from the depth [depth], when
    the text holds no comma outside brackets; [None] when it holds one. *)
Fixpoint depthAfter (depth : Z) (s : string) : option Z :=
  match s with
  | EmptyString => Some depth
  | String char rest =>
      if isOpening char then depthAfter (depth + 1) rest
      else if isClosing char then depthAfter (depth - 1) rest
      else if Ascii.eqb char "," && (depth =? 0)%Z then None
      else depthAfter depth rest
  end.

(** *** Grouping and the whole extraction *)

(** A Python file of the project: what the scan reads off it (the router
    definitions as name and prefix, the names of the Pydantic models, the
    routes of [extractRoutes]), and the message of the error when
    [readFileSync] throws. *)
Record PythonFile : Type := {
  file_path : string;
  routerDefinitions : list (string * string);
  pydanticModels : list string;
  routes : list ExtractedRoute;
  readError : option string
}.

(** What [extractProjectName] finds at [pyproject.toml]: no file, a file
    that [readFileSync] cannot read, with the message of its exception,
    or a text, with the name that its first [name = '...'] declares when
    there is one. *)
Inductive ProjectFile : Type :=
| Absent
| Unreadable (errorMessage : string)
| Read (name : option string).

(** [extractRouterDefinitions] and [extractPydanticModels]: a later
    definition of a name replaces an earlier one. *)
Definition extractRouterDefinitions (file : PythonFile)
    (rs : gmap string RouterInfo) : gmap string RouterInfo :=
  fold_left
    (fun rs '(routerName, routerPrefix) =>
       <[ routerName := {| router_name := routerName;
                           prefix := routerPrefix;
                           router_filePath := file_path file |} ]> rs)
    (routerDefinitions file) rs.

Definition extractPydanticModels (file : PythonFile)
    (ms : gmap string ExtractedModel) : gmap string ExtractedModel :=
  fold_left
    (fun ms modelName =>
       <[ modelName := {| model_name := modelName;
                          model_filePath := file_path file |} ]> ms)
    (pydanticModels file) ms.

Section Extraction.

Variable parseFunctionParams : string -> list FuncParam.

(** [path.basename] of Node. *)
Variable basename : string -> string -> string.

(** [formatGroupName], which puts the first code unit of each word in
    upper case; its result, which may hold code units above 255, is taken
    as given. *)
Variable formatGroupName : string -> string.

(** The name of the group of a route: [Default] for [main.py], else the
    formatted name of the file. *)
Definition groupNameOf (route : ExtractedRoute) : string :=
  let fileName := basename (filePath route) ".py" in
  if String.eqb fileName "main" then "Default" else formatGroupName fileName.

(** The loop of [groupEndpointsByFile] over the endpoints that are left,
    with the routes from the same index on; [None] when there is no
    route at an index, where reading its [filePath] throws. *)
Fixpoint groupEndpointsByFile_from (groups : list (string * list ApiEndpoint))
    (endpoints : list ApiEndpoint) (routes : list ExtractedRoute)
  : option (list (string * list ApiEndpoint)) :=
  match endpoints with
  | [] => Some groups
  | endpoint :: endpoints' =>
      match routes with
      | [] => None
      | route :: routes' =>
          let groupName := groupNameOf route in
          groupEndpointsByFile_from (Js.map_file groups groupName endpoint)
            endpoints' routes'
      end
  end.

(** [groupEndpointsByFile]. *)
Definition groupEndpointsByFile (endpoints : list ApiEndpoint)
    (routes : list ExtractedRoute) : option (list ApiGroup) :=
  map
    (fun '(name, eps) =>
       {| group_name := name; group_description := None; endpoints := eps |})
  <$> groupEndpointsByFile_from [] endpoints routes.

(** The maps of the extractor after the scan of the files. *)
Definition routersOf (files : list PythonFile) : gmap string RouterInfo :=
  fold_left (fun rs file => extractRouterDefinitions file rs) files ∅.

Definition modelsOf (files : list PythonFile) : gmap string ExtractedModel :=
  fold_left (fun ms file => extractPydanticModels file ms) files ∅.

(** The endpoint of a route of the project. *)
Definition endpointOf (files : list PythonFile) (route : ExtractedRoute)
  : ApiEndpoint :=
  routeToEndpoint (modelsOf files) (routersOf files) parseFunctionParams route.

(** [extractProjectName]: the name that [pyproject.toml] declares, when
    the file exists and declares one, else the name of the directory;
    the exception of [readFileSync] is not caught here. *)
Definition extractProjectName (dirName : string) (pyproject : ProjectFile)
  : Outcome string :=
  match pyproject with
  | Absent => Returned dirName
  | Unreadable errorMessage => Thrown errorMessage
  | Read (Some name) => Returned name
  | Read None => Returned dirName
  end.

(** The [try] block of [extract]; [dirName] is [path.basename(source)]
    and [pyproject] is what stands at [pyproject.toml] in the project. *)
Definition extract_try (files : list PythonFile) (dirName : string)
    (pyproject : ProjectFile) (source : string) (config : ApigenConfig)
  : Outcome ExtractorResult :=
  if Nat.eqb (length files) 0
  then Returned (BaseExtractor.createErrorResult ["Python dosyası bulunamadı"] None)
  else
    match omap readError files with
    | errorMessage :: _ => Thrown errorMessage
    | [] =>
        let allRoutes := flat_map routes files in
        if Nat.eqb (length allRoutes) 0
        then Returned
               (BaseExtractor.createErrorResult
                  [ "FastAPI route bulunamadı";
                    "İpucu: @app.get(), @router.post() gibi decorator'ler aranıyor" ]
                  None)
        else
          let project :=
            BaseExtractor.createEmptyProject FASTAPI source config in
          match extractProjectName dirName pyproject with
          | Thrown errorMessage => Thrown errorMessage
          | Returned title =>
              let endpoints := map (endpointOf files) allRoutes in
              match groupEndpointsByFile endpoints allRoutes with
              | None =>
                  Thrown "Cannot read properties of undefined (reading 'filePath')"
              | Some groups =>
                  let project :=
                    {| info_title := title;
                       info_version := info_version project;
                       baseUrl := baseUrl project;
                       groups := groups;
                       projectType := projectType project;
                       sourcePath := sourcePath project |} in
                  Returned
                    (BaseExtractor.createSuccessResult project (length files)
                       (Some [ "FastAPI extractor experimental'dir. Tüm endpoint'ler algılanmamış olabilir." ]))
              end
          end
    end.

(** [extract]: whatever the [try] block throws becomes an error result. *)
Definition extract (files : list PythonFile) (dirName : string)
    (pyproject : ProjectFile) (source : string) (config : ApigenConfig)
  : ExtractorResult :=
  match extract_try files dirName pyproject source config with
  | Returned r => r
  | Thrown errorMessage =>
      BaseExtractor.createErrorResult ["FastAPI parse hatası: " ++ errorMessage] None
  end.

End Extraction.

End FastApiExtractor.

(** ** The Django REST Framework extractor *)

Module DjangoRestExtractor.

Inductive ViewType : Set := function | viewset | apiview.

Record ExtractedRoute : Type := {
  route_method : HttpMethod;
  route_path : string;
  viewName : string;
  viewType : ViewType;
  filePath : string
}.

Record ViewSetInfo : Type := {
  vs_name : string;
  vs_basePath : option string;
  vs_filePath : string
}.

Record Action : Type := {
  action_method : HttpMethod;
  pathSuffix : string
}.

(** The table from the ViewSet base classes to their actions. *)
Definition VIEWSET_ACTIONS : list (string * list Action) :=
  [ ("ModelViewSet",
      [ {| action_method := GET; pathSuffix := "" |};          (* list *)
        {| action_method := POST; pathSuffix := "" |};         (* create *)
        {| action_method := GET; pathSuffix := "/{id}" |};     (* retrieve *)
        {| action_method := PUT; pathSuffix := "/{id}" |};     (* update *)
        {| action_method := PATCH; pathSuffix := "/{id}" |};   (* partial_update *)
        {| action_method := DELETE; pathSuffix := "/{id}" |}   (* destroy *) ]);
    ("ReadOnlyModelViewSet",
      [ {| action_method := GET; pathSuffix := "" |};
        {| action_method := GET; pathSuffix := "/{id}" |} ]);
    ("ViewSet", [ {| action_method := GET; pathSuffix := "" |} ]);
    ("GenericViewSet", [ {| action_method := GET; pathSuffix := "" |} ]) ].

(** What the first pass reads off one file: the matches of
    [VIEWSET_CLASS_REGEX] (class name, base class) and those of
    [ROUTER_REGISTER_REGEX] (URL prefix, ViewSet name), in textual order. *)
Record ScannedFile : Type := {
  scanned_path : string;
  viewSetClasses : list (string * string);
  routerRegisters : list (string * string)
}.

(** The maps of the extractor: [viewSets] is only looked up,
    [routerRegistrations] is iterated in insertion order. *)
Record State : Type := {
  viewSets : gmap string ViewSetInfo;
  routerRegistrations : list (string * string)
}.

(** The state after the three [clear()] calls at the start of [extract]. *)
Definition cleared : State :=
  {| viewSets := ∅; routerRegistrations := [] |}.

(** [extractViewSetDefinitions]. *)
Definition extractViewSetDefinitions (file : ScannedFile)
    (vs : gmap string ViewSetInfo) : gmap string ViewSetInfo :=
  fold_left
    (fun vs '(className, baseClass) =>
       <[ className := {| vs_name := className;
                          vs_basePath := None;
                          vs_filePath := scanned_path file |} ]> vs)
    (viewSetClasses file) vs.

(** [extractRouterRegistrations]: the map is keyed by the ViewSet name. *)
Definition extractRouterRegistrations (file : ScannedFile)
    (regs : list (string * string)) : list (string * string) :=
  fold_left
    (fun regs '(urlPrefix, viewSetName) => Js.map_set regs viewSetName urlPrefix)
    (routerRegisters file) regs.

(** The first pass of [extract] over the files. *)
Definition firstPass (files : list ScannedFile) : State :=
  fold_left
    (fun st file =>
       {| viewSets := extractViewSetDefinitions file (viewSets st);
          routerRegistrations :=
            extractRouterRegistrations file (routerRegistrations st) |})
    files cleared.

(** The body of the loop of [generateViewSetRoutes] for one registration:
    a registration whose ViewSet is unknown is skipped; every other one is
    taken to be a [ModelViewSet]. *)
Definition registrationRoutes (vs : gmap string ViewSetInfo)
    (viewSetName urlPrefix : string) : list ExtractedRoute :=
  match vs !! viewSetName with
  | None => []
  | Some viewSetInfo =>
      let actions :=
        default [] (Js.ownProperty VIEWSET_ACTIONS "ModelViewSet") in
      map
        (fun action =>
           {| route_method := action_method action;
              route_path := "/api/" ++ urlPrefix ++ pathSuffix action;
              viewName := viewSetName;
              viewType := viewset;
              filePath := vs_filePath viewSetInfo |})
        actions
  end.

(** [generateViewSetRoutes]. *)
Definition generateViewSetRoutes (st : State) : list ExtractedRoute :=
  flat_map
    (fun '(viewSetName, urlPrefix) =>
       registrationRoutes (viewSets st) viewSetName urlPrefix)
    (routerRegistrations st).

(** The routes of [all] that belong to the ViewSet [name]. *)
Definition routesOf (name : string) (all : list ExtractedRoute)
  : list ExtractedRoute :=
  List.filter (fun r => String.eqb (viewName r) name) all.

(** The six operations of a [ModelViewSet] registered under [urlPrefix]:
    GET and POST on the collection path, GET, PUT, PATCH and DELETE on
    the path of one element. *)
Definition crudRoutes (name urlPrefix file : string) : list ExtractedRoute :=
  let collection := "/api/" ++ urlPrefix in
  let element := "/api/" ++ urlPrefix ++ "/{id}" in
  map
    (fun '(m, p) =>
       {| route_method := m; route_path := p; viewName := name;
          viewType := viewset; filePath := file |})
    [ (GET, collection); (POST, collection);
      (GET, element); (PUT, element); (PATCH, element); (DELETE, element) ].

Definition methodName (m : HttpMethod) : string :=
  match m with
  | GET => "GET" | POST => "POST" | PUT => "PUT" | DELETE => "DELETE"
  | PATCH => "PATCH" | OPTIONS => "OPTIONS" | HEAD => "HEAD"
  end.

Definition bodyMethod (m : HttpMethod) : bool :=
  match m with POST | PUT | PATCH => true | _ => false end.

(** [routeToEndpoint].  The request body is an object schema in both
    branches (with the fields of the serializer when one is found). *)
Definition routeToEndpoint (route : ExtractedRoute) : ApiEndpoint :=
  let pathParams := BaseExtractor.extractPathParams (route_path route) in
  let parameters :=
    map
      (fun paramName =>
         {| param_name := paramName;
            param_in := Js.Typed PATH;
            param_required := true;
            param_schema :=
              {| schema_type :=
                   Js.Typed
                     (if String.eqb paramName "id" || String.eqb paramName "pk"
                      then INTEGER else STRING) |} |})
      pathParams in
  let requestBody :=
    if bodyMethod (route_method route)
    then Some {| body_required := true;
                 body_contentType := Some "application/json";
                 body_schema := {| schema_type := Js.Typed OBJECT |} |}
    else None in
  {| method := route_method route;
     path := BaseExtractor.normalizePath (route_path route);
     operationId :=
       Some (viewName route ++ "_"
               ++ Js.toLowerCase (methodName (route_method route)));
     tags := None;
     parameters := parameters;
     requestBody := requestBody;
     responses :=
       [ BaseExtractor.createDefaultResponse
           (if decide (route_method route = POST) then 201 else 200)
           (Some "Successful Response") ] |}.

(** *** URL patterns *)

(** The class [\w] of regular expressions. *)
Definition isWordChar (c : ascii) : bool :=
  let n := nat_of_ascii c in
  (Nat.leb 48 n && Nat.leb n 57) || (Nat.leb 65 n && Nat.leb n 90)
  || Nat.eqb n 95 || (Nat.leb 97 n && Nat.leb n 122).

Fixpoint allWordChars (s : string) : bool :=
  match s with
  | EmptyString => true
  | String c s' => isWordChar c && allWordChars s'
  end.

(** The longest run of word characters at the start of a text, and what
    follows it: what [\w+] matches there, since what follows it in the
    patterns below is no word character. *)
Fixpoint wordRun (s : string) : string * string :=
  match s with
  | EmptyString => (EmptyString, EmptyString)
  | String c s' =>
      if isWordChar c
      then let '(w, r) := wordRun s' in (String c w, r)
      else (EmptyString, s)
  end.

(** The pattern [<(\w+):(\w+)>] tried after an opening angle bracket:
    the two groups and the text after the closing bracket. *)
Definition typedConverter (s : string) : option (string * string * string) :=
  let '(converter, r1) := wordRun s in
  if String.eqb converter "" then None
  else match r1 with
       | String ":" r2 =>
           let '(name, r3) := wordRun r2 in
           if String.eqb name "" then None
           else match r3 with
                | String ">" after => Some (converter, name, after)
                | _ => None
                end
       | _ => None
       end.

(** The pattern [<(\w+)>] tried after an opening angle bracket. *)
Definition plainConverter (s : string) : option (string * string) :=
  let '(name, r1) := wordRun s in
  if String.eqb name "" then None
  else match r1 with
       | String ">" after => Some (name, after)
       | _ => None
       end.

(** [s.replace(/<(\w+):(\w+)>/g, '{$2}')]: at an opening angle bracket
    where the pattern matches, the name between braces is put and the
    search resumes after the closing bracket; anywhere else the code
    unit is kept. *)
Equations? replaceTypedConverters (s : string) : string
  by wf (String.length s) lt :=
replaceTypedConverters EmptyString := EmptyString;
replaceTypedConverters (String c rest) with Ascii.eqb c "<" := {
  | false := String c (replaceTypedConverters rest)
  | true with inspect (typedConverter rest) := {
      | exist _ (Some (_, name, after)) Heq :=
          "{" ++ name ++ "}" ++ replaceTypedConverters after
      | exist _ None _ := String c (replaceTypedConverters rest) } }.
Proof.
  all: try (simpl; lia).
  clear replaceTypedConverters. simpl.
  enough (String.length after < String.length rest) by lia.
  assert (forall s w r, wordRun s = (w, r) ->
                        String.length r <= String.length s) as Hrun.
  { clear. induction s as [|c s IH]; intros w r; cbn [wordRun].
    - by intros [= <- <-].
    - destruct (isWordChar c); [|intros [= <- <-]; lia].
      destruct (wordRun s) as [w' r']. intros [= <- <-].
      specialize (IH _ _ eq_refl). simpl. lia. }
  revert Heq. unfold typedConverter.
  destruct (wordRun rest) as [w r1] eqn:H1.
  destruct (String.eqb w ""); [discriminate|].
  destruct r1 as [|c1 r2]; [discriminate|].
  destruct (Ascii.eqb_spec c1 ":") as [->|Hc1];
    [|by destruct c1 as [[] [] [] [] [] [] [] []]].
  destruct (wordRun r2) as [n r3] eqn:H2.
  destruct (String.eqb n ""); [discriminate|].
  destruct r3 as [|c3 r4]; [discriminate|].
  destruct (Ascii.eqb_spec c3 ">") as [->|Hc3];
    [|by destruct c3 as [[] [] [] [] [] [] [] []]].
  intros [= _ _ <-].
  apply Hrun in H1, H2. simpl in *. lia.
Qed.

(** [s.replace(/<(\w+)>/g, '{$1}')]. *)
Equations? replacePlainConverters (s : string) : string
  by wf (String.length s) lt :=
replacePlainConverters EmptyString := EmptyString;
replacePlainConverters (String c rest) with Ascii.eqb c "<" := {
  | false := String c (replacePlainConverters rest)
  | true with inspect (plainConverter rest) := {
      | exist _ (Some (name, after)) Heq :=
          "{" ++ name ++ "}" ++ replacePlainConverters after
      | exist _ None _ := String c (replacePlainConverters rest) } }.
Proof.
  all: try (simpl; lia).
  clear replacePlainConverters. simpl.
  enough (String.length after < String.length rest) by lia.
  assert (forall s w r, wordRun s = (w, r) ->
                        String.length r <= String.length s) as Hrun.
  { clear. induction s as [|c s IH]; intros w r; cbn [wordRun].
    - by intros [= <- <-].
    - destruct (isWordChar c); [|intros [= <- <-]; lia].
      destruct (wordRun s) as [w' r']. intros [= <- <-].
      specialize (IH _ _ eq_refl). simpl. lia. }
  revert Heq. unfold plainConverter.
  destruct (wordRun rest) as [w r1] eqn:H1.
  destruct (String.eqb w ""); [discriminate|].
  destruct r1 as [|c1 r2]; [discriminate|].
  destruct (Ascii.eqb_spec c1 ">") as [->|Hc1];
    [|by destruct c1 as [[] [] [] [] [] [] [] []]].
  intros [= _ <-].
  apply Hrun in H1. simpl in *. lia.
Qed.

(** The path of a URL pattern, [normalizedPath] in [extractRoutes]. *)
Definition normalizedPath (urlPath : string) : string :=
  "/" ++ replacePlainConverters (replaceTypedConverters urlPath).

(** The second loop of [extractRoutes], over the matches of
    [URL_PATH_REGEX] (URL path, view name) in a file: a pattern whose
    view is a known ViewSet gives no route. *)
Definition urlPathRoutes (vs : gmap string ViewSetInfo) (file : string)
    (matches : list (string * string)) : list ExtractedRoute :=
  flat_map
    (fun '(urlPath, viewName) =>
       match vs !! viewName with
       | Some viewSetInfo => []
       | None =>
           [ {| route_method := GET;
                route_path := normalizedPath urlPath;
                viewName := viewName;
                viewType := apiview;
                filePath := file |} ]
       end)
    matches.

(** *** Function-based views *)

(** [s.replace(/([A-Z])/g, '_$1')]. *)
Fixpoint underscoreCapitals (s : string) : string :=
  match s with
  | EmptyString => EmptyString
  | String c s' =>
      if Js.isAsciiUpper c then String "_" (String c (underscoreCapitals s'))
      else String c (underscoreCapitals s')
  end.

(** [camelToSnake]: an underscore before each capital, lower case, and
    no underscore at the start ([replace(/^_/, '')]). *)
Definition camelToSnake (str : string) : string :=
  match Js.toLowerCase (underscoreCapitals str) with
  | String c rest => if Ascii.eqb c "_" then rest else String c rest
  | EmptyString => EmptyString
  end.

(** [s.replace(/_/g, '-')]. *)
Fixpoint hyphenate (s : string) : string :=
  match s with
  | EmptyString => EmptyString
  | String c s' =>
      String (if Ascii.eqb c "_" then "-"%char else c) (hyphenate s')
  end.

(** The route that the first loop of [extractRoutes] pushes for a
    function [funcName] under [@api_view] and one of its methods. *)
Definition functionRoute (m : HttpMethod) (funcName file : string)
  : ExtractedRoute :=
  {| route_method := m;
     route_path := "/" ++ hyphenate (camelToSnake funcName);
     viewName := funcName;
     viewType := function;
     filePath := file |}.

(** *** Grouping and the whole extraction *)

(** The name of the group of a route:
    [viewName.replace(/ViewSet$/, '').replace(/View$/, '')]. *)
Definition groupNameOf (route : ExtractedRoute) : string :=
  Js.replaceSuffix "View" "" (Js.replaceSuffix "ViewSet" "" (viewName route)).

(** The loop of [groupEndpointsByView] over the endpoints that are left,
    with the routes from the same index on; [None] when there is no
    route at an index, where reading its [viewName] throws. *)
Fixpoint groupEndpointsByView_from (groups : list (string * list ApiEndpoint))
    (endpoints : list ApiEndpoint) (routes : list ExtractedRoute)
  : option (list (string * list ApiEndpoint)) :=
  match endpoints with
  | [] => Some groups
  | endpoint :: endpoints' =>
      match routes with
      | [] => None
      | route :: routes' =>
          let groupName := groupNameOf route in
          groupEndpointsByView_from (Js.map_file groups groupName endpoint)
            endpoints' routes'
      end
  end.

(** [groupEndpointsByView]. *)
Definition groupEndpointsByView (endpoints : list ApiEndpoint)
    (routes : list ExtractedRoute) : option (list ApiGroup) :=
  map
    (fun '(name, eps) =>
       {| group_name := name; group_description := None; endpoints := eps |})
  <$> groupEndpointsByView_from [] endpoints routes.

(** What the second pass reads off a file: the routes that the first
    loop of [extractRoutes] pushes for the functions under [@api_view],
    and the matches of [URL_PATH_REGEX] (URL path, view name). *)
Record RouteMatches : Type := {
  functionRoutes : list ExtractedRoute;
  urlPaths : list (string * string)
}.

(** A Python file of the project: what the two passes read off it, and
    the message of the error when [readFileSync] throws. *)
Record PythonFile : Type := {
  scanned : ScannedFile;
  routeMatches : RouteMatches;
  readError : option string
}.

(** [extractRoutes], in a state of the extractor. *)
Definition extractRoutes (vs : gmap string ViewSetInfo) (file : PythonFile)
  : list ExtractedRoute :=
  (functionRoutes (routeMatches file)
     ++ urlPathRoutes vs (scanned_path (scanned file))
          (urlPaths (routeMatches file)))%list.

(** All the routes of a project: those of the files, then those of the
    registered ViewSets. *)
Definition allRoutesOf (files : list PythonFile) : list ExtractedRoute :=
  let st := firstPass (map scanned files) in
  (flat_map (extractRoutes (viewSets st)) files
     ++ generateViewSetRoutes st)%list.

(** The [try] block of [extract]; [projectName] is what
    [extractProjectName] returns. *)
Definition extract_try (files : list PythonFile) (projectName source : string)
    (config : ApigenConfig) : Outcome ExtractorResult :=
  if Nat.eqb (length files) 0
  then Returned (BaseExtractor.createErrorResult ["Python dosyası bulunamadı"] None)
  else
    match omap readError files with
    | errorMessage :: _ => Thrown errorMessage
    | [] =>
        let allRoutes := allRoutesOf files in
        if Nat.eqb (length allRoutes) 0
        then Returned
               (BaseExtractor.createErrorResult
                  [ "Django REST Framework endpoint bulunamadı";
                    "İpucu: @api_view, ViewSet, APIView gibi pattern'lar aranıyor" ]
                  None)
        else
          let project :=
            BaseExtractor.createEmptyProject DJANGO_REST source config in
          let endpoints := map routeToEndpoint allRoutes in
          match groupEndpointsByView endpoints allRoutes with
          | None => Thrown "Cannot read properties of undefined (reading 'viewName')"
          | Some groups =>
              let project :=
                {| info_title := projectName;
                   info_version := info_version project;
                   baseUrl := baseUrl project;
                   groups := groups;
                   projectType := projectType project;
                   sourcePath := sourcePath project |} in
              Returned
                (BaseExtractor.createSuccessResult project (length files)
                   (Some [ "Django REST Framework extractor experimental'dir. Tüm endpoint'ler algılanmamış olabilir." ]))
          end
    end.

(** [extract]: whatever the [try] block throws becomes an error result. *)
Definition extract (files : list PythonFile) (projectName source : string)
    (config : ApigenConfig) : ExtractorResult :=
  match extract_try files projectName source config with
  | Returned r => r
  | Thrown errorMessage =>
      BaseExtractor.createErrorResult
        ["Django REST Framework parse hatası: " ++ errorMessage] None
  end.

End DjangoRestExtractor.

(** ** The loop over the placeholders of a path *)

(** The body of the loop that [SpringBootExtractor.routeToEndpoint] and
    [AspNetExtractor.routeToEndpoint] both run over the placeholders of
    the path of a route: unless [parameters.find] finds a parameter of
    that name, of whatever location, a required path parameter of type
    string is pushed. *)
Definition addPathParameter (parameters : list ApiParameter)
    (paramName : string) : list ApiParameter :=
  if existsb (fun p => String.eqb (param_name p) paramName) parameters
  then parameters
  else (parameters
          ++ [ {| param_name := paramName;
                  param_in := Js.Typed PATH;
                  param_required := true;
                  param_schema := {| schema_type := Js.Typed STRING |} |} ])%list.

(** ** The Flask extractor ([extractors/python/flask.ts], class
    [FlaskExtractor]) *)

Module FlaskExtractor.

Record ExtractedRoute : Type := {
  route_methods : list HttpMethod;
  route_path : string;
  functionName : string;
  blueprintName : option string;   (* [null] for a route of the app *)
  filePath : string;
  lineNumber : nat
}.

Record BlueprintInfo : Type := {
  bp_name : string;
  variableName : string;
  bp_prefix : string;
  bp_filePath : string
}.

Definition FLASK_TYPE_MAP : list (string * SchemaType) :=
  [ ("int", INTEGER); ("float", NUMBER); ("string", STRING);
    ("path", STRING); ("uuid", STRING); ("any", STRING) ].

(** [FLASK_PARAM_REGEX], the pattern [<(?:(\w+):)?(\w+)>], tried after an
    opening angle bracket: the type when the optional group takes part,
    the name, and the text after the closing bracket.  The optional group
    is tried first; without it the pattern is that of a name alone. *)
Definition flaskParam (s : string) : option (option string * string * string) :=
  match DjangoRestExtractor.typedConverter s with
  | Some (type, name, after) => Some (Some type, name, after)
  | None =>
      match DjangoRestExtractor.plainConverter s with
      | Some (name, after) => Some (None, name, after)
      | None => None
      end
  end.

(** What [fullPath.replace(FLASK_PARAM_REGEX, ...)] goes through, from
    left to right: the matches of the pattern, and the code units
    between them. *)
Inductive PathPiece : Type :=
| CodeUnit (c : ascii)
| Converter (type : option string) (name : string).

Equations? pathPieces (s : string) : list PathPiece
  by wf (String.length s) lt :=
pathPieces EmptyString := [];
pathPieces (String c rest) with Ascii.eqb c "<" := {
  | false := CodeUnit c :: pathPieces rest
  | true with inspect (flaskParam rest) := {
      | exist _ (Some (type, name, after)) Heq :=
          Converter type name :: pathPieces after
      | exist _ None _ := CodeUnit c :: pathPieces rest } }.
Proof.
  all: try (simpl; lia).
  clear pathPieces. simpl.
  enough (String.length after < String.length rest) by lia.
  assert (forall s w r, DjangoRestExtractor.wordRun s = (w, r) ->
                        String.length r <= String.length s) as Hrun.
  { clear. induction s as [|c s IH]; intros w r;
      cbn [DjangoRestExtractor.wordRun].
    - by intros [= <- <-].
    - destruct (DjangoRestExtractor.isWordChar c); [|intros [= <- <-]; lia].
      destruct (DjangoRestExtractor.wordRun s) as [w' r']. intros [= <- <-].
      specialize (IH _ _ eq_refl). simpl. lia. }
  revert Heq. unfold flaskParam, DjangoRestExtractor.typedConverter,
    DjangoRestExtractor.plainConverter.
  destruct (DjangoRestExtractor.wordRun rest) as [w r1] eqn:H1.
  apply Hrun in H1.
  destruct (String.eqb w ""); [discriminate|].
  destruct r1 as [|c1 r2]; [discriminate|].
  destruct (Ascii.eqb_spec c1 ":") as [->|Hc1].
  - destruct (DjangoRestExtractor.wordRun r2) as [n r3] eqn:H2.
    apply Hrun in H2.
    destruct (String.eqb n ""); [discriminate|].
    destruct r3 as [|c3 r4]; [discriminate|].
    destruct (Ascii.eqb_spec c3 ">") as [->|Hc3];
      [|by destruct c3 as [[] [] [] [] [] [] [] []]].
    intros [= _ _ <-]. simpl in *. lia.
  - destruct (Ascii.eqb_spec c1 ">") as [->|Hc1'];
      [|by destruct c1 as [[] [] [] [] [] [] [] []]].
    intros [= _ _ <-]. simpl in *. lia.
Qed.

(** The result of the replacement: each match becomes its name between
    braces. *)
Fixpoint convertedPathOf (pieces : list PathPiece) : string :=
  match pieces with
  | [] => EmptyString
  | CodeUnit c :: pieces' => String c (convertedPathOf pieces')
  | Converter _ name :: pieces' => "{" ++ name ++ "}" ++ convertedPathOf pieces'
  end.

(** The parameter that the callback of the replacement pushes for a
    match: [type ? (FLASK_TYPE_MAP[type] || SchemaType.STRING) :
    SchemaType.STRING]. *)
Definition converterParameter (type : option string) (name : string)
  : ApiParameter :=
  {| param_name := name;
     param_in := Js.Typed PATH;
     param_required := true;
     param_schema :=
       {| schema_type :=
            match type with
            | Some t =>
                if String.eqb t "" then Js.Typed STRING
                else Js.lookupOr FLASK_TYPE_MAP t STRING
            | None => Js.Typed STRING
            end |} |}.

(** The parameters pushed during the replacement, in the order of the
    matches. *)
Definition parametersOf (pieces : list PathPiece) : list ApiParameter :=
  flat_map
    (fun piece =>
       match piece with
       | CodeUnit _ => []
       | Converter type name => [converterParameter type name]
       end)
    pieces.

Section Extractor.

(** The blueprints found by the scan of the files, by variable name. *)
Variable blueprints : gmap string BlueprintInfo.

(** The prefix of the blueprint is applied when the route names a
    blueprint that is known and whose prefix is not the empty string. *)
Definition fullPathOf (route : ExtractedRoute) : string :=
  match blueprintName route with
  | Some name =>
      if String.eqb name "" then route_path route
      else match blueprints !! name with
           | Some bp =>
               if String.eqb (bp_prefix bp) "" then route_path route
               else bp_prefix bp ++ route_path route
           | None => route_path route
           end
  | None => route_path route
  end.

(** [routeToEndpoint], for one of the methods of the route. *)
Definition routeToEndpoint (route : ExtractedRoute) (m : HttpMethod)
  : ApiEndpoint :=
  let fullPath := fullPathOf route in
  let pieces := pathPieces fullPath in
  let parameters := parametersOf pieces in
  let convertedPath := convertedPathOf pieces in
  {| method := m;
     path := BaseExtractor.normalizePath convertedPath;
     operationId :=
       Some (functionName route ++ "_"
               ++ Js.toLowerCase (BaseExtractor.methodValue m));
     tags := None;
     parameters := parameters;
     requestBody := None;
     responses :=
       [ BaseExtractor.createDefaultResponse 200 (Some "Successful Response") ] |}.

End Extractor.


End FlaskExtractor.

(** ** The Spring Boot extractor ([extractors/python/flask.ts], class
    [SpringBootExtractor]) *)

Module SpringBootExtractor.

Record ExtractedRoute : Type := {
  route_method : HttpMethod;
  route_path : string;
  methodName : string;
  className : string;
  methodParams : string;
  filePath : string
}.

Record ExtractedDto : Type := {
  dto_name : string;
  dto_fields : list (string * string);   (* name, type *)
  dto_filePath : string
}.

Definition JAVA_TYPE_MAP : list (string * SchemaType) :=
  [ ("String", STRING); ("Integer", INTEGER); ("int", INTEGER);
    ("Long", INTEGER); ("long", INTEGER); ("Double", NUMBER);
    ("double", NUMBER); ("Float", NUMBER); ("float", NUMBER);
    ("Boolean", BOOLEAN); ("boolean", BOOLEAN); ("List", ARRAY);
    ("ArrayList", ARRAY); ("Set", ARRAY); ("Map", OBJECT);
    ("HashMap", OBJECT); ("Object", OBJECT) ].

(** [javaTypeToSchemaType]: the generic part is cut off, then
    [JAVA_TYPE_MAP[cleanType] || SchemaType.STRING]. *)
Definition javaTypeToSchemaType (javaType : string) : Js.Runtime SchemaType :=
  let cleanType := Js.trim (Js.beforeFirst "<" javaType) in
  Js.lookupOr JAVA_TYPE_MAP cleanType STRING.

(** [dtoToSchema]: an object schema (with the fields of the class as
    properties). *)
Definition dtoToSchema (dto : ExtractedDto) : ApiSchema :=
  {| schema_type := Js.Typed OBJECT |}.

(** What the three regular expressions of [parseMethodParams] find in
    the parameter text of a method: the matches of [PATH_VARIABLE_REGEX]
    (the name given in the annotation if any, the type, the name of the
    parameter) and of [REQUEST_PARAM_REGEX] (type, name) in textual
    order, and the type of the first match of [REQUEST_BODY_REGEX]. *)
Record MethodParamMatches : Type := {
  pathVariables : list (option string * string * string);
  requestParams : list (string * string);
  requestBodyType : option string
}.

(** The pattern [\{(\w+)\}] tried after an opening brace: the name and
    the text after the closing brace. *)
Definition bracedWord (s : string) : option (string * string) :=
  let '(name, r1) := DjangoRestExtractor.wordRun s in
  if String.eqb name "" then None
  else match r1 with
       | String "}" after => Some (name, after)
       | _ => None
       end.

(** [s.replace(/\{(\w+)\}/g, '{$1}')]. *)
Equations? rewritePlaceholders (s : string) : string
  by wf (String.length s) lt :=
rewritePlaceholders EmptyString := EmptyString;
rewritePlaceholders (String c rest) with Ascii.eqb c "{" := {
  | false := String c (rewritePlaceholders rest)
  | true with inspect (bracedWord rest) := {
      | exist _ (Some (name, after)) Heq :=
          "{" ++ name ++ "}" ++ rewritePlaceholders after
      | exist _ None _ := String c (rewritePlaceholders rest) } }.
Proof.
  all: try (simpl; lia).
  clear rewritePlaceholders. simpl.
  enough (String.length after < String.length rest) by lia.
  assert (forall s w r, DjangoRestExtractor.wordRun s = (w, r) ->
                        String.length r <= String.length s) as Hrun.
  { clear. induction s as [|c s IH]; intros w r;
      cbn [DjangoRestExtractor.wordRun].
    - by intros [= <- <-].
    - destruct (DjangoRestExtractor.isWordChar c); [|intros [= <- <-]; lia].
      destruct (DjangoRestExtractor.wordRun s) as [w' r']. intros [= <- <-].
      specialize (IH _ _ eq_refl). simpl. lia. }
  revert Heq. unfold bracedWord.
  destruct (DjangoRestExtractor.wordRun rest) as [w r1] eqn:H1.
  destruct (String.eqb w ""); [discriminate|].
  destruct r1 as [|c1 r2]; [discriminate|].
  destruct (Ascii.eqb_spec c1 "}") as [->|Hc1];
    [|by destruct c1 as [[] [] [] [] [] [] [] []]].
  intros [= _ <-].
  apply Hrun in H1. simpl in *. lia.
Qed.

Section Extractor.

(** The classes found by [extractDtos], by name. *)
Variable dtos : gmap string ExtractedDto.

(** The scan of a parameter text by the regular expressions of
    [parseMethodParams]; its result is taken as given. *)
Variable scanMethodParams : string -> MethodParamMatches.

(** The parameter pushed for a match of [PATH_VARIABLE_REGEX]; its name
    is [explicitName || paramName]. *)
Definition pathVariableParameter
    (found : option string * string * string) : ApiParameter :=
  let '(explicitName, type, paramName) := found in
  {| param_name :=
       match explicitName with
       | Some n => if String.eqb n "" then paramName else n
       | None => paramName
       end;
     param_in := Js.Typed PATH;
     param_required := true;
     param_schema := {| schema_type := javaTypeToSchemaType type |} |}.

(** The parameter pushed for a match of [REQUEST_PARAM_REGEX]. *)
Definition requestParamParameter (found : string * string) : ApiParameter :=
  let '(type, paramName) := found in
  {| param_name := paramName;
     param_in := Js.Typed QUERY;
     param_required := false;
     param_schema := {| schema_type := javaTypeToSchemaType type |} |}.

(** [parseMethodParams]: the array [parameters] after the call, and the
    type with which [onRequestBody] is called, if it is. *)
Definition parseMethodParams (paramsStr : string)
    (parameters : list ApiParameter) : list ApiParameter * option string :=
  if String.eqb (Js.trim paramsStr) "" then (parameters, None)
  else
    let found := scanMethodParams paramsStr in
    ((parameters
        ++ map pathVariableParameter (pathVariables found)
        ++ map requestParamParameter (requestParams found))%list,
     requestBodyType found).

(** [routeToEndpoint]. *)
Definition routeToEndpoint (route : ExtractedRoute) : ApiEndpoint :=
  let '(parameters, bodyType) := parseMethodParams (methodParams route) [] in
  let requestBody :=
    match bodyType with
    | Some type =>
        Some {| body_required := true;
                body_contentType := Some "application/json";
                body_schema :=
                  match dtos !! type with
                  | Some dto => dtoToSchema dto
                  | None => {| schema_type := Js.Typed OBJECT |}
                  end |}
    | None => None
    end in
  (* the path parameters are taken from the path *)
  let pathParams := BaseExtractor.extractPathParams (route_path route) in
  let parameters := fold_left addPathParameter pathParams parameters in
  let openApiPath := rewritePlaceholders (route_path route) in
  {| method := route_method route;
     path := BaseExtractor.normalizePath openApiPath;
     operationId := Some (className route ++ "_" ++ methodName route);
     tags := None;
     parameters := parameters;
     requestBody := requestBody;
     responses :=
       [ BaseExtractor.createDefaultResponse 200 (Some "Successful Response") ] |}.

End Extractor.

End SpringBootExtractor.

(** ** The ASP.NET Core extractor ([extractors/python/flask.ts], class
    [AspNetExtractor]) *)

Module AspNetExtractor.

Record ExtractedRoute : Type := {
  route_method : HttpMethod;
  route_path : string;
  methodName : string;
  controllerName : string;
  methodParams : string;
  returnType : string;
  filePath : string
}.

Record ExtractedDto : Type := {
  dto_name : string;
  dto_properties : list (string * string);   (* name, type *)
  dto_filePath : string
}.

Definition CSHARP_TYPE_MAP : list (string * SchemaType) :=
  [ ("string", STRING); ("String", STRING); ("int", INTEGER);
    ("Int32", INTEGER); ("long", INTEGER); ("Int64", INTEGER);
    ("double", NUMBER); ("Double", NUMBER); ("float", NUMBER);
    ("Single", NUMBER); ("decimal", NUMBER); ("Decimal", NUMBER);
    ("bool", BOOLEAN); ("Boolean", BOOLEAN); ("List", ARRAY);
    ("IList", ARRAY); ("IEnumerable", ARRAY); ("Array", ARRAY);
    ("Dictionary", OBJECT); ("IDictionary", OBJECT); ("object", OBJECT);
    ("Object", OBJECT); ("Guid", STRING); ("DateTime", STRING);
    ("DateTimeOffset", STRING) ].

(** [dtoToSchema]: an object schema (with the properties of the class). *)
Definition dtoToSchema (dto : ExtractedDto) : ApiSchema :=
  {| schema_type := Js.Typed OBJECT |}.

(** [csharpTypeToSchemaType]. *)
Definition csharpTypeToSchemaType (csharpType : string)
  : Js.Runtime SchemaType :=
  let cleanType := Js.trim (Js.beforeFirst "<" csharpType) in
  Js.lookupOr CSHARP_TYPE_MAP cleanType STRING.

(** Whether [CSHARP_TYPE_MAP[type]] is truthy: the members of the table
    are non-empty strings, the inherited ones functions or objects. *)
Definition isSimpleType (type : string) : bool :=
  match Js.getProperty CSHARP_TYPE_MAP type with
  | Js.Undefined => false
  | _ => true
  end.

(** What the regular expressions of [parseMethodParams] find in the
    parameter text of a method: the matches of [FROM_ROUTE_REGEX], of
    [FROM_QUERY_REGEX] and of the pattern of the parameters without
    attribute (each a type and a name) in textual order, and the type of
    the first match of [FROM_BODY_REGEX]. *)
Record MethodParamMatches : Type := {
  fromRoute : list (string * string);
  fromQuery : list (string * string);
  fromBodyType : option string;
  simpleParams : list (string * string)
}.

Section Extractor.

(** The classes found by [extractDtos], by name. *)
Variable dtos : gmap string ExtractedDto.

(** The scan of a parameter text by the regular expressions of
    [parseMethodParams]; its result is taken as given. *)
Variable scanMethodParams : string -> MethodParamMatches.

Definition fromRouteParameter (found : string * string) : ApiParameter :=
  let '(type, paramName) := found in
  {| param_name := paramName;
     param_in := Js.Typed PATH;
     param_required := true;
     param_schema := {| schema_type := csharpTypeToSchemaType type |} |}.

Definition queryParameter (found : string * string) : ApiParameter :=
  let '(type, paramName) := found in
  {| param_name := paramName;
     param_in := Js.Typed QUERY;
     param_required := false;
     param_schema := {| schema_type := csharpTypeToSchemaType type |} |}.

(** The body of the last loop of [parseMethodParams], over the
    parameters without attribute: one whose name is taken already is
    skipped, one of a simple type becomes a query parameter. *)
Definition addSimpleParameter (parameters : list ApiParameter)
    (found : string * string) : list ApiParameter :=
  let '(type, paramName) := found in
  if existsb (fun p => String.eqb (param_name p) paramName) parameters
  then parameters
  else if isSimpleType type
       then (parameters ++ [queryParameter (type, paramName)])%list
       else parameters.

(** [parseMethodParams]: the array [parameters] after the call, and the
    type with which [onRequestBody] is called, if it is. *)
Definition parseMethodParams (paramsStr : string)
    (parameters : list ApiParameter) : list ApiParameter * option string :=
  if String.eqb (Js.trim paramsStr) "" then (parameters, None)
  else
    let found := scanMethodParams paramsStr in
    let parameters :=
      (parameters
         ++ map fromRouteParameter (fromRoute found)
         ++ map queryParameter (fromQuery found))%list in
    (fold_left addSimpleParameter (simpleParams found) parameters,
     fromBodyType found).

(** [routeToEndpoint]. *)
Definition routeToEndpoint (route : ExtractedRoute) : ApiEndpoint :=
  let '(parameters, bodyType) := parseMethodParams (methodParams route) [] in
  let requestBody :=
    match bodyType with
    | Some type =>
        Some {| body_required := true;
                body_contentType := Some "application/json";
                body_schema :=
                  match dtos !! type with
                  | Some dto => dtoToSchema dto
                  | None => {| schema_type := Js.Typed OBJECT |}
                  end |}
    | None => None
    end in
  (* the {param} parameters of the path are added *)
  let pathParams := BaseExtractor.extractPathParams (route_path route) in
  let parameters := fold_left addPathParameter pathParams parameters in
  {| method := route_method route;
     path := BaseExtractor.normalizePath (route_path route);
     operationId := Some (controllerName route ++ "_" ++ methodName route);
     tags := None;
     parameters := parameters;
     requestBody := requestBody;
     responses :=
       [ {| statusCode := 200;
            description := Some "Successful Response";
            contentType := Some "application/json" |} ] |}.

End Extractor.

End AspNetExtractor.

(** ** The detector ([core/orchestrator.ts], class [ProjectDetector]) *)

Module ProjectDetector.

Open Scope Z_scope.

Definition OPENAPI_SPEC_PATTERNS : list string :=
  [ "openapi.json"; "openapi.yaml"; "openapi.yml";
    "swagger.json"; "swagger.yaml"; "swagger.yml";
    "api-spec.json"; "api-spec.yaml"; "api.json"; "api.yaml";
    "docs/openapi.json"; "docs/openapi.yaml";
    "docs/swagger.json"; "docs/swagger.yaml";
    "spec/openapi.json"; "spec/openapi.yaml";
    "api/openapi.json"; "api/openapi.yaml" ].

(** [DETECTION_SCORES] and [MIN_CONFIDENCE_THRESHOLD]. *)
Definition PROJECT_FILE : Z := 20.
Definition FRAMEWORK_FILE : Z := 40.
Definition CODE_PATTERN : Z := 60.
Definition MULTIPLE_ENDPOINTS : Z := 80.
Definition OPENAPI_SPEC : Z := 100.
Definition MIN_CONFIDENCE_THRESHOLD : Z := 30.

(** *** The directory, as the detector reads it *)

(** What [JSON.parse] gives, as far as [validateOpenApiSpec] looks. *)
Record JsonDocument : Type := {
  openapi_is_string : bool;
  swagger_is_string : bool
}.

(** The facts the scorers read off the text of a Python file: the
    results of their [includes] and [test] calls, and for each counting
    pattern the number of its matches. *)
Record PythonSource : Type := {
  fastapi_import : bool;       (* 'from fastapi import' or 'import fastapi' *)
  fastapi_instance : bool;     (* /FastAPI\s*\(/ *)
  fastapi_routes : list nat;   (* the two patterns of routePatterns *)
  fastapi_apirouter : bool;    (* 'APIRouter(' or 'APIRouter()' *)
  flask_import : bool;         (* 'from flask import' or 'import flask' *)
  flask_instance : bool;       (* /Flask\s*\(/ *)
  flask_routes : nat;          (* /@app\.route\s*\(/gi *)
  flask_blueprint : bool;      (* 'Blueprint(' *)
  drf_import : bool;           (* 'from rest_framework' or 'import rest_framework' *)
  drf_api_views : nat;         (* /@api_view\s*\(/gi *)
  drf_viewset_class : bool;
  drf_apiview_class : bool;
  drf_router : bool;           (* 'DefaultRouter(' or 'SimpleRouter(' *)
  drf_serializer_class : bool
}.

Record JavaSource : Type := {
  java_controller : bool;      (* '@RestController' or '@Controller' *)
  java_mappings : list nat     (* the six patterns of endpointPatterns *)
}.

Record CsSource : Type := {
  cs_controller : bool;
  cs_http_attributes : list nat  (* the five patterns of endpointPatterns *)
}.

(** A file found by [glob], with what reading it gives; [None] when
    [readFileSync] throws. *)
Record File (Source : Type) : Type := {
  file_name : string;
  file_source : option Source
}.
Arguments file_name {Source} _.
Arguments file_source {Source} _.

(** The directory under inspection.  Paths are relative to it.  The build
    files that exist ([pom.xml], [build.gradle], [build.gradle.kts]) are
    taken to be readable. *)
Record Directory : Type := {
  dir_exists : bool;
  existsSync : string -> bool;
  readFileSync : string -> option string;
  JSON_parse : string -> option JsonDocument;
  (* the matches of the two glob patterns of detectOpenApi *)
  glob_openapi : list string;
  glob_swagger : list string;
  (* '**/*.py' under the ignore lists of detectPython, of detectFastApi
     and detectFlask, and of detectDjango *)
  glob_py : list string;
  glob_py_scored : list (File PythonSource);
  glob_py_django : list (File PythonSource);
  pom_spring_boot : bool;      (* pom.xml includes 'spring-boot' *)
  gradle_spring_boot : bool;   (* the Gradle file includes 'spring-boot' *)
  glob_java : list (File JavaSource);
  (* '**/*.csproj', with whether the file names the web SDK *)
  glob_csproj : list (File bool);
  glob_cs : list (File CsSource)
}.

(** *** The runs of the detectors *)

(** Each strategy announces itself to the logger when it starts. *)
Inductive Strategy : Set := OpenApiSpec | Python | Java | DotNet.

(** A computation that records the strategies it runs. *)
Definition Traced (A : Type) : Type := A * list Strategy.

Definition ret {A : Type} (a : A) : Traced A := (a, []).

Definition bind {A B : Type} (c : Traced A) (k : A -> Traced B) : Traced B :=
  let '(a, t1) := c in
  let '(b, t2) := k a in
  (b, (t1 ++ t2)%list).

Definition announce (s : Strategy) : Traced unit := (tt, [s]).

Notation "'let*' x ':=' c 'in' k" := (bind c (fun x => k))
  (at level 10, x name, c at level 100, k at level 200).

(** *** The OpenAPI strategy *)

(** A word between double quotes. *)
Definition quoted (word : string) : string :=
  String (ascii_of_nat 34) (word ++ String (ascii_of_nat 34) EmptyString).

(** [validateOpenApiSpec]. *)
Definition validateOpenApiSpec (d : Directory) (filePath : string) : bool :=
  match readFileSync d filePath with
  | None => false
  | Some content =>
      if Js.endsWith filePath ".json"
      then match JSON_parse d content with
           | None => false
           | Some spec => openapi_is_string spec || swagger_is_string spec
           end
      else Js.includes content "swagger:"
           || Js.includes content "openapi:"
           || Js.includes content (quoted "swagger")
           || Js.includes content (quoted "openapi")
  end.

Definition openApiResult (filePath : string) : DetectionResult :=
  {| type := OPENAPI;
     confidence := OPENAPI_SPEC;
     specFile := Some filePath;
     estimatedEndpoints := None |}.

(** The first loop of [detectOpenApi], over the conventional names. *)
Fixpoint findConventional (d : Directory) (patterns : list string)
  : option DetectionResult :=
  match patterns with
  | [] => None
  | pattern :: rest =>
      if existsSync d pattern && validateOpenApiSpec d pattern
      then Some (openApiResult pattern)
      else findConventional d rest
  end.

(** The second loop, over the results of the two glob patterns: only the
    first match of a pattern is validated. *)
Fixpoint findGlobbed (d : Directory) (globs : list (list string))
  : option DetectionResult :=
  match globs with
  | [] => None
  | matches :: rest =>
      match matches with
      | specPath :: _ =>
          if validateOpenApiSpec d specPath
          then Some (openApiResult specPath)
          else findGlobbed d rest
      | [] => findGlobbed d rest
      end
  end.

Definition detectOpenApi (d : Directory) : Traced (option DetectionResult) :=
  let* _ := announce OpenApiSpec in
  match findConventional d OPENAPI_SPEC_PATTERNS with
  | Some r => ret (Some r)
  | None => ret (findGlobbed d [glob_openapi d; glob_swagger d])
  end.

(** *** The Python strategy *)

(** What a scorer returns (without its reasons and files). *)
Record Score : Type := {
  score : Z;
  endpointCount : Z
}.

Definition total (counts : list nat) : Z :=
  fold_left (fun n k => n + Z.of_nat k) counts 0.

(** The bonus for the endpoints found, [factor] points each. *)
Definition endpointBonus (factor : Z) (count : Z) : Z :=
  if 0 <? count then Z.min MULTIPLE_ENDPOINTS (count * factor) else 0.

Definition addBonus (factor : Z) (s : Score) : Score :=
  {| score := score s + endpointBonus factor (endpointCount s);
     endpointCount := endpointCount s |}.

Definition when (b : bool) (points : Z) : Z := if b then points else 0.

(** The body of the loop of [detectFastApi] for one file. *)
Definition scanFastApi (s : Score) (f : File PythonSource) : Score :=
  match file_source f with
  | None => s     (* the file could not be read: go on *)
  | Some src =>
      {| score := score s
                  + when (fastapi_import src) CODE_PATTERN
                  + when (fastapi_instance src) FRAMEWORK_FILE
                  + when (fastapi_apirouter src) PROJECT_FILE;
         endpointCount := endpointCount s + total (fastapi_routes src) |}
  end.

Definition detectFastApi (d : Directory) : Score :=
  addBonus 5
    (fold_left scanFastApi (glob_py_scored d)
       {| score := 0; endpointCount := 0 |}).

Definition scanFlask (s : Score) (f : File PythonSource) : Score :=
  match file_source f with
  | None => s
  | Some src =>
      {| score := score s
                  + when (flask_import src) CODE_PATTERN
                  + when (flask_instance src) FRAMEWORK_FILE
                  + when (flask_blueprint src) PROJECT_FILE;
         endpointCount := endpointCount s + Z.of_nat (flask_routes src) |}
  end.

Definition detectFlask (d : Directory) : Score :=
  addBonus 5
    (fold_left scanFlask (glob_py_scored d)
       {| score := 0; endpointCount := 0 |}).

Definition scanDjango (s : Score) (f : File PythonSource) : Score :=
  match file_source f with
  | None => s
  | Some src =>
      {| score := score s
                  + when (drf_import src) CODE_PATTERN
                  + when (drf_viewset_class src) FRAMEWORK_FILE
                  + when (drf_apiview_class src) CODE_PATTERN
                  + when (drf_router src) PROJECT_FILE
                  + when (drf_serializer_class src) PROJECT_FILE;
         endpointCount := endpointCount s
                          + Z.of_nat (drf_api_views src)
                          + when (drf_viewset_class src) 6
                          + when (drf_apiview_class src) 1 |}
  end.

Definition detectDjango (d : Directory) : Score :=
  addBonus 3
    (fold_left scanDjango (glob_py_django d)
       {| score := when (existsSync d "manage.py") PROJECT_FILE;
          endpointCount := 0 |}).

Definition pythonIndicators : list string :=
  [ "requirements.txt"; "pyproject.toml"; "setup.py"; "Pipfile"; "poetry.lock" ].

(** [detectPython]: the best of the three scores, returned as the
    confidence when it reaches the threshold. *)
Definition detectPython (d : Directory) : Traced (option DetectionResult) :=
  let* _ := announce Python in
  let isPython := existsb (existsSync d) pythonIndicators in
  if negb isPython && Nat.eqb (length (glob_py d)) 0 then ret None
  else
    let scores :=
      Js.sort (fun a b => score (snd b) - score (snd a))
        [ (FASTAPI, detectFastApi d);
          (FLASK, detectFlask d);
          (DJANGO_REST, detectDjango d) ] in
    match scores with
    | best :: _ =>
        if MIN_CONFIDENCE_THRESHOLD <=? score (snd best)
        then ret (Some {| type := fst best;
                          confidence := score (snd best);
                          specFile := None;
                          estimatedEndpoints := Some (endpointCount (snd best)) |})
        else ret None
    | [] => ret None
    end.

(** *** The Java and .NET strategies *)

Definition scanJava (s : Score) (f : File JavaSource) : Score :=
  match file_source f with
  | None => s
  | Some src =>
      if java_controller src
      then {| score := score s + CODE_PATTERN;
              endpointCount := endpointCount s + total (java_mappings src) |}
      else s
  end.

(** The score of [detectJava] before the threshold and the cap. *)
Definition scoreJava (d : Directory) : Score :=
  let hasMaven := existsSync d "pom.xml" in
  let hasGradle :=
    existsSync d "build.gradle" || existsSync d "build.gradle.kts" in
  addBonus 3
    (fold_left scanJava (glob_java d)
       {| score := PROJECT_FILE
                   + when (hasMaven && pom_spring_boot d) FRAMEWORK_FILE
                   + when (hasGradle && gradle_spring_boot d) FRAMEWORK_FILE;
          endpointCount := 0 |}).

Definition detectJava (d : Directory) : Traced (option DetectionResult) :=
  let* _ := announce Java in
  let hasMaven := existsSync d "pom.xml" in
  let hasGradle :=
    existsSync d "build.gradle" || existsSync d "build.gradle.kts" in
  if negb hasMaven && negb hasGradle then ret None
  else
    let s := scoreJava d in
    if score s <? MIN_CONFIDENCE_THRESHOLD then ret None
    else ret (Some {| type := SPRING_BOOT;
                      confidence := Z.min (score s) 100;
                      specFile := None;
                      estimatedEndpoints := Some (endpointCount s) |}).

Definition scanCsproj (n : Z) (f : File bool) : Z :=
  match file_source f with
  | Some true => n + FRAMEWORK_FILE
  | _ => n
  end.

Definition scanCs (s : Score) (f : File CsSource) : Score :=
  match file_source f with
  | None => s
  | Some src =>
      if cs_controller src
      then {| score := score s + CODE_PATTERN;
              endpointCount :=
                endpointCount s + total (cs_http_attributes src) |}
      else s
  end.

Definition scoreDotNet (d : Directory) : Score :=
  addBonus 3
    (fold_left scanCs (glob_cs d)
       {| score := fold_left scanCsproj (glob_csproj d) PROJECT_FILE;
          endpointCount := 0 |}).

Definition detectDotNet (d : Directory) : Traced (option DetectionResult) :=
  let* _ := announce DotNet in
  if Nat.eqb (length (glob_csproj d)) 0 then ret None
  else
    let s := scoreDotNet d in
    if score s <? MIN_CONFIDENCE_THRESHOLD then ret None
    else ret (Some {| type := ASPNET_CORE;
                      confidence := Z.min (score s) 100;
                      specFile := None;
                      estimatedEndpoints := Some (endpointCount s) |}).

(** *** The selection *)

Definition createUnknownResult : DetectionResult :=
  {| type := UNKNOWN;
     confidence := 0;
     specFile := None;
     estimatedEndpoints := None |}.

(** [results.push] for the strategies that returned a result. *)
Definition collect (rs : list (option DetectionResult)) : list DetectionResult :=
  omap id rs.

(** The end of [detect]: the results are sorted by confidence, highest
    first, and the first one is returned if it reaches the threshold. *)
Definition selectBest (results : list DetectionResult) : DetectionResult :=
  match Js.sort (fun a b => confidence b - confidence a) results with
  | [] => createUnknownResult
  | bestResult :: _ =>
      if confidence bestResult <? MIN_CONFIDENCE_THRESHOLD
      then createUnknownResult
      else bestResult
  end.

(** [detect]. *)
Definition detect (d : Directory) : Traced DetectionResult :=
  if negb (dir_exists d) then ret createUnknownResult
  else
    let* openapiResult := detectOpenApi d in
    let* pythonResult := detectPython d in
    let* javaResult := detectJava d in
    let* dotnetResult := detectDotNet d in
    ret (selectBest
           (collect [openapiResult; pythonResult; javaResult; dotnetResult])).

End ProjectDetector.

(** ** The choice of the extractor ([core/orchestrator.ts], class
    [Orchestrator]) *)

Module Orchestrator.

(** The extractor classes that [selectExtractor] instantiates. *)
Inductive Extractor : Set := OpenApi | FastApi | Flask | SpringBoot | AspNet.

(** [selectExtractor]; [None] is the [default] branch of the [switch],
    which throws the error [Desteklenmeyen proje tipi]. *)
Definition selectExtractor (projectType : ProjectType) : option Extractor :=
  match projectType with
  | OPENAPI => Some OpenApi
  | FASTAPI => Some FastApi
  | FLASK => Some Flask
  | SPRING_BOOT => Some SpringBoot
  | ASPNET_CORE => Some AspNet
  | _ => None
  end.

(** The members of [ProjectType] by their values, as [core/types]
    declares them: what the cast [framework as ProjectType] denotes when
    the string is the value of a member. *)
Definition asProjectType (framework : string) : option ProjectType :=
  if String.eqb framework "openapi" then Some OPENAPI
  else if String.eqb framework "fastapi" then Some FASTAPI
  else if String.eqb framework "flask" then Some FLASK
  else if String.eqb framework "spring-boot" then Some SPRING_BOOT
  else if String.eqb framework "aspnet-core" then Some ASPNET_CORE
  else if String.eqb framework "express" then Some EXPRESS
  else if String.eqb framework "unknown" then Some UNKNOWN
  else None.

(** The values that the help of the option [-f, --framework] names. *)
Definition frameworkOptionValues : list string :=
  [ "auto"; "openapi"; "fastapi"; "flask"; "spring"; "aspnet" ].

(** How steps 2 and 3 of [handleGenerate] end: the process exits because
    no supported type is detected, [selectExtractor] throws, or an
    extractor is called, on the spec file when there is one and on the
    working directory otherwise. *)
Inductive Choice : Type :=
| Exits
| Throws
| Extracts (extractor : Extractor) (specFile : option string).

(** Steps 2 and 3 of [handleGenerate], up to the call of the extractor.
    [framework] and [source] are the fields of the configuration
    ([framework] may be absent), [d] is the working directory as the
    detector reads it. *)
Definition chooseExtractor (framework : option string) (source : string)
    (d : ProjectDetector.Directory) : Choice :=
  (* this.config.framework && this.config.framework !== 'auto' *)
  let byHand :=
    match framework with
    | Some f =>
        if negb (String.eqb f "") && negb (String.eqb f "auto")
        then Some f else None
    | None => None
    end in
  match byHand with
  | Some f =>
      match asProjectType f ≫= selectExtractor with
      | Some extractor =>
          Extracts extractor
            (if bool_decide (asProjectType f = Some OPENAPI)
                && negb (String.eqb source "auto")
             then Some source else None)
      | None => Throws
      end
  | None =>
      (* detected *)
      let detection := fst (ProjectDetector.detect d) in
      if bool_decide (type detection = UNKNOWN) then Exits
      else match selectExtractor (type detection) with
           | Some extractor => Extracts extractor (specFile detection)
           | None => Throws
           end
  end.

End Orchestrator.

(** ** Sample inputs *)

Module Samples.

Import OpenApiExtractor.

(** An operation whose responses are keyed by a code, by a range and by
    [default], in the order [Object.entries] gives them. *)
Definition rangeOperation : OpenApiOperation :=
  {| op_operationId := Some "listPets";
     op_tags := None;
     op_parameters := None;
     op_requestBody := None;
     op_responses :=
       [ ("200", {| r_description := "ok"; r_content := None |});
         ("4XX", {| r_description := "client error"; r_content := None |});
         ("default", {| r_description := "unexpected"; r_content := None |}) ]
  |}.

(** A parameter whose [in] names a member of [Object.prototype]. *)
Definition constructorParameter : OpenApiParameter :=
  {| p_name := "payload";
     p_in := "constructor";
     p_required := Some true;
     p_schema := None |}.

(** A Swagger 2.0 body parameter. *)
Definition bodyParameter : OpenApiParameter :=
  {| p_name := "payload";
     p_in := "body";
     p_required := Some false;
     p_schema := None |}.

(** An operation whose first tag is the empty string. *)
Definition emptyTagOperation : OpenApiOperation :=
  {| op_operationId := Some "listPets";
     op_tags := Some [""; "pets"];
     op_parameters := None;
     op_requestBody := None;
     op_responses := [("200", {| r_description := "ok"; r_content := None |})]
  |}.


(** A [urls.py] that registers a ViewSet, and a [views.py] that declares
    it. *)
Definition urlsFile : DjangoRestExtractor.ScannedFile :=
  {| DjangoRestExtractor.scanned_path := "api/urls.py";
     DjangoRestExtractor.viewSetClasses := [];
     DjangoRestExtractor.routerRegisters := [("users", "UserViewSet")] |}.

Definition viewsFile : DjangoRestExtractor.ScannedFile :=
  {| DjangoRestExtractor.scanned_path := "api/views.py";
     DjangoRestExtractor.viewSetClasses := [("UserViewSet", "ModelViewSet")];
     DjangoRestExtractor.routerRegisters := [] |}.

(** FastAPI routes declared on [app], with no router, no model and no
    handler parameter. *)
Definition routeOn (p : string) : FastApiExtractor.ExtractedRoute :=
  {| FastApiExtractor.route_method := GET;
     FastApiExtractor.route_path := p;
     FastApiExtractor.functionName := "handler";
     FastApiExtractor.routerName := "app";
     FastApiExtractor.filePath := "main.py";
     FastApiExtractor.functionParams := "" |}.

Definition fastapiEndpoint (p : string) : ApiEndpoint :=
  FastApiExtractor.routeToEndpoint ∅ ∅ (fun _ => []) (routeOn p).

(** A parser call that throws. *)
Definition unreadable (source : string) : Outcome OpenApiDocument :=
  Thrown ("Error opening file " ++ source).

Definition sampleConfig : ApigenConfig :=
  {| config_baseUrl := "http://localhost:3000" |}.

(** A Python source with no signal, one that imports FastAPI, and one
    that imports it and declares [n] routes on [app]. *)
Definition plainSource : ProjectDetector.PythonSource :=
  {| ProjectDetector.fastapi_import := false;
     ProjectDetector.fastapi_instance := false;
     ProjectDetector.fastapi_routes := [0; 0];
     ProjectDetector.fastapi_apirouter := false;
     ProjectDetector.flask_import := false;
     ProjectDetector.flask_instance := false;
     ProjectDetector.flask_routes := 0;
     ProjectDetector.flask_blueprint := false;
     ProjectDetector.drf_import := false;
     ProjectDetector.drf_api_views := 0;
     ProjectDetector.drf_viewset_class := false;
     ProjectDetector.drf_apiview_class := false;
     ProjectDetector.drf_router := false;
     ProjectDetector.drf_serializer_class := false |}.

Definition fastapiSource (n : nat) : ProjectDetector.PythonSource :=
  {| ProjectDetector.fastapi_import := true;
     ProjectDetector.fastapi_instance := false;
     ProjectDetector.fastapi_routes := [n; 0];
     ProjectDetector.fastapi_apirouter := false;
     ProjectDetector.flask_import := false;
     ProjectDetector.flask_instance := false;
     ProjectDetector.flask_routes := 0;
     ProjectDetector.flask_blueprint := false;
     ProjectDetector.drf_import := false;
     ProjectDetector.drf_api_views := 0;
     ProjectDetector.drf_viewset_class := false;
     ProjectDetector.drf_apiview_class := false;
     ProjectDetector.drf_router := false;
     ProjectDetector.drf_serializer_class := false |}.

Definition pythonFile (name : string) (src : ProjectDetector.PythonSource)
  : ProjectDetector.File ProjectDetector.PythonSource :=
  {| ProjectDetector.file_name := name;
     ProjectDetector.file_source := Some src |}.

(** A directory that holds the Python files [py] next to a
    [requirements.txt] and, when [spec] is given, a file [openapi.yaml]
    with that text. *)
Definition directoryOf (spec : option string)
    (py : list (ProjectDetector.File ProjectDetector.PythonSource))
  : ProjectDetector.Directory :=
  {| ProjectDetector.dir_exists := true;
     ProjectDetector.existsSync :=
       fun f => String.eqb f "requirements.txt"
                || (String.eqb f "openapi.yaml" && bool_decide (is_Some spec));
     ProjectDetector.readFileSync :=
       fun f => if String.eqb f "openapi.yaml" then spec else None;
     ProjectDetector.JSON_parse := fun _ => None;
     ProjectDetector.glob_openapi :=
       if bool_decide (is_Some spec) then ["openapi.yaml"] else [];
     ProjectDetector.glob_swagger := [];
     ProjectDetector.glob_py := map ProjectDetector.file_name py;
     ProjectDetector.glob_py_scored := py;
     ProjectDetector.glob_py_django := py;
     ProjectDetector.pom_spring_boot := false;
     ProjectDetector.gradle_spring_boot := false;
     ProjectDetector.glob_java := [];
     ProjectDetector.glob_csproj := [];
     ProjectDetector.glob_cs := [] |}.

(** Two modules that import FastAPI. *)
Definition twoFastApiModules : ProjectDetector.Directory :=
  directoryOf None
    [ pythonFile "main.py" (fastapiSource 0);
      pythonFile "users.py" (fastapiSource 0) ].

(** The same two modules next to a valid OpenAPI document. *)
Definition specAndTwoFastApiModules : ProjectDetector.Directory :=
  directoryOf (Some "openapi: 3.0.0")
    [ pythonFile "main.py" (fastapiSource 0);
      pythonFile "users.py" (fastapiSource 0) ].

(** A valid OpenAPI document and one module with three routes. *)
Definition specAndOneFastApiModule : ProjectDetector.Directory :=
  directoryOf (Some "openapi: 3.0.0")
    [ pythonFile "main.py" (fastapiSource 3) ].

(** One module with three routes, and with five. *)
Definition threeRoutes : ProjectDetector.Directory :=
  directoryOf None [ pythonFile "main.py" (fastapiSource 3) ].

Definition fiveRoutes : ProjectDetector.Directory :=
  directoryOf None [ pythonFile "main.py" (fastapiSource 5) ].

(** A document with three operations on two paths, and two declared
    tags. *)
Definition operationTagged (id : string) (ts : option (list string))
  : OpenApiOperation :=
  {| op_operationId := Some id;
     op_tags := ts;
     op_parameters := None;
     op_requestBody := None;
     op_responses := [("200", {| r_description := "ok"; r_content := None |})]
  |}.

Definition pathItemOf (get post : option OpenApiOperation) : OpenApiPathItem :=
  {| pi_get := get; pi_post := post; pi_put := None; pi_delete := None;
     pi_patch := None; pi_options := None; pi_head := None;
     pi_parameters := None |}.

Definition petsDocument : OpenApiDocument :=
  {| doc_title := "Pets";
     doc_version := "1.0.0";
     doc_servers := Some ["https://api.example.com"];
     doc_paths :=
       [ ("/pets",
           pathItemOf (Some (operationTagged "listPets" (Some ["pets"])))
                      (Some (operationTagged "createPet" (Some ["pets"]))));
         ("/owners/{id}",
           pathItemOf (Some (operationTagged "getOwner" None)) None) ];
     doc_tags :=
       Some [ {| tag_name := "owners"; tag_description := Some "Owners" |};
              {| tag_name := "pets"; tag_description := Some "Pets" |} ] |}.

(** A parser call that returns the document [api]. *)
Definition parsed (api : OpenApiDocument) (source : string)
  : Outcome OpenApiDocument :=
  Returned api.

(** Security schemes: OAuth2 first, then an API key sent in a cookie. *)
Definition oauthThenCookieKey : list (string * OpenApiSecurityScheme) :=
  [ ("oauth", {| ss_type := "oauth2"; ss_scheme := None;
                 ss_name := None; ss_in := None |});
    ("key", {| ss_type := "apiKey"; ss_scheme := None;
               ss_name := None; ss_in := Some "cookie" |});
    ("jwt", {| ss_type := "http"; ss_scheme := Some "bearer";
               ss_name := None; ss_in := None |}) ].

(** A Django project: [manage.py], and a module that imports the REST
    framework and declares a ViewSet. *)
Definition drfSource : ProjectDetector.PythonSource :=
  {| ProjectDetector.fastapi_import := false;
     ProjectDetector.fastapi_instance := false;
     ProjectDetector.fastapi_routes := [0; 0];
     ProjectDetector.fastapi_apirouter := false;
     ProjectDetector.flask_import := false;
     ProjectDetector.flask_instance := false;
     ProjectDetector.flask_routes := 0;
     ProjectDetector.flask_blueprint := false;
     ProjectDetector.drf_import := true;
     ProjectDetector.drf_api_views := 0;
     ProjectDetector.drf_viewset_class := true;
     ProjectDetector.drf_apiview_class := false;
     ProjectDetector.drf_router := false;
     ProjectDetector.drf_serializer_class := false |}.

Definition djangoProject : ProjectDetector.Directory :=
  {| ProjectDetector.dir_exists := true;
     ProjectDetector.existsSync := fun f => String.eqb f "manage.py";
     ProjectDetector.readFileSync := fun _ => None;
     ProjectDetector.JSON_parse := fun _ => None;
     ProjectDetector.glob_openapi := [];
     ProjectDetector.glob_swagger := [];
     ProjectDetector.glob_py := ["manage.py"; "api/views.py"];
     ProjectDetector.glob_py_scored := [pythonFile "api/views.py" drfSource];
     ProjectDetector.glob_py_django := [pythonFile "api/views.py" drfSource];
     ProjectDetector.pom_spring_boot := false;
     ProjectDetector.gradle_spring_boot := false;
     ProjectDetector.glob_java := [];
     ProjectDetector.glob_csproj := [];
     ProjectDetector.glob_cs := [] |}.

(** A Maven project with a controller that declares two mappings. *)
Definition mavenProject : ProjectDetector.Directory :=
  {| ProjectDetector.dir_exists := true;
     ProjectDetector.existsSync := fun f => String.eqb f "pom.xml";
     ProjectDetector.readFileSync := fun _ => None;
     ProjectDetector.JSON_parse := fun _ => None;
     ProjectDetector.glob_openapi := [];
     ProjectDetector.glob_swagger := [];
     ProjectDetector.glob_py := [];
     ProjectDetector.glob_py_scored := [];
     ProjectDetector.glob_py_django := [];
     ProjectDetector.pom_spring_boot := false;
     ProjectDetector.gradle_spring_boot := false;
     ProjectDetector.glob_java :=
       [ {| ProjectDetector.file_name := "UserController.java";
            ProjectDetector.file_source :=
              Some {| ProjectDetector.java_controller := true;
                      ProjectDetector.java_mappings := [0; 1; 1; 0; 0; 0] |}
         |} ];
     ProjectDetector.glob_csproj := [];
     ProjectDetector.glob_cs := [] |}.

(** A Django project of two files: the views, with a function under
    [@api_view] and a ViewSet, and the URL configuration, which registers
    the ViewSet and names a view. *)
Definition djangoFiles : list DjangoRestExtractor.PythonFile :=
  [ {| DjangoRestExtractor.scanned := viewsFile;
       DjangoRestExtractor.routeMatches :=
         {| DjangoRestExtractor.functionRoutes :=
              [DjangoRestExtractor.functionRoute GET "health_check" "api/views.py"];
            DjangoRestExtractor.urlPaths := [] |};
       DjangoRestExtractor.readError := None |};
    {| DjangoRestExtractor.scanned := urlsFile;
       DjangoRestExtractor.routeMatches :=
         {| DjangoRestExtractor.functionRoutes := [];
            DjangoRestExtractor.urlPaths :=
              [ ("users/<int:pk>/avatar/", "AvatarView");
                ("users/", "UserViewSet") ] |};
       DjangoRestExtractor.readError := None |} ].

(** A FastAPI project of two files, with a router under a prefix. *)
Definition fastapiFiles : list FastApiExtractor.PythonFile :=
  [ {| FastApiExtractor.file_path := "app/main.py";
       FastApiExtractor.routerDefinitions := [];
       FastApiExtractor.pydanticModels := [];
       FastApiExtractor.routes := [routeOn "/health"];
       FastApiExtractor.readError := None |};
    {| FastApiExtractor.file_path := "app/users.py";
       FastApiExtractor.routerDefinitions := [("router", "/users")];
       FastApiExtractor.pydanticModels := ["UserCreate"];
       FastApiExtractor.routes :=
         [ {| FastApiExtractor.route_method := GET;
              FastApiExtractor.route_path := "/{user_id}";
              FastApiExtractor.functionName := "get_user";
              FastApiExtractor.routerName := "router";
              FastApiExtractor.filePath := "app/users.py";
              FastApiExtractor.functionParams := "user_id: int" |};
           {| FastApiExtractor.route_method := POST;
              FastApiExtractor.route_path := "/";
              FastApiExtractor.functionName := "create_user";
              FastApiExtractor.routerName := "router";
              FastApiExtractor.filePath := "app/users.py";
              FastApiExtractor.functionParams := "user: UserCreate" |} ];
       FastApiExtractor.readError := None |} ].

(** The last component of a path, without the extension when it ends
    with it. *)
Fixpoint lastComponent (current : string) (p : string) : string :=
  match p with
  | EmptyString => current
  | String c p' =>
      if Ascii.eqb c "/" then lastComponent "" p'
      else lastComponent (current ++ String c "") p'
  end.

Definition sampleBasename (p ext : string) : string :=
  Js.replaceSuffix ext "" (lastComponent "" p).

(** Two files that each define a router named [router]. *)
Definition itemsFile : FastApiExtractor.PythonFile :=
  {| FastApiExtractor.file_path := "app/items.py";
     FastApiExtractor.routerDefinitions := [("router", "/items")];
     FastApiExtractor.pydanticModels := [];
     FastApiExtractor.routes := [];
     FastApiExtractor.readError := None |}.

Definition ordersFile : FastApiExtractor.PythonFile :=
  {| FastApiExtractor.file_path := "app/orders.py";
     FastApiExtractor.routerDefinitions := [("router", "/orders")];
     FastApiExtractor.pydanticModels := [];
     FastApiExtractor.routes := [];
     FastApiExtractor.readError := None |}.

Definition itemRoute : FastApiExtractor.ExtractedRoute :=
  {| FastApiExtractor.route_method := GET;
     FastApiExtractor.route_path := "/{item_id}";
     FastApiExtractor.functionName := "get_item";
     FastApiExtractor.routerName := "router";
     FastApiExtractor.filePath := "app/items.py";
     FastApiExtractor.functionParams := "item_id: int" |}.

(** A Flask blueprint with a prefix, and a route on it. *)
Definition flaskBlueprints : gmap string FlaskExtractor.BlueprintInfo :=
  {[ "users_bp" :=
       {| FlaskExtractor.bp_name := "users";
          FlaskExtractor.variableName := "users_bp";
          FlaskExtractor.bp_prefix := "/users";
          FlaskExtractor.bp_filePath := "app/users.py" |} ]}.

Definition flaskRoute (p : string) : FlaskExtractor.ExtractedRoute :=
  {| FlaskExtractor.route_methods := [GET];
     FlaskExtractor.route_path := p;
     FlaskExtractor.functionName := "get_post";
     FlaskExtractor.blueprintName := Some "users_bp";
     FlaskExtractor.filePath := "app/users.py";
     FlaskExtractor.lineNumber := 12 |}.


Definition springRoute (paramsStr : string)
  : SpringBootExtractor.ExtractedRoute :=
  {| SpringBootExtractor.route_method := GET;
     SpringBootExtractor.route_path := "/api/users/{id}";
     SpringBootExtractor.methodName := "getUser";
     SpringBootExtractor.className := "UserController";
     SpringBootExtractor.methodParams := paramsStr;
     SpringBootExtractor.filePath := "UserController.java" |}.

(** The scan of the handler [getUser(@RequestParam String id)], whose
    request parameter bears the name of the placeholder. *)
Definition springScanQueryOnly (paramsStr : string)
  : SpringBootExtractor.MethodParamMatches :=
  {| SpringBootExtractor.pathVariables := [];
     SpringBootExtractor.requestParams := [("String", "id")];
     SpringBootExtractor.requestBodyType := None |}.

(** An ASP.NET handler [Get(int id, string fields)] under
    [/api/users/{id}]: the pattern of the parameters without attribute
    finds [int id], which a comma follows. *)
Definition aspnetScan (paramsStr : string)
  : AspNetExtractor.MethodParamMatches :=
  {| AspNetExtractor.fromRoute := [];
     AspNetExtractor.fromQuery := [];
     AspNetExtractor.fromBodyType := None;
     AspNetExtractor.simpleParams := [("int", "id")] |}.

Definition aspnetRoute (paramsStr : string)
  : AspNetExtractor.ExtractedRoute :=
  {| AspNetExtractor.route_method := GET;
     AspNetExtractor.route_path := "/api/users/{id}";
     AspNetExtractor.methodName := "Get";
     AspNetExtractor.controllerName := "UsersController";
     AspNetExtractor.methodParams := paramsStr;
     AspNetExtractor.returnType := "UserDto";
     AspNetExtractor.filePath := "UsersController.cs" |}.


End Samples.

(** ** Directories that differ in their route matches only *)

Module MoreRoutes.

Import ProjectDetector.

Open Scope Z_scope.

(** Two files of the same name, both unreadable or both readable with
    sources related by [R]. *)
Definition files {S : Type} (R : S -> S -> Prop) (f g : File S) : Prop :=
  file_name f = file_name g
  /\ option_Forall2 R (file_source f) (file_source g).

(** The second source has at least as many matches of each counted
    route pattern; every other signal is the same. *)
Definition python (a b : PythonSource) : Prop :=
  fastapi_import a = fastapi_import b
  /\ fastapi_instance a = fastapi_instance b
  /\ fastapi_apirouter a = fastapi_apirouter b
  /\ flask_import a = flask_import b
  /\ flask_instance a = flask_instance b
  /\ flask_blueprint a = flask_blueprint b
  /\ drf_import a = drf_import b
  /\ drf_viewset_class a = drf_viewset_class b
  /\ drf_apiview_class a = drf_apiview_class b
  /\ drf_router a = drf_router b
  /\ drf_serializer_class a = drf_serializer_class b
  /\ total (fastapi_routes a) <= total (fastapi_routes b)
  /\ (flask_routes a <= flask_routes b)%nat
  /\ (drf_api_views a <= drf_api_views b)%nat.

Definition java (a b : JavaSource) : Prop :=
  java_controller a = java_controller b
  /\ total (java_mappings a) <= total (java_mappings b).

Definition cs (a b : CsSource) : Prop :=
  cs_controller a = cs_controller b
  /\ total (cs_http_attributes a) <= total (cs_http_attributes b).

(** The second directory is the first one with more matches of the route
    patterns in its sources. *)
Record directories (d1 d2 : Directory) : Prop := {
  same_existsSync : forall f, existsSync d1 f = existsSync d2 f;
  same_pom : pom_spring_boot d1 = pom_spring_boot d2;
  same_gradle : gradle_spring_boot d1 = gradle_spring_boot d2;
  same_csproj : glob_csproj d1 = glob_csproj d2;
  more_py_scored :
    Forall2 (files python) (glob_py_scored d1) (glob_py_scored d2);
  more_py_django :
    Forall2 (files python) (glob_py_django d1) (glob_py_django d2);
  more_java : Forall2 (files java) (glob_java d1) (glob_java d2);
  more_cs : Forall2 (files cs) (glob_cs d1) (glob_cs d2)
}.

End MoreRoutes.

(** * Properties *)

#[local] Arguments Ascii.eqb : simpl never.
#[local] Arguments String.eqb : simpl never.

(** ** Strings *)

Section StringFacts.

Import Js.

Lemma prefix_slash (s : string) :
  isPrefix "/" s = true <-> exists s', s = String "/" s'.
Proof.
  destruct s as [|c s]; simpl.
  - split; [discriminate | intros [s' H]; discriminate].
  - destruct (Ascii.eqb_spec "/" c) as [<-|Hc]; simpl.
    + split; [eauto | reflexivity].
    + split; [discriminate | intros [s' [= H _]]; congruence].
Qed.

Lemma prefix_double_slash (s : string) :
  isPrefix "//" s = true <-> exists s', s = String "/" (String "/" s').
Proof.
  destruct s as [|c s]; [split; [discriminate | intros [s' H]; discriminate]|].
  change (isPrefix "//" (String c s)) with (Ascii.eqb "/" c && isPrefix "/" s).
  destruct (Ascii.eqb_spec "/" c) as [<-|Hc]; cbn [andb].
  - rewrite prefix_slash. split; intros [s' H]; exists s'; congruence.
  - split; [discriminate | intros [s' [= H _]]; congruence].
Qed.

Lemma includes_cons (c : ascii) (s search : string) :
  includes (String c s) search =
    if isPrefix search (String c s) then true else includes s search.
Proof. reflexivity. Qed.

(** After a replacement started inside a run no slash comes first, and
    the result never holds two slashes in a row. *)
Lemma replaceSlashRuns_from_spec (inRun : bool) (s : string) :
  includes (replaceSlashRuns_from inRun s) "//" = false
  /\ (inRun = true -> isPrefix "/" (replaceSlashRuns_from inRun s) = false).
Proof.
  revert inRun. induction s as [|c s IH]; intros inRun; [by split|].
  simpl replaceSlashRuns_from.
  destruct (Ascii.eqb_spec c "/") as [->|Hc].
  - destruct (IH true) as [Hno Hfirst]. specialize (Hfirst eq_refl).
    destruct inRun; [by split|].
    split; [|discriminate].
    rewrite includes_cons.
    destruct (isPrefix "//" _) eqn:Hp; [|assumption].
    apply prefix_double_slash in Hp as [s' [= Hs']].
    rewrite Hs' in Hfirst. discriminate.
  - destruct (IH false) as [Hno _].
    split.
    + rewrite includes_cons.
      destruct (isPrefix "//" _) eqn:Hp; [|assumption].
      apply prefix_double_slash in Hp as [s' [= Hs' _]]. congruence.
    + intros _. simpl. destruct (Ascii.eqb_spec "/" c); [congruence | reflexivity].
Qed.

Lemma replaceSlashRuns_no_double_slash (s : string) :
  includes (replaceSlashRuns s) "//" = false.
Proof. apply replaceSlashRuns_from_spec. Qed.

Lemma replaceSlashRuns_leading_slash (s : string) :
  replaceSlashRuns (String "/" s) = String "/" (replaceSlashRuns_from true s).
Proof. reflexivity. Qed.

Lemma slice_0_m1_cons2 (c d : ascii) (s : string) :
  slice_0_m1 (String c (String d s)) = String c (slice_0_m1 (String d s)).
Proof. reflexivity. Qed.

Lemma endsWith_slash_slice (s : string) :
  endsWith s "/" = true -> s = slice_0_m1 s ++ "/".
Proof.
  induction s as [|c s IH]; [discriminate|].
  cbn [endsWith].
  destruct (String.eqb_spec (String c s) "/") as [Heq|Hne].
  - intros _. by rewrite Heq.
  - intros Hends. destruct s as [|d s]; [discriminate|].
    rewrite slice_0_m1_cons2.
    change (String c (slice_0_m1 (String d s)) ++ "/")
      with (String c (slice_0_m1 (String d s) ++ "/")).
    by rewrite <- IH.
Qed.

Lemma isPrefix_app (x t u : string) :
  isPrefix x t = true -> isPrefix x (t ++ u) = true.
Proof.
  revert t. induction x as [|a x IH]; intros t; [reflexivity|].
  destruct t as [|b t]; [discriminate|].
  change (String b t ++ u) with (String b (t ++ u)). cbn [isPrefix].
  intros [Hab Hx]%andb_prop. by rewrite Hab, IH.
Qed.

Lemma includes_app_false (t u search : string) :
  includes (t ++ u) search = false -> includes t search = false.
Proof.
  induction t as [|c t IH].
  - destruct search as [|a x]; [|reflexivity].
    destruct u; discriminate.
  - change (String c t ++ u) with (String c (t ++ u)).
    rewrite !includes_cons.
    destruct (isPrefix search (String c t)) eqn:Hpre.
    + apply (isPrefix_app _ _ u) in Hpre.
      change (String c t ++ u) with (String c (t ++ u)) in Hpre.
      by rewrite Hpre.
    + destruct (isPrefix search (String c (t ++ u))); [discriminate | exact IH].
Qed.

Lemma includes_app_slash (t : string) :
  endsWith t "/" = true -> includes (t ++ "/") "//" = true.
Proof.
  induction t as [|c t IH]; [discriminate|].
  cbn [endsWith]. change (String c t ++ "/") with (String c (t ++ "/")).
  rewrite includes_cons.
  destruct (String.eqb_spec (String c t) "/") as [Heq|_].
  - intros _. by injection Heq as -> ->.
  - intros Hends. rewrite (IH Hends). by destruct (isPrefix _ _).
Qed.

(** Where no two slashes stand in a row nothing is replaced. *)
Lemma replaceSlashRuns_single_slashes (inRun : bool) (s : string) :
  includes s "//" = false /\ (inRun = true -> isPrefix "/" s = false) ->
  replaceSlashRuns_from inRun s = s.
Proof.
  revert inRun. induction s as [|c s IH]; intros inRun [Hno Hfirst];
    [reflexivity|].
  rewrite includes_cons in Hno.
  destruct (isPrefix "//" (String c s)) eqn:Hpre; [discriminate|].
  cbn [replaceSlashRuns_from].
  destruct (Ascii.eqb_spec c "/") as [->|Hc].
  - destruct inRun; [by specialize (Hfirst eq_refl)|].
    f_equal. apply IH. split; [assumption|]. intros _.
    destruct (isPrefix "/" s) eqn:Hs; [|reflexivity].
    apply prefix_slash in Hs as [s' ->]. discriminate Hpre.
  - f_equal. apply IH. by split.
Qed.

End StringFacts.

(** ** [normalizePath] *)

Section NormalizePath.

Import Js BaseExtractor.

(** The path after the first two steps of [normalizePath] starts with a
    slash. *)
Lemma normalizePath_leading (p : string) :
  exists rest, normalizePath p = replaceSlashRuns (String "/" rest).
Proof.
  unfold normalizePath, startsWith.
  set (n1 := if negb (isPrefix "/" p) then "/" ++ p else p).
  assert (exists r1, n1 = String "/" r1) as [r1 ->].
  { subst n1. destruct (isPrefix "/" p) eqn:Hp; simpl; [|eauto].
    by apply prefix_slash in Hp. }
  destruct (_ && _) eqn:Hcond; [|eauto].
  apply andb_prop in Hcond as [Hlen _].
  destruct r1 as [|d r1]; [discriminate|].
  rewrite slice_0_m1_cons2. eauto.
Qed.

(** The first two conditions of the path invariant hold of every
    result: it starts with a slash and holds no two slashes in a row. *)
Lemma normalizePath_starts_with_slash (p : string) :
  startsWith (normalizePath p) "/" = true.
Proof.
  destruct (normalizePath_leading p) as [rest ->].
  rewrite replaceSlashRuns_leading_slash. unfold startsWith. by apply prefix_slash; eauto.
Qed.

Lemma normalizePath_no_double_slash (p : string) :
  includes (normalizePath p) "//" = false.
Proof.
  destruct (normalizePath_leading p) as [rest ->].
  apply replaceSlashRuns_no_double_slash.
Qed.

(** On a path without two slashes in a row the three conditions of the
    path invariant hold. *)
Lemma normalizePath_single_slashes (p : string) :
  includes p "//" = false ->
  startsWith (normalizePath p) "/" = true
  /\ includes (normalizePath p) "//" = false
  /\ (endsWith (normalizePath p) "/" = true -> normalizePath p = "/").
Proof.
  intros Hp.
  split; [apply normalizePath_starts_with_slash|].
  split; [apply normalizePath_no_double_slash|].
  unfold normalizePath, startsWith.
  set (n1 := if negb (isPrefix "/" p) then "/" ++ p else p).
  assert (includes n1 "//" = false /\ exists r1, n1 = String "/" r1)
    as [Hn1 [r1 Hr1]].
  { subst n1. destruct (isPrefix "/" p) eqn:Hpre; cbn [negb].
    - split; [assumption|]. by apply prefix_slash in Hpre.
    - split; [|by eauto].
      change ("/" ++ p) with (String "/" p). rewrite includes_cons.
      change (isPrefix "//" (String "/" p)) with (Ascii.eqb "/" "/" && isPrefix "/" p).
      by rewrite Hpre. }
  destruct (Nat.ltb 1 (String.length n1) && endsWith n1 "/") eqn:Hcond.
  - apply andb_prop in Hcond as [_ Hends].
    pose proof (endsWith_slash_slice n1 Hends) as Hsplit.
    assert (includes (slice_0_m1 n1) "//" = false) as Hslice.
    { rewrite Hsplit in Hn1. by apply includes_app_false in Hn1. }
    rewrite (replaceSlashRuns_single_slashes false) by (by split).
    intros Hends'. exfalso.
    rewrite Hsplit in Hn1.
    by rewrite (includes_app_slash _ Hends') in Hn1.
  - rewrite (replaceSlashRuns_single_slashes false) by (by split).
    intros Hends. rewrite Hends in Hcond.
    apply andb_false_iff in Hcond as [Hlen|]; [|discriminate].
    rewrite Hr1 in Hlen |- *. destruct r1; [reflexivity | discriminate].
Qed.

(** C2 (the code departs from the claim).  The trailing slash is removed
    before the runs of slashes are collapsed, and only one is removed: on
    the path [users//] the result is [/users/], which ends with a slash
    and is not the root path. *)
Theorem normalizePath_keeps_trailing_slash :
  normalizePath "users//" = "/users/"
  /\ endsWith (normalizePath "users//") "/" = true
  /\ normalizePath "users//" <> "/".
Proof. by vm_compute. Qed.

End NormalizePath.

(** ** Status codes of the OpenAPI extractor *)

Section StatusCodes.

Import Js OpenApiExtractor.

(** A key without leading digits is not a number and maps to 200. *)
Lemma convertResponse_NaN (key : string) (resp : OpenApiResponse) :
  parseInt10 key = None ->
  statusCode (convertResponse (parseInt10 key) resp) = 200%Z.
Proof. by intros ->. Qed.

Lemma parseInt10_default : parseInt10 "default" = None.
Proof. reflexivity. Qed.

Lemma parseInt10_404 : parseInt10 "404" = Some 404%Z.
Proof. reflexivity. Qed.

(** Digits that come first are read even when letters follow. *)
Lemma leadingDigits_some (acc : Z) (s : string) :
  exists n, leadingDigits (Some acc) s = Some n.
Proof.
  revert acc. induction s as [|c s IH]; intros acc; simpl; [eauto|].
  destruct (digitValue c); eauto.
Qed.

Lemma parseInt10_leading_digit (d : ascii) (s : string) :
  is_Some (digitValue d) -> is_Some (parseInt10 (String d s)).
Proof.
  intros [v Hv]. unfold parseInt10.
  assert (isStrWhiteSpace d = false) as Hws.
  { unfold digitValue in Hv. unfold isStrWhiteSpace.
    destruct (Nat.leb 48 (nat_of_ascii d) && Nat.leb (nat_of_ascii d) 57) eqn:E;
      [|discriminate].
    apply andb_prop in E as [E1 E2].
    apply Nat.leb_le in E1, E2.
    repeat match goal with
           | |- context [Nat.leb ?a ?b] => destruct (Nat.leb_spec a b)
           | |- context [Nat.eqb ?a ?b] => destruct (Nat.eqb_spec a b)
           end; simpl; try reflexivity; lia. }
  simpl trimStart. rewrite Hws.
  assert (d <> "-"%char /\ d <> "+"%char) as [Hm Hp].
  { split; intros ->; discriminate. }
  assert (leadingDigits None (String d s) = leadingDigits (Some (10 * 0 + v)%Z) s)
    as Hd by (simpl; by rewrite Hv).
  destruct (leadingDigits_some (10 * 0 + v) s) as [n Hn].
  destruct d as [[] [] [] [] [] [] [] []]; try congruence;
    rewrite Hd, Hn; eauto.
Qed.

(** C4 (the code departs from the claim).  The key [4XX] is not a number,
    yet [parseInt] reads its leading digit: the response is given the
    status code 4, where the claim says 200.  The keys [200] and
    [default] come out as 200. *)
Theorem createEndpoint_range_key_status :
  map statusCode
    (responses (createEndpoint "/pets" GET Samples.rangeOperation []))
  = [200; 4; 200]%Z.
Proof. reflexivity. Qed.

End StatusCodes.

(** ** Parameter locations *)

Section ParameterLocations.

Import Js BaseExtractor OpenApiExtractor.

(** Outside its four keys and the members of [Object.prototype], the
    table of locations gives [undefined] and PATH is returned. *)
Lemma parseParameterLocation_default (location : string) :
  let lower := toLowerCase location in
  ~ In lower ["path"; "query"; "header"; "cookie"] ->
  ~ In lower Object_prototype_keys ->
  parseParameterLocation location = Typed PATH.
Proof.
  intros lower Hkeys Hproto.
  unfold parseParameterLocation, lookupOr, getProperty. fold lower.
  assert (ownProperty locations lower = None) as ->.
  { unfold locations. cbn [ownProperty].
    repeat match goal with
           | |- context [String.eqb ?a lower] =>
               destruct (String.eqb_spec a lower) as [E|_];
               [exfalso; apply Hkeys; rewrite <- E; simpl; tauto|]
           end.
    reflexivity. }
  destruct (existsb _ _) eqn:E; [|reflexivity].
  apply existsb_exists in E as (k & Hin & Hk).
  apply String.eqb_eq in Hk. subst k. contradiction.
Qed.

(** The Swagger 2.0 location [body] becomes PATH, and the parameter keeps
    its declared [required] flag. *)
Lemma convertParameter_body :
  param_in (convertParameter Samples.bodyParameter) = Typed PATH
  /\ param_required (convertParameter Samples.bodyParameter) = false.
Proof. by split. Qed.

Lemma lowerChar_not_upper (c : ascii) : isAsciiUpper (lowerChar c) = false.
Proof. by destruct c as [[] [] [] [] [] [] [] []]. Qed.

Lemma toLowerCase_no_upper (s : string) :
  hasAsciiUpper (toLowerCase s) = false.
Proof.
  induction s as [|c s IH]; [reflexivity|].
  cbn [toLowerCase hasAsciiUpper]. by rewrite lowerChar_not_upper, IH.
Qed.

(** A lowercase form meets [Object.prototype] in two names only. *)
Lemma toLowerCase_prototype_key (s : string) :
  In (toLowerCase s) Object_prototype_keys ->
  toLowerCase s = "constructor" \/ toLowerCase s = "__proto__".
Proof.
  pose proof (toLowerCase_no_upper s) as Hlow.
  unfold Object_prototype_keys. cbn [In].
  intros H. decompose [or] H; clear H;
    try (by left); try (by right); try contradiction;
    match goal with
    | Heq : _ = toLowerCase s |- _ => rewrite <- Heq in Hlow; discriminate Hlow
    end.
Qed.

(** The two lowercase forms for which the lookup leaves the locations, and
    PATH for every other form that is not a key of the table. *)
Lemma parseParameterLocation_cases (location : string) :
  let lower := toLowerCase location in
  (lower = "constructor" \/ lower = "__proto__" ->
   parseParameterLocation location = Foreign lower)
  /\ (~ In lower ["path"; "query"; "header"; "cookie"] ->
      lower <> "constructor" -> lower <> "__proto__" ->
      parseParameterLocation location = Typed PATH).
Proof.
  intros lower. split.
  - unfold parseParameterLocation. fold lower. by intros [->| ->].
  - intros Hkeys Hc Hp. apply parseParameterLocation_default; [exact Hkeys|].
    intros Hin. apply toLowerCase_prototype_key in Hin as [?|?]; contradiction.
Qed.

(** C10 (the code departs from the claim).  The table of locations is an
    object literal, so its lookup also finds what [Object.prototype]
    holds: for the location [constructor] the lookup gives the function
    [Object], which is truthy, and the fallback to PATH is not taken. *)
Theorem parseParameterLocation_constructor :
  parseParameterLocation "constructor" = Foreign "constructor"
  /\ ~ In (toLowerCase "constructor") ["path"; "query"; "header"; "cookie"]
  /\ param_in (convertParameter Samples.constructorParameter) <> Typed PATH.
Proof.
  split; [reflexivity|]. split; [|discriminate].
  vm_compute. intuition discriminate.
Qed.

End ParameterLocations.

(** ** The detector *)

Section Detector.

Import Js ProjectDetector.

Open Scope Z_scope.

(** *** The stable sort *)

Lemma sort_insert_In {A : Type} (compare : A -> A -> Z) (x y : A) (l : list A) :
  In y (sort_insert compare x l) <-> y = x \/ In y l.
Proof.
  induction l as [|z l IH]; simpl; [intuition|].
  destruct (compare x z <=? 0); simpl; [intuition|].
  rewrite IH. intuition.
Qed.

Lemma sort_In {A : Type} (compare : A -> A -> Z) (y : A) (l : list A) :
  In y (sort compare l) <-> In y l.
Proof.
  induction l as [|x l IH]; simpl; [tauto|].
  rewrite sort_insert_In, IH. intuition.
Qed.

(** A first element that no later element beats stays first. *)
Lemma sort_first_wins (x : DetectionResult) (l : list DetectionResult) :
  (forall y, In y l -> confidence y <= confidence x) ->
  sort (fun a b => confidence b - confidence a) (x :: l)
  = x :: sort (fun a b => confidence b - confidence a) l.
Proof.
  intros Hmax. simpl.
  destruct (sort _ l) as [|y l'] eqn:Hs; [reflexivity|].
  simpl.
  assert (In y l) as Hy by (apply (sort_In (fun a b => confidence b - confidence a)); rewrite Hs; by left).
  apply Hmax in Hy.
  destruct (Z.leb_spec (confidence y - confidence x) 0); [reflexivity | lia].
Qed.

(** *** What each strategy logs and returns *)

Lemma detectOpenApi_trace (d : Directory) :
  snd (detectOpenApi d) = [OpenApiSpec].
Proof.
  unfold detectOpenApi, bind, announce, ret.
  by destruct (findConventional d OPENAPI_SPEC_PATTERNS).
Qed.

Lemma detectPython_trace (d : Directory) : snd (detectPython d) = [Python].
Proof.
  unfold detectPython, bind, announce, ret.
  destruct (_ && _); [reflexivity|].
  destruct (sort _ _) as [|best ?]; [reflexivity|].
  by destruct (_ <=? _).
Qed.

Lemma detectJava_trace (d : Directory) : snd (detectJava d) = [Java].
Proof.
  unfold detectJava, bind, announce, ret.
  destruct (_ && _); [reflexivity|]. by destruct (_ <? _).
Qed.

Lemma detectDotNet_trace (d : Directory) : snd (detectDotNet d) = [DotNet].
Proof.
  unfold detectDotNet, bind, announce, ret.
  destruct (Nat.eqb _ _); [reflexivity|]. by destruct (_ <? _).
Qed.

(** In a directory that exists the four strategies run, in this order,
    whatever the first ones find. *)
Lemma detect_runs_all (d : Directory) :
  dir_exists d = true ->
  detect d =
    (selectBest (collect [ fst (detectOpenApi d); fst (detectPython d);
                           fst (detectJava d); fst (detectDotNet d) ]),
     [OpenApiSpec; Python; Java; DotNet]).
Proof.
  intros Hd. unfold detect. rewrite Hd. simpl negb. cbv iota.
  pose proof (detectOpenApi_trace d) as H1.
  pose proof (detectPython_trace d) as H2.
  pose proof (detectJava_trace d) as H3.
  pose proof (detectDotNet_trace d) as H4.
  destruct (detectOpenApi d) as [r1 t1], (detectPython d) as [r2 t2],
    (detectJava d) as [r3 t3], (detectDotNet d) as [r4 t4].
  simpl in *. by subst.
Qed.

Lemma findConventional_openapi (d : Directory) (patterns : list string)
    (r : DetectionResult) :
  findConventional d patterns = Some r ->
  type r = OPENAPI /\ confidence r = 100.
Proof.
  induction patterns as [|pat rest IH]; simpl; [discriminate|].
  destruct (_ && _); [|assumption]. by intros [= <-].
Qed.

Lemma findGlobbed_openapi (d : Directory) (globs : list (list string))
    (r : DetectionResult) :
  findGlobbed d globs = Some r -> type r = OPENAPI /\ confidence r = 100.
Proof.
  induction globs as [|matches rest IH]; simpl; [discriminate|].
  destruct matches as [|specPath ?]; [assumption|].
  destruct (validateOpenApiSpec d specPath); [|assumption]. by intros [= <-].
Qed.

Lemma detectOpenApi_result (d : Directory) (r : DetectionResult) :
  fst (detectOpenApi d) = Some r -> type r = OPENAPI /\ confidence r = 100.
Proof.
  unfold detectOpenApi, bind, announce, ret.
  destruct (findConventional d OPENAPI_SPEC_PATTERNS) as [r'|] eqn:Hc;
    cbn [fst].
  - intros [= <-]. by eapply findConventional_openapi.
  - apply findGlobbed_openapi.
Qed.

(** The Java and .NET strategies cap their confidence. *)
Lemma detectJava_range (d : Directory) (r : DetectionResult) :
  fst (detectJava d) = Some r -> 30 <= confidence r <= 100.
Proof.
  unfold detectJava, bind, announce, ret.
  destruct (_ && _); [discriminate|].
  generalize (scoreJava d). intros s.
  destruct (Z.ltb_spec (score s) MIN_CONFIDENCE_THRESHOLD);
    [discriminate|]. cbn [fst].
  intros [= <-]. cbn [confidence]. unfold MIN_CONFIDENCE_THRESHOLD in *. lia.
Qed.

Lemma detectDotNet_range (d : Directory) (r : DetectionResult) :
  fst (detectDotNet d) = Some r -> 30 <= confidence r <= 100.
Proof.
  unfold detectDotNet, bind, announce, ret.
  destruct (Nat.eqb _ _); [discriminate|].
  generalize (scoreDotNet d). intros s.
  destruct (Z.ltb_spec (score s) MIN_CONFIDENCE_THRESHOLD);
    [discriminate|]. cbn [fst].
  intros [= <-]. cbn [confidence]. unfold MIN_CONFIDENCE_THRESHOLD in *. lia.
Qed.

(** The Python strategy returns its best score as it is, with no upper
    bound. *)
Lemma detectPython_range (d : Directory) (r : DetectionResult) :
  fst (detectPython d) = Some r -> 30 <= confidence r.
Proof.
  unfold detectPython, bind, announce, ret.
  destruct (_ && _); [discriminate|].
  destruct (sort _ _) as [|best ?]; [discriminate|].
  destruct (Z.leb_spec MIN_CONFIDENCE_THRESHOLD (score (snd best)));
    [|discriminate].
  cbn [fst]. intros [= <-]. cbn [confidence].
  unfold MIN_CONFIDENCE_THRESHOLD in *. lia.
Qed.

(** The confidence of the result is 0 for the unknown type, and that of
    a collected candidate otherwise. *)
Lemma selectBest_cases (results : list DetectionResult) :
  selectBest results = createUnknownResult
  \/ (In (selectBest results) results
      /\ 30 <= confidence (selectBest results)).
Proof.
  unfold selectBest.
  destruct (sort _ results) as [|best rest] eqn:Hs; [by left|].
  destruct (Z.ltb_spec (confidence best) MIN_CONFIDENCE_THRESHOLD);
    [by left|].
  right. split; [|unfold MIN_CONFIDENCE_THRESHOLD in *; lia].
  apply (sort_In (fun a b => confidence b - confidence a)).
  rewrite Hs. by left.
Qed.

(** The confidence is never negative, and it is at most 100 when the
    Python strategy has no candidate. *)
Lemma detect_confidence_range (d : Directory) :
  0 <= confidence (fst (detect d))
  /\ (fst (detectPython d) = None -> confidence (fst (detect d)) <= 100).
Proof.
  destruct (dir_exists d) eqn:Hd.
  - rewrite (detect_runs_all d Hd). change (fst (?a, ?b)) with a.
    destruct (selectBest_cases
                (collect [ fst (detectOpenApi d); fst (detectPython d);
                           fst (detectJava d); fst (detectDotNet d) ]))
      as [->|[Hin Hmin]]; [by split|].
    split; [lia|]. intros Hpy.
    apply list_elem_of_In, list_elem_of_omap in Hin as (o & Ho & Hy).
    unfold id in Hy. subst o.
    apply list_elem_of_In in Ho. cbn [In] in Ho.
    destruct Ho as [Ho|[Ho|[Ho|[Ho|[]]]]].
    + apply detectOpenApi_result in Ho as [_ ->]. lia.
    + congruence.
    + apply detectJava_range in Ho. lia.
    + apply detectDotNet_range in Ho. lia.
  - unfold detect. rewrite Hd. by split.
Qed.

(** C3 (the code departs from the claim).  The Python strategy returns the
    best score as it is: with two modules that import FastAPI the score is
    60 + 60 and the detector returns the confidence 120. *)
Theorem detect_python_confidence_above_100 :
  type (fst (detect Samples.twoFastApiModules)) = FASTAPI
  /\ confidence (fst (detect Samples.twoFastApiModules)) = 120
  /\ ~ (0 <= confidence (fst (detect Samples.twoFastApiModules)) <= 100).
Proof.
  assert (fst (detect Samples.twoFastApiModules) =
            {| type := FASTAPI; confidence := 120; specFile := None;
               estimatedEndpoints := Some 0 |}) as -> by by vm_compute.
  simpl. repeat split. lia.
Qed.

(** C5, as the claim states it, fails: next to a valid OpenAPI document
    the Python, Java and .NET strategies run all the same. *)
Lemma detect_spec_found_others_still_run :
  fst (detectOpenApi Samples.specAndOneFastApiModule)
    = Some (openApiResult "openapi.yaml")
  /\ snd (detect Samples.specAndOneFastApiModule)
     = [OpenApiSpec; Python; Java; DotNet]
  /\ snd (detect Samples.specAndOneFastApiModule) <> [OpenApiSpec].
Proof. by vm_compute. Qed.

(** With the two modules of C3 next to the document, the uncapped Python
    confidence even outranks the document. *)
Lemma detect_spec_outranked :
  fst (detectOpenApi Samples.specAndTwoFastApiModules)
    = Some (openApiResult "openapi.yaml")
  /\ type (fst (detect Samples.specAndTwoFastApiModules)) = FASTAPI
  /\ confidence (fst (detect Samples.specAndTwoFastApiModules)) = 120.
Proof. by vm_compute. Qed.

(** The first loop of [detectOpenApi] stops at the first conventional
    name whose file exists and validates. *)
Lemma findConventional_first (d : Directory) (patterns : list string)
    (pattern : string) :
  In pattern patterns ->
  existsSync d pattern = true ->
  validateOpenApiSpec d pattern = true ->
  exists before file after,
    patterns = (before ++ file :: after)%list
    /\ Forall (fun p => existsSync d p && validateOpenApiSpec d p = false)
         before
    /\ existsSync d file = true
    /\ validateOpenApiSpec d file = true
    /\ findConventional d patterns = Some (openApiResult file).
Proof.
  intros Hin Hexists Hvalid.
  induction patterns as [|p rest IH]; [destruct Hin|].
  cbn [findConventional].
  destruct (existsSync d p && validateOpenApiSpec d p) eqn:Hp.
  - apply andb_prop in Hp as [Hpe Hpv].
    exists [], p, rest. by repeat split.
  - destruct Hin as [->|Hin]; [by rewrite Hexists, Hvalid in Hp|].
    destruct (IH Hin) as (before & file & after & -> & Hbefore & Hfe & Hfv & Hfind).
    exists (p :: before), file, after.
    split; [reflexivity|]. split; [by constructor|]. by repeat split.
Qed.

(** C5 (amended).  When a file of the conventional list exists and
    validates, the OpenAPI strategy yields, for the first such file of
    the list, a candidate of type openapi and confidence 100 that names
    the file; the three other strategies still run and their candidates
    are collected; the candidates are sorted by confidence, the first
    registered winning ties, so the OpenAPI candidate is returned
    whenever the Python candidate, if any, has a confidence of at most
    100 (the Java and .NET candidates always have). *)
Theorem detect_spec_wins (d : Directory) (pattern : string) :
  dir_exists d = true ->
  In pattern OPENAPI_SPEC_PATTERNS ->
  existsSync d pattern = true ->
  validateOpenApiSpec d pattern = true ->
  (forall p, fst (detectPython d) = Some p -> confidence p <= 100) ->
  exists before file after,
    OPENAPI_SPEC_PATTERNS = (before ++ file :: after)%list
    /\ Forall (fun p => existsSync d p && validateOpenApiSpec d p = false)
         before
    /\ existsSync d file = true
    /\ validateOpenApiSpec d file = true
    /\ fst (detectOpenApi d) = Some (openApiResult file)
    /\ fst (detect d) = openApiResult file
    /\ type (fst (detect d)) = OPENAPI
    /\ confidence (fst (detect d)) = 100
    /\ specFile (fst (detect d)) = Some file
    /\ snd (detect d) = [OpenApiSpec; Python; Java; DotNet].
Proof.
  intros Hd Hin Hexists Hvalid Hpy.
  destruct (findConventional_first d OPENAPI_SPEC_PATTERNS pattern
              Hin Hexists Hvalid)
    as (before & file & after & Hsplit & Hbefore & Hfe & Hfv & Hfind).
  exists before, file, after.
  assert (fst (detectOpenApi d) = Some (openApiResult file)) as Hr
    by (unfold detectOpenApi, bind, announce, ret; by rewrite Hfind).
  assert (fst (detect d) = openApiResult file) as Hbest.
  { rewrite (detect_runs_all d Hd). change (fst (?a, ?b)) with a.
    rewrite Hr. unfold collect.
    change (omap id (Some ?r :: ?l)) with (r :: omap id l).
    unfold selectBest. rewrite sort_first_wins; [reflexivity|].
    intros y Hy. change (confidence (openApiResult file)) with 100.
    apply list_elem_of_In, list_elem_of_omap in Hy as (o & Ho & Hy).
    unfold id in Hy. subst o.
    apply list_elem_of_In in Ho. cbn [In] in Ho.
    destruct Ho as [Ho|[Ho|[Ho|[]]]].
    - by apply Hpy.
    - by apply (detectJava_range d).
    - by apply (detectDotNet_range d). }
  rewrite Hbest.
  do 6 (split; [first [assumption | reflexivity]|]).
  do 3 (split; [reflexivity|]).
  rewrite (detect_runs_all d Hd). reflexivity.
Qed.

Lemma detect_spec_wins_witness :
  exists before file after,
    OPENAPI_SPEC_PATTERNS = (before ++ file :: after)%list
    /\ Forall
         (fun p => existsSync Samples.specAndOneFastApiModule p
                   && validateOpenApiSpec Samples.specAndOneFastApiModule p
                   = false)
         before
    /\ existsSync Samples.specAndOneFastApiModule file = true
    /\ validateOpenApiSpec Samples.specAndOneFastApiModule file = true
    /\ fst (detectOpenApi Samples.specAndOneFastApiModule)
       = Some (openApiResult file)
    /\ fst (detect Samples.specAndOneFastApiModule) = openApiResult file
    /\ type (fst (detect Samples.specAndOneFastApiModule)) = OPENAPI
    /\ confidence (fst (detect Samples.specAndOneFastApiModule)) = 100
    /\ specFile (fst (detect Samples.specAndOneFastApiModule)) = Some file
    /\ snd (detect Samples.specAndOneFastApiModule)
       = [OpenApiSpec; Python; Java; DotNet].
Proof.
  apply (detect_spec_wins Samples.specAndOneFastApiModule "openapi.yaml").
  - reflexivity.
  - vm_compute. tauto.
  - by vm_compute.
  - by vm_compute.
  - intros p. vm_compute. intros [= <-]. discriminate.
Defined.

End Detector.

(** ** The scores grow with the route matches *)

Section ScoreMonotone.

Import ProjectDetector.

Open Scope Z_scope.

Lemma endpointBonus_range (factor count : Z) :
  0 <= factor -> 0 <= endpointBonus factor count <= MULTIPLE_ENDPOINTS.
Proof.
  intros Hf. unfold endpointBonus, MULTIPLE_ENDPOINTS.
  destruct (Z.ltb_spec 0 count); [|lia].
  assert (0 <= count * factor) by nia. lia.
Qed.

Lemma endpointBonus_mono (factor c1 c2 : Z) :
  0 <= factor -> c1 <= c2 ->
  endpointBonus factor c1 <= endpointBonus factor c2.
Proof.
  intros Hf Hc. unfold endpointBonus, MULTIPLE_ENDPOINTS.
  assert (c1 * factor <= c2 * factor) by nia.
  destruct (Z.ltb_spec 0 c1), (Z.ltb_spec 0 c2); lia.
Qed.

(** Once the count times the factor reaches the ceiling the bonus is the
    ceiling. *)
Lemma endpointBonus_saturates (factor count : Z) :
  0 < count -> MULTIPLE_ENDPOINTS <= count * factor ->
  endpointBonus factor count = MULTIPLE_ENDPOINTS.
Proof.
  intros Hc Hs. unfold endpointBonus.
  destruct (Z.ltb_spec 0 count); lia.
Qed.

Lemma addBonus_mono (factor : Z) (s1 s2 : Score) :
  0 <= factor ->
  score s1 = score s2 -> endpointCount s1 <= endpointCount s2 ->
  score (addBonus factor s1) <= score (addBonus factor s2).
Proof.
  intros Hf Hs Hc. unfold addBonus. cbn [score].
  pose proof (endpointBonus_mono factor _ _ Hf Hc). lia.
Qed.

(** A scan loop whose step keeps the signal points equal and the counts
    ordered does so over whole lists of files. *)
Lemma fold_scan_mono {S : Type} (scan : Score -> File S -> Score)
    (R : File S -> File S -> Prop) :
  (forall s1 s2 f g, R f g ->
     score s1 = score s2 -> endpointCount s1 <= endpointCount s2 ->
     score (scan s1 f) = score (scan s2 g)
     /\ endpointCount (scan s1 f) <= endpointCount (scan s2 g)) ->
  forall l1 l2, Forall2 R l1 l2 ->
  forall s1 s2,
    score s1 = score s2 -> endpointCount s1 <= endpointCount s2 ->
    score (fold_left scan l1 s1) = score (fold_left scan l2 s2)
    /\ endpointCount (fold_left scan l1 s1)
       <= endpointCount (fold_left scan l2 s2).
Proof.
  intros Hstep l1 l2 Hall.
  induction Hall as [|f g l1 l2 Hfg _ IH]; intros s1 s2 Hs Hc; simpl.
  - by split.
  - destruct (Hstep s1 s2 f g Hfg Hs Hc) as [Hs' Hc']. by apply IH.
Qed.

(** The steps of the five scan loops. *)
Ltac scan_step :=
  intros s1 s2 [f1 src1] [f2 src2] [_ Hsrc] Hs Hc;
  cbn [file_source] in Hsrc;
  destruct Hsrc as [a b Hab|]; cbn [file_source];
  [|by split].

Lemma scanFastApi_step (s1 s2 : Score) (f g : File PythonSource) :
  MoreRoutes.files MoreRoutes.python f g ->
  score s1 = score s2 -> endpointCount s1 <= endpointCount s2 ->
  score (scanFastApi s1 f) = score (scanFastApi s2 g)
  /\ endpointCount (scanFastApi s1 f) <= endpointCount (scanFastApi s2 g).
Proof.
  revert s1 s2 f g. scan_step. unfold scanFastApi. cbn [file_source score endpointCount].
  destruct Hab as (-> & -> & -> & _ & _ & _ & _ & _ & _ & _ & _ & Ht & _ & _).
  split; lia.
Qed.

Lemma scanFlask_step (s1 s2 : Score) (f g : File PythonSource) :
  MoreRoutes.files MoreRoutes.python f g ->
  score s1 = score s2 -> endpointCount s1 <= endpointCount s2 ->
  score (scanFlask s1 f) = score (scanFlask s2 g)
  /\ endpointCount (scanFlask s1 f) <= endpointCount (scanFlask s2 g).
Proof.
  revert s1 s2 f g. scan_step. unfold scanFlask. cbn [file_source score endpointCount].
  destruct Hab as (_ & _ & _ & -> & -> & -> & _ & _ & _ & _ & _ & _ & Ht & _).
  split; lia.
Qed.

Lemma scanDjango_step (s1 s2 : Score) (f g : File PythonSource) :
  MoreRoutes.files MoreRoutes.python f g ->
  score s1 = score s2 -> endpointCount s1 <= endpointCount s2 ->
  score (scanDjango s1 f) = score (scanDjango s2 g)
  /\ endpointCount (scanDjango s1 f) <= endpointCount (scanDjango s2 g).
Proof.
  revert s1 s2 f g. scan_step. unfold scanDjango. cbn [file_source score endpointCount].
  destruct Hab as (_ & _ & _ & _ & _ & _ & -> & -> & -> & -> & -> & _ & _ & Ht).
  split; lia.
Qed.

Lemma scanJava_step (s1 s2 : Score) (f g : File JavaSource) :
  MoreRoutes.files MoreRoutes.java f g ->
  score s1 = score s2 -> endpointCount s1 <= endpointCount s2 ->
  score (scanJava s1 f) = score (scanJava s2 g)
  /\ endpointCount (scanJava s1 f) <= endpointCount (scanJava s2 g).
Proof.
  revert s1 s2 f g. scan_step. unfold scanJava. cbn [file_source].
  destruct Hab as [-> Ht].
  destruct (java_controller b); cbn [score endpointCount]; split; lia.
Qed.

Lemma scanCs_step (s1 s2 : Score) (f g : File CsSource) :
  MoreRoutes.files MoreRoutes.cs f g ->
  score s1 = score s2 -> endpointCount s1 <= endpointCount s2 ->
  score (scanCs s1 f) = score (scanCs s2 g)
  /\ endpointCount (scanCs s1 f) <= endpointCount (scanCs s2 g).
Proof.
  revert s1 s2 f g. scan_step. unfold scanCs. cbn [file_source].
  destruct Hab as [-> Ht].
  destruct (cs_controller b); cbn [score endpointCount]; split; lia.
Qed.

(** C8.  Between two directories that differ only in that the second has
    at least as many matches of the route patterns in each file, no score
    decreases; and the bonus for the endpoints lies between 0 and the
    ceiling MULTIPLE_ENDPOINTS, grows with the count, and is the ceiling
    from the count on at which count times the factor reaches it. *)
Theorem score_monotone_in_route_matches (d1 d2 : Directory) :
  MoreRoutes.directories d1 d2 ->
  score (detectFastApi d1) <= score (detectFastApi d2)
  /\ score (detectFlask d1) <= score (detectFlask d2)
  /\ score (detectDjango d1) <= score (detectDjango d2)
  /\ score (scoreJava d1) <= score (scoreJava d2)
  /\ score (scoreDotNet d1) <= score (scoreDotNet d2)
  /\ (forall factor count, 0 <= factor ->
        0 <= endpointBonus factor count <= MULTIPLE_ENDPOINTS)
  /\ (forall factor c1 c2, 0 <= factor -> c1 <= c2 ->
        endpointBonus factor c1 <= endpointBonus factor c2)
  /\ (forall factor count, 0 < count -> MULTIPLE_ENDPOINTS <= count * factor ->
        endpointBonus factor count = MULTIPLE_ENDPOINTS).
Proof.
  intros [Hex Hpom Hgradle Hcsproj Hpy Hdj Hjava Hcs].
  repeat split.
  - unfold detectFastApi. apply addBonus_mono; [lia| |];
      eapply (fold_scan_mono scanFastApi); eauto using scanFastApi_step.
    all: reflexivity.
  - unfold detectFlask. apply addBonus_mono; [lia| |];
      eapply (fold_scan_mono scanFlask); eauto using scanFlask_step.
    all: reflexivity.
  - unfold detectDjango. rewrite Hex. apply addBonus_mono; [lia| |];
      eapply (fold_scan_mono scanDjango); eauto using scanDjango_step.
    all: reflexivity.
  - unfold scoreJava. rewrite !Hex, Hpom, Hgradle.
    apply addBonus_mono; [lia| |];
      eapply (fold_scan_mono scanJava); eauto using scanJava_step.
    all: reflexivity.
  - unfold scoreDotNet. rewrite Hcsproj.
    apply addBonus_mono; [lia| |];
      eapply (fold_scan_mono scanCs); eauto using scanCs_step.
    all: reflexivity.
  - by apply endpointBonus_range.
  - by apply endpointBonus_range.
  - apply endpointBonus_mono.
  - apply endpointBonus_saturates.
Qed.

Lemma score_monotone_in_route_matches_witness :
  score (detectFastApi Samples.threeRoutes)
  <= score (detectFastApi Samples.fiveRoutes).
Proof.
  assert (MoreRoutes.directories Samples.threeRoutes Samples.fiveRoutes) as H.
  { split; try reflexivity; try constructor.
    all: repeat constructor. all: by vm_compute. }
  exact (proj1 (score_monotone_in_route_matches _ _ H)).
Defined.

(** Three routes score 60 + 15, five score 60 + 25, and from sixteen
    routes on the bonus stays at its ceiling. *)
Lemma detectFastApi_scores :
  score (detectFastApi Samples.threeRoutes) = 75
  /\ score (detectFastApi Samples.fiveRoutes) = 85
  /\ endpointBonus 5 16 = 80
  /\ endpointBonus 5 100 = 80.
Proof. by vm_compute. Qed.

End ScoreMonotone.

(** ** The OpenAPI extraction is all or nothing *)

Section ParseSpec.

Import BaseExtractor OpenApiExtractor.

Variable dereference bundle : string -> Outcome OpenApiDocument.

Lemma extract_try_returns (source : string) (config : ApigenConfig) :
  exists r, extract_try dereference bundle source config = Returned r
            /\ ((success r = true /\ is_Some (project r) /\ errors r = None)
                \/ (success r = false /\ project r = None
                    /\ is_Some (errors r))).
Proof.
  unfold extract_try.
  destruct (fst (parseSpec dereference bundle source)) as [api|].
  - eexists. split; [reflexivity|]. left. cbn [success project errors createSuccessResult].
    by eauto.
  - eexists. split; [reflexivity|]. right. cbn. by eauto.
Qed.

(** C6.  Dereferencing is attempted first and alone when it succeeds;
    when it throws, bundling is attempted and the document it returns is
    extracted as a dereferenced one would be; when both throw, the
    extraction fails with [success = false], no project and an error
    message.  Every result is either a success with a project or a
    failure without one. *)
Theorem extract_dereference_then_bundle (source : string)
    (config : ApigenConfig) :
  let r := extract dereference bundle source config in
  (forall api, dereference source = Returned api ->
     parseSpec dereference bundle source = (Some api, [Dereference]))
  /\ (forall e api, dereference source = Thrown e ->
        bundle source = Returned api ->
        parseSpec dereference bundle source = (Some api, [Dereference; Bundle])
        /\ r = extract (fun _ => Returned api) bundle source config)
  /\ (forall e1 e2, dereference source = Thrown e1 ->
        bundle source = Thrown e2 ->
        parseSpec dereference bundle source = (None, [Dereference; Bundle])
        /\ success r = false
        /\ project r = None
        /\ errors r = Some ["OpenAPI spec dosyası parse edilemedi"]
        /\ endpointsFound r = 0)
  /\ ((success r = true /\ is_Some (project r) /\ errors r = None)
      \/ (success r = false /\ project r = None /\ is_Some (errors r))).
Proof.
  intros r. split; [|split; [|split]].
  - intros api Hd. unfold parseSpec. by rewrite Hd.
  - intros e api Hd Hb. subst r.
    unfold extract, extract_try, parseSpec. by rewrite Hd, Hb.
  - intros e1 e2 Hd Hb. subst r.
    unfold extract, extract_try, parseSpec. by rewrite Hd, Hb.
  - subst r. unfold extract.
    destruct (extract_try_returns source config) as (r' & -> & Hr'). exact Hr'.
Qed.

End ParseSpec.

Lemma extract_dereference_then_bundle_witness :
  let r := OpenApiExtractor.extract Samples.unreadable Samples.unreadable
             "missing.yaml" Samples.sampleConfig in
  success r = false /\ project r = None
  /\ errors r = Some ["OpenAPI spec dosyası parse edilemedi"].
Proof.
  pose proof (extract_dereference_then_bundle Samples.unreadable
                Samples.unreadable "missing.yaml" Samples.sampleConfig)
    as (_ & _ & Hfail & _).
  destruct (Hfail _ _ eq_refl eq_refl) as (_ & Hs & Hp & He & _).
  exact (conj Hs (conj Hp He)).
Defined.

(** ** Maps in insertion order *)

Section InsertionOrderedMap.

Import Js.

Context {V : Type}.

Implicit Types (m : list (string * V)) (k : string) (v : V).

Lemma map_get_set m k v k' :
  map_get (map_set m k v) k' = if String.eqb k k' then Some v else map_get m k'.
Proof.
  induction m as [|[k0 v0] m IH]; simpl.
  - by destruct (String.eqb k k').
  - destruct (String.eqb_spec k0 k) as [->|Hne]; simpl.
    + by destruct (String.eqb k k').
    + rewrite IH. destruct (String.eqb_spec k0 k') as [->|]; [|reflexivity].
      destruct (String.eqb_spec k k'); congruence.
Qed.

Lemma map_get_In m k v : map_get m k = Some v -> In (k, v) m.
Proof.
  induction m as [|[k0 v0] m IH]; simpl; [discriminate|].
  destruct (String.eqb_spec k0 k) as [->|_]; [intros [= ->]; by left | auto].
Qed.

Lemma map_get_key m k v : map_get m k = Some v -> In k (map fst m).
Proof.
  intros H. apply map_get_In in H.
  change k with (fst (k, v)). by apply in_map.
Qed.

Lemma In_map_get m k v :
  NoDup (map fst m) -> In (k, v) m -> map_get m k = Some v.
Proof.
  induction m as [|[k0 v0] m IH]; simpl; [tauto|].
  intros Hnd [[= -> ->]|Hin].
  - by rewrite String.eqb_refl.
  - apply NoDup_cons in Hnd as [Hk0 Hnd].
    destruct (String.eqb_spec k0 k) as [->|_]; [|auto].
    exfalso. apply Hk0. apply list_elem_of_In.
    change k with (fst (k, v)). by apply in_map.
Qed.

Lemma key_map_get m k : In k (map fst m) -> is_Some (map_get m k).
Proof.
  induction m as [|[k0 v0] m IH]; simpl; [tauto|].
  destruct (String.eqb_spec k0 k); [eauto|]. intros [?|?]; [congruence | auto].
Qed.

Lemma map_set_keys m k v :
  map fst (map_set m k v)
  = if map_has m k then map fst m else (map fst m ++ [k])%list.
Proof.
  unfold map_has. induction m as [|[k0 v0] m IH]; simpl; [reflexivity|].
  destruct (String.eqb_spec k0 k) as [->|Hne]; simpl; [reflexivity|].
  rewrite IH. by destruct (map_get m k).
Qed.

Lemma map_set_NoDup m k v :
  NoDup (map fst m) -> NoDup (map fst (map_set m k v)).
Proof.
  intros Hnd. rewrite map_set_keys. unfold map_has.
  destruct (map_get m k) eqn:Hget; [assumption|].
  apply NoDup_app. split; [assumption|]. split; [|apply NoDup_singleton].
  intros x Hx Hk. apply list_elem_of_In in Hk as [->|[]].
  apply list_elem_of_In, key_map_get in Hx as [? Hx]. congruence.
Qed.

End InsertionOrderedMap.

(** ** Grouping by tag *)

Section GroupByTag.

Import Js OpenApiExtractor.

Implicit Types (m : list (string * TagData)) (e : ApiEndpoint).

Lemma push_endpoint_keys m k e :
  map fst (push_endpoint m k e) = map fst m.
Proof.
  induction m as [|[k0 d0] m IH]; simpl; [reflexivity|].
  destruct (String.eqb k0 k); simpl; congruence.
Qed.

Lemma map_get_push m k e k' :
  map_get (push_endpoint m k e) k'
  = if String.eqb k k' then pushed e <$> map_get m k' else map_get m k'.
Proof.
  induction m as [|[k0 d0] m IH]; simpl.
  - by destruct (String.eqb k k').
  - destruct (String.eqb_spec k0 k) as [->|Hne]; simpl.
    + destruct (String.eqb_spec k k') as [->|]; [reflexivity|reflexivity].
    + rewrite IH. destruct (String.eqb_spec k0 k') as [->|]; [|reflexivity].
      destruct (String.eqb_spec k k'); congruence.
Qed.

Lemma initialTagMap_distributed (declared : option (list OpenApiTag)) :
  distributed (initialTagMap declared) [].
Proof.
  unfold initialTagMap.
  set (start := @nil (string * TagData)).
  assert (NoDup (map fst start)
          /\ forall k d, map_get start k = Some d -> data_endpoints d = [])
    as Hstart by (split; [constructor | discriminate]).
  generalize dependent start. generalize (default [] declared).
  intros l. induction l as [|tag l IH]; intros start [Hnd Hempty]; simpl.
  - split.
    + by apply map_set_NoDup.
    + intros k d. rewrite map_get_set.
      destruct (String.eqb "default" k); [by intros [= <-] | apply Hempty].
    + intros e [].
  - apply IH. split; [by apply map_set_NoDup|].
    intros k d. rewrite map_get_set.
    destruct (String.eqb (tag_name tag) k); [by intros [= <-] | apply Hempty].
Qed.

Lemma tagged_app k (l1 l2 : list ApiEndpoint) :
  tagged k (l1 ++ l2)%list = (tagged k l1 ++ tagged k l2)%list.
Proof. apply List.filter_app. Qed.

Lemma tagged_none k (l : list ApiEndpoint) :
  (forall e, In e l -> tagNameOf e <> k) -> tagged k l = [].
Proof.
  induction l as [|e l IH]; intros Hl; simpl; [reflexivity|].
  destruct (String.eqb_spec (tagNameOf e) k) as [Heq|_].
  - exfalso. apply (Hl e); [by left | assumption].
  - apply IH. intros e' He'. apply Hl. by right.
Qed.

Lemma placeEndpoint_distributed m seen e :
  distributed m seen -> distributed (placeEndpoint m e) (seen ++ [e]).
Proof.
  intros [Hnd Hholds Hkeys]. unfold placeEndpoint.
  set (k := tagNameOf e).
  set (m1 := if negb (map_has m k) then _ else m).
  assert (NoDup (map fst m1)) as Hnd1.
  { subst m1. destruct (negb _); [by apply map_set_NoDup | assumption]. }
  assert (forall k' d, map_get m1 k' = Some d -> data_endpoints d = tagged k' seen)
    as Hholds1.
  { subst m1. unfold map_has. destruct (map_get m k) eqn:Hget; simpl; [assumption|].
    intros k' d. rewrite map_get_set.
    destruct (String.eqb_spec k k') as [<-|_]; [|apply Hholds].
    intros [= <-]. simpl. symmetry. apply tagged_none.
    intros e' He' Heq. destruct (Hkeys e' He') as [d' Hd']. congruence. }
  assert (is_Some (map_get m1 k)) as Hk1.
  { subst m1. unfold map_has. destruct (map_get m k) eqn:Hget; simpl; [by rewrite Hget|].
    rewrite map_get_set, String.eqb_refl. eauto. }
  assert (forall e', In e' seen -> is_Some (map_get m1 (tagNameOf e'))) as Hkeys1.
  { subst m1. unfold map_has. destruct (map_get m k) eqn:Hget; simpl; [assumption|].
    intros e' He'. rewrite map_get_set.
    destruct (String.eqb k (tagNameOf e')); [eauto | by apply Hkeys]. }
  clearbody m1. split.
  - by rewrite push_endpoint_keys.
  - intros k' d. rewrite map_get_push, tagged_app. simpl.
    fold k. rewrite (String.eqb_sym k' k) || idtac.
    destruct (String.eqb_spec k k') as [<-|Hne].
    + destruct (map_get m1 k) as [d1|] eqn:Hd1; [|discriminate].
      intros [= <-]. simpl. by rewrite (Hholds1 _ _ Hd1).
    + intros Hd. rewrite (Hholds1 _ _ Hd).
      destruct (String.eqb_spec k k'); [congruence|]. by rewrite app_nil_r.
  - intros e' He'. rewrite map_get_push.
    apply in_app_or in He' as [He'|[<-|[]]].
    + destruct (String.eqb k (tagNameOf e')); [|by apply Hkeys1].
      destruct (Hkeys1 e' He') as [d ->]. by eauto.
    + fold k. rewrite String.eqb_refl. destruct Hk1 as [d ->]. by eauto.
Qed.

Lemma distribute_distributed (eps seen : list ApiEndpoint) m :
  distributed m seen ->
  distributed (fold_left placeEndpoint eps m) (seen ++ eps).
Proof.
  revert m seen. induction eps as [|e eps IH]; intros m seen Hm; simpl.
  - by rewrite app_nil_r.
  - replace (seen ++ e :: eps)%list with ((seen ++ [e]) ++ eps)%list
      by (by rewrite <- app_assoc).
    by apply IH, placeEndpoint_distributed.
Qed.

Lemma In_materialize m (g : ApiGroup) :
  In g (materialize m) <->
  exists k d, In (k, d) m /\ data_endpoints d <> []
              /\ g = {| group_name := k;
                        group_description := data_description d;
                        endpoints := data_endpoints d |}.
Proof.
  unfold materialize. rewrite in_flat_map. split.
  - intros ([k d] & Hin & Hg).
    destruct (data_endpoints d) as [|e l] eqn:Hd; simpl in Hg; [destruct Hg|].
    destruct Hg as [<-|[]]. exists k, d. by rewrite Hd.
  - intros (k & d & Hin & Hne & ->). exists (k, d). split; [assumption|].
    destruct (data_endpoints d); [congruence | by left].
Qed.

Lemma materialize_names_sublist m :
  sublist (map group_name (materialize m)) (map fst m).
Proof.
  induction m as [|[k d] m IH]; simpl; [constructor|].
  destruct (Nat.ltb 0 _); simpl; by constructor.
Qed.

(** C7, as the claim states it, fails: an endpoint whose first declared
    tag is the empty string is not placed in a group of that name but in
    the group [default]. *)
Lemma groupEndpointsByTag_empty_first_tag :
  let e := createEndpoint "/pets" GET Samples.emptyTagOperation [] in
  tags e = Some [""; "pets"]
  /\ map group_name (groupEndpointsByTag [e] None) = ["default"].
Proof. by vm_compute. Qed.

(** C7 (amended).  Every endpoint is placed in the group named by its
    first declared tag when that tag is not the empty string, and in the
    group [default] when it has no tag or its first tag is the empty
    string.  The group names are distinct, each group holds exactly the
    endpoints that go under its name, and no group is empty: a declared
    tag under which no endpoint goes does not appear. *)
Theorem groupEndpointsByTag_spec (eps : list ApiEndpoint)
    (declared : option (list OpenApiTag)) :
  let gs := groupEndpointsByTag eps declared in
  (forall e, In e eps ->
     exists g, In g gs /\ group_name g = tagNameOf e /\ In e (endpoints g))
  /\ (forall g, In g gs ->
        endpoints g <> [] /\ endpoints g = tagged (group_name g) eps)
  /\ NoDup (map group_name gs)
  /\ (forall name, (forall e, In e eps -> tagNameOf e <> name) ->
        ~ In name (map group_name gs))
  /\ (forall e t ts, tags e = Some (t :: ts) -> t <> "" -> tagNameOf e = t)
  /\ (forall e, tags e = None \/ tags e = Some []
                \/ (exists ts, tags e = Some ("" :: ts)) ->
        tagNameOf e = "default").
Proof.
  intros gs.
  pose proof (distribute_distributed eps [] _ (initialTagMap_distributed declared))
    as [Hnd Hholds Hkeys].
  simpl in Hholds, Hkeys.
  fold (groupEndpointsByTag eps declared) in *.
  assert (forall g, In g gs ->
            endpoints g <> [] /\ endpoints g = tagged (group_name g) eps) as Hgroups.
  { intros g Hg. apply In_materialize in Hg as (k & d & Hin & Hne & ->). simpl.
    split; [assumption|]. apply Hholds. by apply In_map_get. }
  split; [|split; [exact Hgroups|split; [|split; [|split]]]].
  - intros e He. destruct (Hkeys e He) as [d Hd].
    assert (In e (data_endpoints d)) as Hin.
    { rewrite (Hholds _ _ Hd). apply List.filter_In. split; [assumption|].
      apply String.eqb_refl. }
    exists {| group_name := tagNameOf e;
              group_description := data_description d;
              endpoints := data_endpoints d |}.
    split; [|by split].
    apply In_materialize. exists (tagNameOf e), d.
    split; [by apply map_get_In|]. split; [|reflexivity].
    intros Hnil. rewrite Hnil in Hin. destruct Hin.
  - exact (sublist_NoDup _ _ Hnd (materialize_names_sublist _)).
  - intros name Hnone Hin. apply in_map_iff in Hin as (g & <- & Hg).
    destruct (Hgroups g Hg) as [Hne Heq].
    apply Hne. rewrite Heq. by apply tagged_none.
  - intros e t ts Ht Hne. unfold tagNameOf. rewrite Ht.
    destruct (String.eqb_spec t ""); congruence.
  - intros e [Ht|[Ht|[ts Ht]]]; unfold tagNameOf; by rewrite Ht.
Qed.

Lemma groupEndpointsByTag_spec_witness :
  let e := createEndpoint "/pets" GET Samples.emptyTagOperation [] in
  tagNameOf e = "default".
Proof.
  intros e.
  pose proof (groupEndpointsByTag_spec [e] None) as (_ & _ & _ & _ & _ & Hdef).
  apply Hdef. right. right. by exists ["pets"].
Defined.

End GroupByTag.

(** ** The routes of the registered ViewSets *)

Section ViewSetRoutes.

Import Js DjangoRestExtractor.

Lemma extractRouterRegistrations_NoDup (file : ScannedFile)
    (regs : list (string * string)) :
  NoDup (map fst regs) ->
  NoDup (map fst (extractRouterRegistrations file regs)).
Proof.
  unfold extractRouterRegistrations.
  generalize (routerRegisters file). intros l. revert regs.
  induction l as [|[urlPrefix viewSetName] l IH]; intros regs Hnd; simpl;
    [assumption|].
  by apply IH, map_set_NoDup.
Qed.

(** The registrations are keyed by the ViewSet name: after the first
    pass no name is registered twice. *)
Lemma firstPass_registrations_NoDup (files : list ScannedFile) :
  NoDup (map fst (routerRegistrations (firstPass files))).
Proof.
  unfold firstPass.
  assert (NoDup (map fst (routerRegistrations cleared))) as Hc by constructor.
  generalize dependent cleared.
  induction files as [|file files IH]; intros st Hst; simpl; [assumption|].
  apply IH. simpl. by apply extractRouterRegistrations_NoDup.
Qed.

(** What the first pass leaves in its two maps. *)
Lemma firstPass_fold (files : list ScannedFile) (st : State) :
  fold_left
    (fun st file =>
       {| viewSets := extractViewSetDefinitions file (viewSets st);
          routerRegistrations :=
            extractRouterRegistrations file (routerRegistrations st) |})
    files st
  = {| viewSets :=
         fold_left (fun vs file => extractViewSetDefinitions file vs)
           files (viewSets st);
       routerRegistrations :=
         fold_left (fun regs file => extractRouterRegistrations file regs)
           files (routerRegistrations st) |}.
Proof.
  revert st. induction files as [|file files IH]; intros st; [by destruct st|].
  cbn [fold_left]. by rewrite IH.
Qed.

Lemma extractRouterRegistrations_keys (file : ScannedFile)
    (regs : list (string * string)) (name : string) :
  In name (map fst (extractRouterRegistrations file regs))
  <-> In name (map fst regs) \/ In name (map snd (routerRegisters file)).
Proof.
  unfold extractRouterRegistrations.
  generalize (routerRegisters file). intros l. revert regs.
  induction l as [|[urlPrefix viewSetName] l IH]; intros regs;
    cbn [fold_left map In snd]; [tauto|].
  rewrite IH, map_set_keys. unfold map_has.
  destruct (map_get regs viewSetName) eqn:Hget.
  - apply map_get_key in Hget. split; [tauto|].
    intros [?|[<-|?]]; tauto.
  - rewrite in_app_iff. cbn [In]. tauto.
Qed.

(** A ViewSet name is a key of the registrations exactly when some file
    registers it. *)
Lemma firstPass_registered (files : list ScannedFile) (name : string) :
  In name (map fst (routerRegistrations (firstPass files)))
  <-> exists file, In file files /\ In name (map snd (routerRegisters file)).
Proof.
  unfold firstPass. rewrite firstPass_fold. cbn [routerRegistrations].
  assert (forall regs,
            In name (map fst
                       (fold_left
                          (fun regs file => extractRouterRegistrations file regs)
                          files regs))
            <-> In name (map fst regs)
                \/ exists file, In file files
                                /\ In name (map snd (routerRegisters file)))
    as Hgen.
  { induction files as [|file files IH]; intros regs; cbn [fold_left].
    - split; [tauto|]. intros [?|(? & [] & _)]. assumption.
    - rewrite IH, extractRouterRegistrations_keys. split.
      + intros [[?|?]|(f & Hf & Hn)]; [tauto| |].
        * right. exists file. split; [by left | assumption].
        * right. exists f. split; [by right | assumption].
      + intros [?|(f & [<-|Hf] & Hn)]; [tauto|tauto|].
        right. by exists f. }
  rewrite Hgen. cbn [cleared routerRegistrations map In].
  split; [intros [[]|?]; assumption | tauto].
Qed.

Lemma extractViewSetDefinitions_found (file : ScannedFile)
    (vs : gmap string ViewSetInfo) (name : string) :
  is_Some (extractViewSetDefinitions file vs !! name)
  <-> is_Some (vs !! name) \/ In name (map fst (viewSetClasses file)).
Proof.
  unfold extractViewSetDefinitions.
  generalize (viewSetClasses file). intros l. revert vs.
  induction l as [|[className baseClass] l IH]; intros vs;
    cbn [fold_left map In fst]; [tauto|].
  rewrite IH. destruct (decide (className = name)) as [->|Hne].
  - rewrite lookup_insert_eq. split; [tauto|]. intros _. left. by eauto.
  - rewrite lookup_insert_ne by assumption. tauto.
Qed.

(** A ViewSet is known after the first pass exactly when some file
    declares a class of its name on one of the ViewSet base classes. *)
Lemma firstPass_found (files : list ScannedFile) (name : string) :
  is_Some (viewSets (firstPass files) !! name)
  <-> exists file, In file files /\ In name (map fst (viewSetClasses file)).
Proof.
  unfold firstPass. rewrite firstPass_fold. cbn [viewSets].
  assert (forall vs : gmap string ViewSetInfo,
            is_Some (fold_left
                       (fun vs file => extractViewSetDefinitions file vs)
                       files vs !! name)
            <-> is_Some (vs !! name)
                \/ exists file, In file files
                                /\ In name (map fst (viewSetClasses file)))
    as Hgen.
  { induction files as [|file files IH]; intros vs; cbn [fold_left].
    - split; [tauto|]. intros [?|(? & [] & _)]. assumption.
    - rewrite IH, extractViewSetDefinitions_found. split.
      + intros [[?|?]|(f & Hf & Hn)]; [tauto| |].
        * right. exists file. split; [by left | assumption].
        * right. exists f. split; [by right | assumption].
      + intros [?|(f & [<-|Hf] & Hn)]; [tauto|tauto|].
        right. by exists f. }
  rewrite Hgen. cbn [cleared viewSets]. rewrite lookup_empty.
  split; [intros [[? ?]|?]; [discriminate | assumption] | tauto].
Qed.

(** The routes of one registration all belong to its ViewSet. *)
Lemma routesOf_registrationRoutes (vs : gmap string ViewSetInfo)
    (k p name : string) :
  routesOf name (registrationRoutes vs k p)
  = if String.eqb k name then registrationRoutes vs k p else [].
Proof.
  unfold routesOf, registrationRoutes.
  destruct (vs !! k); [|by destruct (String.eqb k name)].
  generalize (default [] (ownProperty VIEWSET_ACTIONS "ModelViewSet")).
  intros actions.
  induction actions as [|a l IH]; cbn [map List.filter viewName];
    [by destruct (String.eqb k name)|].
  rewrite IH. by destruct (String.eqb k name).
Qed.

Lemma registrationRoutes_crud (vs : gmap string ViewSetInfo)
    (name urlPrefix : string) :
  registrationRoutes vs name urlPrefix
  = match vs !! name with
    | Some info => crudRoutes name urlPrefix (vs_filePath info)
    | None => []
    end.
Proof.
  unfold registrationRoutes. destruct (vs !! name); [|reflexivity].
  unfold crudRoutes.
  change (default [] (ownProperty VIEWSET_ACTIONS "ModelViewSet"))
    with [ {| action_method := GET; pathSuffix := "" |};
           {| action_method := POST; pathSuffix := "" |};
           {| action_method := GET; pathSuffix := "/{id}" |};
           {| action_method := PUT; pathSuffix := "/{id}" |};
           {| action_method := PATCH; pathSuffix := "/{id}" |};
           {| action_method := DELETE; pathSuffix := "/{id}" |} ].
  cbn [map action_method pathSuffix].
  assert (urlPrefix ++ "" = urlPrefix) as ->; [|reflexivity].
  clear. induction urlPrefix as [|c u IH]; [reflexivity|].
  change (String c u ++ "") with (String c (u ++ "")). by rewrite IH.
Qed.

Lemma routesOf_unregistered (vs : gmap string ViewSetInfo)
    (regs : list (string * string)) (name : string) :
  ~ In name (map fst regs) ->
  routesOf name
    (generateViewSetRoutes {| viewSets := vs; routerRegistrations := regs |})
  = [].
Proof.
  unfold generateViewSetRoutes. cbn [viewSets routerRegistrations].
  induction regs as [|[k p] regs IH]; intros Hk; [reflexivity|].
  cbn [flat_map]. unfold routesOf in *. rewrite List.filter_app.
  fold (routesOf name (registrationRoutes vs k p)).
  rewrite routesOf_registrationRoutes.
  destruct (String.eqb_spec k name) as [->|_]; [exfalso; apply Hk; by left|].
  apply IH. intros Hin. apply Hk. by right.
Qed.

(** The routes generated for one registration. *)
Lemma routesOf_registration (vs : gmap string ViewSetInfo)
    (regs : list (string * string)) (name urlPrefix : string) :
  NoDup (map fst regs) ->
  In (name, urlPrefix) regs ->
  routesOf name
    (generateViewSetRoutes {| viewSets := vs; routerRegistrations := regs |})
  = match vs !! name with
    | Some info => crudRoutes name urlPrefix (vs_filePath info)
    | None => []
    end.
Proof.
  induction regs as [|[k p] regs IH]; intros Hnd Hin; [destruct Hin|].
  apply NoDup_cons in Hnd as [Hk Hnd]. rewrite list_elem_of_In in Hk.
  unfold generateViewSetRoutes in *. cbn [viewSets routerRegistrations] in *.
  cbn [flat_map]. unfold routesOf in *. rewrite List.filter_app.
  fold (routesOf name (registrationRoutes vs k p)).
  rewrite routesOf_registrationRoutes.
  destruct Hin as [Heq|Hin].
  - injection Heq as Hkn Hpu. subst k p. rewrite String.eqb_refl.
    pose proof (routesOf_unregistered vs regs name Hk) as Hrest.
    unfold routesOf, generateViewSetRoutes in Hrest.
    cbn [viewSets routerRegistrations] in Hrest. rewrite Hrest, app_nil_r.
    apply registrationRoutes_crud.
  - destruct (String.eqb_spec k name) as [->|_].
    + exfalso. apply Hk. exact (in_map fst _ _ Hin).
    + by apply IH.
Qed.

(** C9, as the claim states it, fails: a registration whose ViewSet class
    the first pass did not find yields no route at all. *)
Lemma generateViewSetRoutes_unknown_viewset :
  routerRegistrations (firstPass [Samples.urlsFile])
    = [("UserViewSet", "users")]
  /\ generateViewSetRoutes (firstPass [Samples.urlsFile]) = [].
Proof. by vm_compute. Qed.

(** C9 (amended).  After the first pass, a ViewSet that is registered
    with the router and whose class was found yields exactly six routes,
    those of a ModelViewSet under the URL prefix it is registered with:
    GET and POST on the collection path, GET, PUT, PATCH and DELETE on
    the path of one element.  A registered ViewSet whose class was not
    found yields no route. *)
Theorem generateViewSetRoutes_registered (files : list ScannedFile)
    (name urlPrefix : string) :
  let st := firstPass files in
  In (name, urlPrefix) (routerRegistrations st) ->
  routesOf name (generateViewSetRoutes st)
  = match viewSets st !! name with
    | Some info => crudRoutes name urlPrefix (vs_filePath info)
    | None => []
    end.
Proof.
  intros st Hin.
  pose proof (firstPass_registrations_NoDup files) as Hnd. fold st in Hnd.
  destruct st as [vs regs]. by apply routesOf_registration.
Qed.

Lemma generateViewSetRoutes_registered_witness :
  map (fun r => (route_method r, route_path r))
    (routesOf "UserViewSet"
       (generateViewSetRoutes (firstPass [Samples.viewsFile; Samples.urlsFile])))
  = [ (GET, "/api/users"); (POST, "/api/users");
      (GET, "/api/users/{id}"); (PUT, "/api/users/{id}");
      (PATCH, "/api/users/{id}"); (DELETE, "/api/users/{id}") ].
Proof.
  rewrite (generateViewSetRoutes_registered
             [Samples.viewsFile; Samples.urlsFile] "UserViewSet" "users").
  - by vm_compute.
  - vm_compute. by left.
Defined.

End ViewSetRoutes.

(** ** Placeholders of a path *)

Section PathParams.

Import Js BaseExtractor.

(** The equation of [extractPathParams] on a non-empty path. *)
Lemma extractPathParams_cons (c : ascii) (rest : string) :
  extractPathParams (String c rest) =
    if Ascii.eqb c "{"
    then match braceBody rest with
         | Some (String b0 b, after) => String b0 b :: extractPathParams after
         | _ => extractPathParams rest
         end
    else extractPathParams rest.
Proof.
  simp extractPathParams.
  destruct (Ascii.eqb c "{"); cbn; [|reflexivity].
  destruct (braceBody rest) as [[[|b0 b] after]|]; reflexivity.
Qed.

Lemma braceBody_shorter (s b a : string) :
  braceBody s = Some (b, a) -> String.length a < String.length s.
Proof.
  revert b a. induction s as [|c s IH]; intros b a; simpl; [discriminate|].
  destruct (Ascii.eqb c "}").
  - intros [= _ <-]. lia.
  - destruct (braceBody s) as [[b' a']|]; [|discriminate].
    intros [= _ <-]. specialize (IH _ _ eq_refl). lia.
Qed.









End PathParams.

(** ** Path-parameter completeness *)

Section PathParameterCompleteness.

Import Js BaseExtractor.






End PathParameterCompleteness.

Section ExtractorsPathParameters.

Import Js BaseExtractor.

(** *** FastAPI *)

Section FastApi.

Import FastApiExtractor.

Variable models : gmap string ExtractedModel.
Variable routers : gmap string RouterInfo.
Variable parseFunctionParams : string -> list FuncParam.





End FastApi.

(** *** Django REST Framework *)



(** A placeholder written twice yields two path parameters of its name. *)
Lemma fastapi_repeated_placeholder :
  map param_name
    (pathParametersNamed "id" (Samples.fastapiEndpoint "/a/{id}/b/{id}"))
  = ["id"; "id"].
Proof. by vm_compute. Qed.

(** A placeholder that holds two slashes in a row is renamed in the
    normalized path and keeps its name in the parameter. *)
Lemma fastapi_slashes_in_placeholder :
  extractPathParams (path (Samples.fastapiEndpoint "/files/{dir//name}"))
    = ["dir/name"]
  /\ pathParameterNames (Samples.fastapiEndpoint "/files/{dir//name}")
     = ["dir//name"].
Proof. by vm_compute. Qed.

End ExtractorsPathParameters.

(** ** Normal forms of [normalizePath] *)

Section NormalForms.

Import Js BaseExtractor.

Lemma replaceSlashRuns_from_length (inRun : bool) (s : string) :
  String.length (replaceSlashRuns_from inRun s) <= String.length s.
Proof.
  revert inRun. induction s as [|c s IH]; intros inRun; [reflexivity|].
  cbn [replaceSlashRuns_from].
  pose proof (IH true). pose proof (IH false).
  destruct (Ascii.eqb c "/"); [destruct inRun|]; simpl; lia.
Qed.

Lemma slice_0_m1_length (s : string) :
  String.length (slice_0_m1 s) = String.length s - 1.
Proof.
  induction s as [|c s IH]; [reflexivity|].
  destruct s as [|d s]; [reflexivity|].
  rewrite slice_0_m1_cons2. simpl in *. lia.
Qed.

(** A path in normal form is left as it is. *)
Lemma normalizePath_normal (p : string) :
  startsWith p "/" = true ->
  includes p "//" = false ->
  (endsWith p "/" = true -> p = "/") ->
  normalizePath p = p.
Proof.
  intros Hstart Hno Hend. unfold normalizePath. rewrite Hstart. cbn [negb].
  destruct (Nat.ltb 1 (String.length p) && endsWith p "/") eqn:Hcond.
  - apply andb_prop in Hcond as [Hlen Hends].
    rewrite (Hend Hends) in Hlen. discriminate.
  - by apply (replaceSlashRuns_single_slashes false).
Qed.

(** X1.  The fixed points of [normalizePath] are the paths in normal
    form: those that start with a slash, hold no two slashes in a row and
    end with a slash only when they are the root path. *)
Theorem normalizePath_fixed_point_iff (p : string) :
  normalizePath p = p
  <-> startsWith p "/" = true
      /\ includes p "//" = false
      /\ (endsWith p "/" = true -> p = "/").
Proof.
  split.
  - intros Hfix.
    assert (startsWith p "/" = true) as Hstart
      by (rewrite <- Hfix; apply normalizePath_starts_with_slash).
    split; [assumption|].
    split; [rewrite <- Hfix; apply normalizePath_no_double_slash|].
    intros Hends.
    apply prefix_slash in Hstart as [r ->].
    destruct r as [|d r]; [reflexivity|]. exfalso.
    revert Hfix. unfold normalizePath, startsWith.
    change (isPrefix "/" (String "/" (String d r))) with true. cbn [negb].
    rewrite Hends.
    change (Nat.ltb 1 (String.length (String "/" (String d r)))) with true.
    cbn [andb]. intros Hfix.
    pose proof (replaceSlashRuns_from_length false
                  (slice_0_m1 (String "/" (String d r)))) as Hle.
    unfold replaceSlashRuns in Hfix. rewrite Hfix in Hle.
    rewrite slice_0_m1_length in Hle. simpl in Hle. lia.
  - intros (Hstart & Hno & Hend). by apply normalizePath_normal.
Qed.

(** X2.  A second application of [normalizePath] always reaches the
    normal form, which a third one leaves as it is. *)
Theorem normalizePath_twice_normal (p : string) :
  let q := normalizePath (normalizePath p) in
  startsWith q "/" = true
  /\ includes q "//" = false
  /\ (endsWith q "/" = true -> q = "/")
  /\ normalizePath q = q.
Proof.
  intros q.
  destruct (normalizePath_single_slashes (normalizePath p)
              (normalizePath_no_double_slash p)) as (Hstart & Hno & Hend).
  repeat split; try assumption.
  by apply normalizePath_normal.
Qed.

End NormalForms.

(** ** What [extractPathParams] finds *)

Section Placeholders.

Import Js BaseExtractor.

Lemma append_assoc (s t u : string) : (s ++ t) ++ u = s ++ t ++ u.
Proof.
  induction s as [|c s IH]; [reflexivity|].
  change (String c (s ++ t) ++ u = String c (s ++ t ++ u)).
  change (String c ((s ++ t) ++ u) = String c (s ++ t ++ u)). by rewrite IH.
Qed.

Lemma isPrefix_app_same (x r : string) : isPrefix x (x ++ r) = true.
Proof.
  induction x as [|a x IH]; [reflexivity|].
  change (String a x ++ r) with (String a (x ++ r)). cbn [isPrefix].
  by rewrite Ascii.eqb_refl, IH.
Qed.

Lemma includes_prefix (s x : string) :
  isPrefix x s = true -> includes s x = true.
Proof. intros H. destruct s; cbn [includes]; by rewrite H. Qed.

Lemma includes_skip (c : ascii) (s x : string) :
  includes s x = true -> includes (String c s) x = true.
Proof. intros H. rewrite includes_cons, H. by destruct (isPrefix _ _). Qed.

Lemma includes_app_l (t s x : string) :
  includes s x = true -> includes (t ++ s) x = true.
Proof.
  intros H. induction t as [|c t IH]; [exact H|].
  change (String c t ++ s) with (String c (t ++ s)). by apply includes_skip.
Qed.

Lemma includes_char_cons (c d : ascii) (s : string) :
  includes (String c s) (String d "")
  = Ascii.eqb d c || includes s (String d "").
Proof.
  rewrite includes_cons. cbn [isPrefix].
  destruct (Ascii.eqb d c); [reflexivity|].
  by destruct s.
Qed.

(** What [braceBody] returns: the text up to the first closing brace, and
    the text after that brace. *)
Lemma braceBody_spec (s b a : string) :
  braceBody s = Some (b, a) -> s = b ++ "}" ++ a /\ includes b "}" = false.
Proof.
  revert b a. induction s as [|c s IH]; intros b a; cbn [braceBody];
    [discriminate|].
  destruct (Ascii.eqb_spec c "}") as [->|Hc].
  - intros [= <- <-]. by split.
  - destruct (braceBody s) as [[b' a']|]; [|discriminate].
    intros [= <- <-]. destruct (IH _ _ eq_refl) as [-> Hno].
    split; [reflexivity|].
    rewrite includes_char_cons, Hno.
    by destruct (Ascii.eqb_spec "}" c); [congruence|].
Qed.

Lemma braceBody_app (name rest : string) :
  includes name "}" = false ->
  braceBody (name ++ "}" ++ rest) = Some (name, rest).
Proof.
  induction name as [|c name IH]; [reflexivity|].
  rewrite includes_char_cons. intros [Hc Hno]%orb_false_elim.
  change (String c name ++ "}" ++ rest) with (String c (name ++ "}" ++ rest)).
  cbn [braceBody]. rewrite Ascii.eqb_sym, Hc. by rewrite (IH Hno).
Qed.

(** A path without opening brace has no placeholder. *)
Lemma extractPathParams_no_brace (p : string) :
  includes p "{" = false -> extractPathParams p = [].
Proof.
  induction p as [|c p IH]; [reflexivity|].
  rewrite includes_char_cons, extractPathParams_cons.
  intros [Hc Hno]%orb_false_elim.
  rewrite Ascii.eqb_sym, Hc. by apply IH.
Qed.

(** The text before an opening brace holds no placeholder of its own. *)
Lemma extractPathParams_app_no_brace (lit p : string) :
  includes lit "{" = false ->
  extractPathParams (lit ++ p) = extractPathParams p.
Proof.
  induction lit as [|c lit IH]; [reflexivity|].
  rewrite includes_char_cons. intros [Hc Hno]%orb_false_elim.
  change (String c lit ++ p) with (String c (lit ++ p)).
  rewrite extractPathParams_cons, Ascii.eqb_sym, Hc. by apply IH.
Qed.

(** X3.  Every name that [extractPathParams] returns is non-empty, holds
    no closing brace, and stands between braces in the path. *)
Theorem extractPathParams_sound (p name : string) :
  In name (extractPathParams p) ->
  name <> ""
  /\ includes name "}" = false
  /\ includes p ("{" ++ name ++ "}") = true.
Proof.
  remember (String.length p) as n eqn:Hn. revert p Hn.
  induction n as [n IH] using lt_wf_ind. intros p ->.
  destruct p as [|c rest]; [intros []|].
  rewrite extractPathParams_cons.
  assert (In name (extractPathParams rest) ->
          name <> "" /\ includes name "}" = false
          /\ includes (String c rest) ("{" ++ name ++ "}") = true) as Hrest.
  { intros Hin.
    destruct (IH (String.length rest) ltac:(simpl; lia) rest eq_refl Hin)
      as (Hne & Hno & Hinc).
    repeat split; try assumption. by apply includes_skip. }
  destruct (Ascii.eqb_spec c "{") as [->|Hopen]; [|exact Hrest].
  destruct (braceBody rest) as [[[|b0 b] after]|] eqn:Hb; try exact Hrest.
  destruct (braceBody_spec _ _ _ Hb) as [Hsplit Hno].
  intros [<-|Hin].
  - split; [discriminate|]. split; [assumption|].
    apply includes_prefix. rewrite Hsplit.
    change (String "{" (String b0 b ++ "}" ++ after))
      with ("{" ++ String b0 b ++ "}" ++ after).
    rewrite <- !append_assoc. apply isPrefix_app_same.
  - apply braceBody_shorter in Hb.
    destruct (IH (String.length after) ltac:(simpl; lia) after eq_refl Hin)
      as (Hne & Hno' & Hinc).
    repeat split; try assumption.
    apply includes_skip. rewrite Hsplit.
    rewrite <- append_assoc. by apply includes_app_l.
Qed.

Lemma extractPathParams_sound_witness :
  In "id" (extractPathParams "/users/{id}")
  /\ "id" <> ""
  /\ includes "id" "}" = false
  /\ includes "/users/{id}" ("{" ++ "id" ++ "}") = true.
Proof.
  assert (In "id" (extractPathParams "/users/{id}")) as Hin
    by (vm_compute; by left).
  split; [exact Hin|].
  exact (extractPathParams_sound "/users/{id}" "id" Hin).
Defined.

(** X4.  A placeholder is found wherever it stands: after a text without
    opening brace, a non-empty name without closing brace between braces
    is the first name returned, and the search goes on after it. *)
Theorem extractPathParams_placeholder (lit name rest : string) :
  includes lit "{" = false ->
  name <> "" ->
  includes name "}" = false ->
  extractPathParams (lit ++ "{" ++ name ++ "}" ++ rest)
  = name :: extractPathParams rest.
Proof.
  intros Hlit Hne Hno.
  rewrite extractPathParams_app_no_brace by assumption.
  change ("{" ++ name ++ "}" ++ rest) with (String "{" (name ++ "}" ++ rest)).
  rewrite extractPathParams_cons. change (Ascii.eqb "{" "{") with true.
  cbv iota. rewrite braceBody_app by assumption.
  by destruct name.
Qed.

Lemma extractPathParams_placeholder_witness :
  extractPathParams ("/users/" ++ "{" ++ "id" ++ "}" ++ "/posts")
  = "id" :: extractPathParams "/posts".
Proof.
  apply extractPathParams_placeholder; [by vm_compute | discriminate | by vm_compute].
Defined.

End Placeholders.

(** ** Grouping loops *)

Section MapOfArrays.

Import Js.

Context {A V : Type} (key : A -> string) (value : A -> V).

Implicit Types (m : list (string * list V)) (items : list A).

Lemma map_push_keys m k x : map fst (map_push m k x) = map fst m.
Proof.
  induction m as [|[k' l] m IH]; [reflexivity|]. cbn [map_push].
  destruct (String.eqb k' k); cbn [map fst]; [reflexivity | by rewrite IH].
Qed.

Lemma map_get_map_push m k x k' :
  map_get (map_push m k x) k'
  = if String.eqb k k' then (fun l => l ++ [x])%list <$> map_get m k'
    else map_get m k'.
Proof.
  induction m as [|[k0 l] m IH]; [by destruct (String.eqb k k')|].
  cbn [map_push].
  destruct (String.eqb_spec k0 k) as [->|Hk0]; cbn [map_get].
  - by destruct (String.eqb_spec k k').
  - destruct (String.eqb_spec k0 k') as [->|Hk0'].
    + by destruct (String.eqb_spec k k'); [congruence|].
    + exact IH.
Qed.

Lemma map_has_keys {W : Type} (m : list (string * W)) (k : string) :
  map_has m k = existsb (String.eqb k) (map fst m).
Proof.
  unfold map_has. induction m as [|[k' v] m IH]; [reflexivity|].
  cbn [map_get map fst existsb]. rewrite (String.eqb_sym k k').
  destruct (String.eqb k' k); [reflexivity | exact IH].
Qed.

Lemma map_file_keys m k x : map fst (map_file m k x) = addKey (map fst m) k.
Proof.
  unfold map_file, addKey. rewrite map_push_keys, <- map_has_keys.
  destruct (map_has m k) eqn:Hhas; cbn [negb]; [reflexivity|].
  by rewrite map_set_keys, Hhas.
Qed.

Lemma map_file_NoDup m k x :
  NoDup (map fst m) -> NoDup (map fst (map_file m k x)).
Proof.
  intros Hm. unfold map_file. rewrite map_push_keys.
  destruct (negb _); [by apply map_set_NoDup | assumption].
Qed.

Lemma map_get_map_file m k x k' :
  map_get (map_file m k x) k'
  = if String.eqb k k' then Some (default [] (map_get m k') ++ [x])%list
    else map_get m k'.
Proof.
  unfold map_file. rewrite map_get_map_push.
  destruct (String.eqb_spec k k') as [<-|Hk].
  - unfold map_has. destruct (map_get m k) as [l|] eqn:Hget; cbn [negb].
    + by rewrite Hget.
    + by rewrite map_get_set, String.eqb_refl.
  - destruct (negb _); [|reflexivity].
    rewrite map_get_set. by destruct (String.eqb_spec k k').
Qed.

(** The items filed so far under the key [k], in their order. *)
Lemma filed_app (k : string) (l1 l2 : list A) :
  List.filter (fun i => String.eqb (key i) k) (l1 ++ l2)
  = (List.filter (fun i => String.eqb (key i) k) l1
       ++ List.filter (fun i => String.eqb (key i) k) l2)%list.
Proof. apply List.filter_app. Qed.

(** After the loop a key holds the values of the items of that key, in
    their order, and a key of no item is absent. *)
Lemma map_file_loop_get items k :
  map_get (fold_left (fun m i => map_file m (key i) (value i)) items []) k
  = match List.filter (fun i => String.eqb (key i) k) items with
    | [] => None
    | l => Some (map value l)
    end.
Proof.
  induction items as [|x items IH] using rev_ind; [reflexivity|].
  rewrite fold_left_app. cbn [fold_left].
  rewrite map_get_map_file, IH, filed_app. cbn [List.filter].
  destruct (String.eqb (key x) k).
  - destruct (List.filter _ items) as [|y l]; [reflexivity|].
    cbn [default]. rewrite <- app_comm_cons. cbn [map]. by rewrite map_app.
  - by rewrite app_nil_r.
Qed.

Lemma map_file_loop_keys items :
  map fst (fold_left (fun m i => map_file m (key i) (value i)) items [])
  = distinctInOrder (map key items).
Proof.
  unfold distinctInOrder.
  induction items as [|x items IH] using rev_ind; [reflexivity|].
  rewrite map_app, !fold_left_app. cbn [fold_left map].
  by rewrite map_file_keys, IH.
Qed.

Lemma map_file_loop_NoDup items :
  NoDup (map fst (fold_left (fun m i => map_file m (key i) (value i)) items [])).
Proof.
  induction items as [|x items IH] using rev_ind; [constructor|].
  rewrite fold_left_app. by apply map_file_NoDup.
Qed.

(** The number of values held by a map of arrays. *)
Lemma map_push_total m k x :
  map_has m k = true ->
  length (concat (map snd (map_push m k x)))
  = S (length (concat (map snd m))).
Proof.
  unfold map_has. induction m as [|[k' l] m IH]; [discriminate|].
  cbn [map_get map_push].
  destruct (String.eqb k' k); cbn [map snd concat].
  - intros _. rewrite !length_app. simpl. lia.
  - intros Hhas. rewrite !length_app, (IH Hhas). lia.
Qed.

Lemma map_set_empty_total m k :
  map_has m k = false ->
  length (concat (map snd (map_set m k []))) = length (concat (map snd m)).
Proof.
  unfold map_has. induction m as [|[k' l] m IH]; [reflexivity|].
  cbn [map_get map_set].
  destruct (String.eqb k' k); [discriminate|]. cbn [map snd concat].
  intros Hhas. by rewrite !length_app, (IH Hhas).
Qed.

Lemma map_file_total m k x :
  length (concat (map snd (map_file m k x)))
  = S (length (concat (map snd m))).
Proof.
  unfold map_file. destruct (map_has m k) eqn:Hhas; cbn [negb].
  - by apply map_push_total.
  - rewrite map_push_total.
    + by rewrite map_set_empty_total.
    + unfold map_has. by rewrite map_get_set, String.eqb_refl.
Qed.

Lemma map_file_loop_total items :
  length (concat (map snd
    (fold_left (fun m i => map_file m (key i) (value i)) items [])))
  = length items.
Proof.
  induction items as [|x items IH] using rev_ind; [reflexivity|].
  rewrite fold_left_app. cbn [fold_left].
  rewrite map_file_total, IH, length_app. simpl. lia.
Qed.

End MapOfArrays.

(** ** [groupEndpoints] and the count of [createSuccessResult] *)

Section BaseGroups.

Import Js BaseExtractor.

(** The count reported by [createSuccessResult] is the number of
    endpoints of the groups of the project. *)
Lemma createSuccessResult_endpointsFound (p : ApiProject) (files : nat)
    (warns : option (list string)) :
  endpointsFound (createSuccessResult p files warns) = endpointCountOf (groups p).
Proof.
  unfold createSuccessResult, endpointCountOf. cbn [endpointsFound].
  enough (forall gs n,
            fold_left (fun sum g => sum + length (endpoints g)) gs n
            = n + length (concat (map endpoints gs))) as H by apply H.
  induction gs as [|g gs IH]; intros n; cbn [fold_left map concat].
  - simpl. lia.
  - rewrite IH, length_app. lia.
Qed.

(** The groups of [groupEndpoints] are the entries of the map of its
    loop. *)
Lemma groupEndpoints_entries (eps : list ApiEndpoint)
    (getGroupName : ApiEndpoint -> string) :
  exists m,
    m = fold_left (fun m e => map_file m (getGroupName e) e) eps []
    /\ groupEndpoints eps getGroupName
       = map (fun '(name, l) =>
                {| group_name := name; group_description := None;
                   endpoints := l |}) m
    /\ map group_name (groupEndpoints eps getGroupName) = map fst m
    /\ map endpoints (groupEndpoints eps getGroupName) = map snd m.
Proof.
  eexists. split; [reflexivity|]. split; [reflexivity|].
  unfold groupEndpoints. rewrite !map_map.
  split; apply map_ext; by intros [name l].
Qed.

(** X5.  [groupEndpoints] partitions the endpoints: the groups bear the
    distinct group names in the order of their first occurrence, each
    group holds the endpoints of its name in their order, none is empty,
    and no endpoint is lost or repeated. *)
Theorem groupEndpoints_partition (eps : list ApiEndpoint)
    (getGroupName : ApiEndpoint -> string) :
  let gs := groupEndpoints eps getGroupName in
  map group_name gs = distinctInOrder (map getGroupName eps)
  /\ NoDup (map group_name gs)
  /\ (forall g, In g gs ->
        endpoints g
        = List.filter (fun e => String.eqb (getGroupName e) (group_name g)) eps
        /\ endpoints g <> []
        /\ group_description g = None)
  /\ (forall e, In e eps ->
        exists g, In g gs /\ group_name g = getGroupName e
                  /\ In e (endpoints g))
  /\ endpointCountOf gs = length eps.
Proof.
  intros gs.
  destruct (groupEndpoints_entries eps getGroupName)
    as (m & Hm & Hgs & Hnames & Hends).
  fold gs in Hgs, Hnames, Hends.
  pose proof (map_file_loop_keys getGroupName (fun e => e) eps) as Hkeys.
  pose proof (map_file_loop_NoDup getGroupName (fun e => e) eps) as Hnodup.
  pose proof (map_file_loop_get getGroupName (fun e => e) eps) as Hget.
  pose proof (map_file_loop_total getGroupName (fun e => e) eps) as Htotal.
  cbv beta in Hkeys, Hnodup, Hget, Htotal.
  rewrite <- Hm in Hkeys, Hnodup, Hget, Htotal.
  assert (forall g, In g gs ->
            endpoints g
            = List.filter
                (fun e => String.eqb (getGroupName e) (group_name g)) eps
            /\ endpoints g <> [] /\ group_description g = None) as Hgroups.
  { intros g Hg. rewrite Hgs in Hg.
    apply in_map_iff in Hg as ([k l] & <- & Hkl). cbn [endpoints group_name].
    apply (In_map_get _ _ _ Hnodup) in Hkl. rewrite Hget in Hkl.
    destruct (List.filter _ eps) as [|y l'] eqn:Hf; [discriminate|].
    injection Hkl as <-. rewrite map_id. by repeat split. }
  split; [by rewrite Hnames|].
  split; [by rewrite Hnames|].
  split; [exact Hgroups|].
  split.
  - intros e He.
    assert (In (getGroupName e) (map group_name gs)) as Hin.
    { rewrite Hnames. apply map_get_key with (v := List.filter
        (fun e' => String.eqb (getGroupName e') (getGroupName e)) eps).
      rewrite Hget.
      destruct (List.filter _ eps) as [|y l'] eqn:Hf; [|by rewrite map_id].
      assert (In e (List.filter
                (fun e' => String.eqb (getGroupName e') (getGroupName e)) eps))
        as Hine by (apply filter_In; split; [assumption | apply String.eqb_refl]).
      by rewrite Hf in Hine. }
    apply in_map_iff in Hin as (g & Hname & Hg).
    exists g. split; [assumption|]. split; [assumption|].
    destruct (Hgroups g Hg) as (-> & _ & _).
    apply filter_In. split; [assumption|]. rewrite Hname. apply String.eqb_refl.
  - unfold endpointCountOf. by rewrite Hends.
Qed.

End BaseGroups.

(** ** The groups of the OpenAPI extractor: order, descriptions, count *)

Section OpenApiGroups.

Import Js BaseExtractor OpenApiExtractor.

Implicit Types (m : list (string * TagData)) (e : ApiEndpoint).

Lemma map_set_addKey {W : Type} (m : list (string * W)) (k : string) (v : W) :
  map fst (map_set m k v) = addKey (map fst m) k.
Proof. unfold addKey. by rewrite map_set_keys, map_has_keys. Qed.

Lemma distinctInOrder_snoc (l : list string) (k : string) :
  distinctInOrder (l ++ [k]) = addKey (distinctInOrder l) k.
Proof. unfold distinctInOrder. by rewrite fold_left_app. Qed.

Lemma initialTagMap_keys (declared : option (list OpenApiTag)) :
  map fst (initialTagMap declared)
  = distinctInOrder (map tag_name (default [] declared) ++ ["default"]).
Proof.
  unfold initialTagMap. rewrite map_set_addKey, distinctInOrder_snoc. f_equal.
  generalize (default [] declared). intros l.
  induction l as [|t l IH] using rev_ind; [reflexivity|].
  rewrite map_app, fold_left_app. cbn [fold_left map].
  by rewrite map_set_addKey, distinctInOrder_snoc, IH.
Qed.

Lemma placeEndpoint_keys m e :
  map fst (placeEndpoint m e) = addKey (map fst m) (tagNameOf e).
Proof.
  unfold placeEndpoint. rewrite push_endpoint_keys.
  unfold addKey. rewrite <- map_has_keys.
  destruct (map_has m (tagNameOf e)) eqn:Hhas; cbn [negb]; [reflexivity|].
  by rewrite map_set_keys, Hhas.
Qed.

Lemma distribute_keys (eps : list ApiEndpoint) m :
  map fst (fold_left placeEndpoint eps m)
  = fold_left addKey (map tagNameOf eps) (map fst m).
Proof.
  revert m. induction eps as [|e eps IH]; intros m; [reflexivity|].
  cbn [fold_left map]. by rewrite IH, placeEndpoint_keys.
Qed.

Lemma tagged_nonempty (k : string) (eps : list ApiEndpoint) :
  Nat.ltb 0 (length (tagged k eps))
  = existsb (fun e => String.eqb (tagNameOf e) k) eps.
Proof.
  unfold tagged. induction eps as [|e eps IH]; [reflexivity|].
  cbn [List.filter existsb].
  destruct (String.eqb (tagNameOf e) k); [reflexivity | exact IH].
Qed.

Lemma materialize_names m (eps : list ApiEndpoint) :
  (forall k d, In (k, d) m -> data_endpoints d = tagged k eps) ->
  map group_name (materialize m)
  = List.filter (fun k => existsb (fun e => String.eqb (tagNameOf e) k) eps)
      (map fst m).
Proof.
  induction m as [|[k d] m IH]; intros Hm; [reflexivity|].
  cbn [materialize flat_map map fst List.filter].
  rewrite map_app. fold (materialize m).
  rewrite IH by (intros k' d' Hin; apply Hm; by right).
  rewrite (Hm k d) by (by left). rewrite tagged_nonempty.
  by destruct (existsb _ eps).
Qed.

(** The entries of the map after the distribution loop. *)
Lemma distributed_entries (eps : list ApiEndpoint)
    (declared : option (list OpenApiTag)) :
  let m := fold_left placeEndpoint eps (initialTagMap declared) in
  NoDup (map fst m)
  /\ forall k d, In (k, d) m -> data_endpoints d = tagged k eps.
Proof.
  intros m.
  pose proof (distribute_distributed eps [] _
                (initialTagMap_distributed declared)) as [Hnd Hholds _].
  fold m in Hnd, Hholds. split; [assumption|].
  intros k d Hin. apply Hholds. by apply In_map_get.
Qed.

(** X6.  The groups of [groupEndpointsByTag] come in the order of the
    map: the declared tags in the order of their declaration, then
    [default], then the other tags in the order in which the endpoints
    bring them; of these names, those that no endpoint goes under are
    left out. *)
Theorem groupEndpointsByTag_order (eps : list ApiEndpoint)
    (declared : option (list OpenApiTag)) :
  map group_name (groupEndpointsByTag eps declared)
  = List.filter (fun k => existsb (fun e => String.eqb (tagNameOf e) k) eps)
      (distinctInOrder
         (map tag_name (default [] declared) ++ ["default"]
            ++ map tagNameOf eps)).
Proof.
  unfold groupEndpointsByTag.
  destruct (distributed_entries eps declared) as [_ Hentries].
  rewrite (materialize_names _ eps Hentries). f_equal.
  rewrite distribute_keys, initialTagMap_keys.
  unfold distinctInOrder. by rewrite app_assoc, !fold_left_app.
Qed.

(** The description held under a key does not change once the key is in
    the map; a key that the loop adds has none. *)
Lemma placeEndpoint_description m e (k : string) :
  data_description <$> map_get (placeEndpoint m e) k
  = match map_get m k with
    | Some d => Some (data_description d)
    | None => if String.eqb (tagNameOf e) k then Some None else None
    end.
Proof.
  unfold placeEndpoint. rewrite map_get_push. unfold map_has.
  destruct (String.eqb_spec (tagNameOf e) k) as [<-|Hk].
  - destruct (map_get m (tagNameOf e)) as [d|] eqn:Hget; cbn [negb].
    + by rewrite Hget.
    + by rewrite map_get_set, String.eqb_refl.
  - destruct (negb _); [|by destruct (map_get m k)].
    rewrite map_get_set.
    destruct (String.eqb_spec (tagNameOf e) k); [congruence|].
    by destruct (map_get m k).
Qed.

Lemma initialTagMap_get (declared : option (list OpenApiTag)) (k : string) :
  data_description <$> map_get (initialTagMap declared) k
  = if String.eqb "default" k then Some None
    else tag_description
           <$> find (fun t => String.eqb (tag_name t) k)
                 (rev (default [] declared)).
Proof.
  unfold initialTagMap. rewrite map_get_set.
  destruct (String.eqb "default" k); [reflexivity|].
  generalize (default [] declared). intros l.
  induction l as [|t l IH] using rev_ind; [reflexivity|].
  rewrite fold_left_app, rev_app_distr. cbn [fold_left rev app find].
  rewrite map_get_set.
  destruct (String.eqb (tag_name t) k); [reflexivity | exact IH].
Qed.

Lemma distribute_description (eps : list ApiEndpoint) m (k : string)
    (d : TagData) :
  map_get (fold_left placeEndpoint eps m) k = Some d ->
  data_description d
  = match map_get m k with
    | Some d0 => data_description d0
    | None => None
    end.
Proof.
  revert m. induction eps as [|e eps IH]; intros m; cbn [fold_left].
  - by intros ->.
  - intros Hd. rewrite (IH _ Hd).
    pose proof (placeEndpoint_description m e k) as Hstep.
    destruct (map_get (placeEndpoint m e) k) as [d1|];
      destruct (map_get m k) as [d0|]; cbn in Hstep; try congruence.
    destruct (String.eqb (tagNameOf e) k); congruence.
Qed.

(** X7.  The description of a group is that of the last declared tag of
    its name, and there is none when no declared tag has that name; the
    group [default] never has one, whatever the document declares. *)
Theorem groupEndpointsByTag_descriptions (eps : list ApiEndpoint)
    (declared : option (list OpenApiTag)) (g : ApiGroup) :
  In g (groupEndpointsByTag eps declared) ->
  group_description g
  = if String.eqb (group_name g) "default" then None
    else find (fun t => String.eqb (tag_name t) (group_name g))
           (rev (default [] declared))
         ≫= tag_description.
Proof.
  unfold groupEndpointsByTag. intros Hg.
  apply In_materialize in Hg as (k & d & Hin & _ & ->).
  cbn [group_name group_description].
  destruct (distributed_entries eps declared) as [Hnd _].
  apply (In_map_get _ _ _ Hnd) in Hin.
  rewrite (distribute_description _ _ _ _ Hin).
  pose proof (initialTagMap_get declared k) as Hinit.
  rewrite (String.eqb_sym k "default").
  destruct (map_get (initialTagMap declared) k) as [d0|];
    destruct (String.eqb "default" k); cbn in Hinit; try congruence.
  - destruct (find _ _); cbn in Hinit |- *; congruence.
  - destruct (find _ _); cbn in Hinit |- *; congruence.
Qed.

Lemma groupEndpointsByTag_descriptions_witness :
  let eps := extractEndpoints Samples.petsDocument in
  let g := {| group_name := "pets";
              group_description := Some "Pets";
              endpoints := tagged "pets" eps |} in
  group_description g
  = if String.eqb (group_name g) "default" then None
    else find (fun t => String.eqb (tag_name t) (group_name g))
           (rev (default [] (doc_tags Samples.petsDocument)))
         ≫= tag_description.
Proof.
  intros eps g.
  apply (groupEndpointsByTag_descriptions eps (doc_tags Samples.petsDocument) g).
  vm_compute. by left.
Defined.

(** The number of endpoints held by the map. *)
Lemma push_endpoint_total m k e :
  map_has m k = true ->
  length (concat (map (fun kd => data_endpoints (snd kd)) (push_endpoint m k e)))
  = S (length (concat (map (fun kd => data_endpoints (snd kd)) m))).
Proof.
  unfold map_has. induction m as [|[k' d] m IH]; [discriminate|].
  cbn [map_get push_endpoint].
  destruct (String.eqb k' k); cbn [map snd concat pushed data_endpoints].
  - intros _. rewrite !length_app. simpl. lia.
  - intros Hhas. rewrite !length_app, (IH Hhas). lia.
Qed.

Lemma map_set_new_total m k (d : TagData) :
  map_has m k = false ->
  length (concat (map (fun kd => data_endpoints (snd kd)) (map_set m k d)))
  = length (concat (map (fun kd => data_endpoints (snd kd)) m))
    + length (data_endpoints d).
Proof.
  unfold map_has. induction m as [|[k' d'] m IH].
  - intros _. cbn. by rewrite app_nil_r.
  - cbn [map_get map_set].
    destruct (String.eqb k' k); [discriminate|]. cbn [map snd concat].
    intros Hhas. rewrite !length_app, (IH Hhas). lia.
Qed.

Lemma placeEndpoint_total m e :
  length (concat (map (fun kd => data_endpoints (snd kd)) (placeEndpoint m e)))
  = S (length (concat (map (fun kd => data_endpoints (snd kd)) m))).
Proof.
  unfold placeEndpoint. destruct (map_has m (tagNameOf e)) eqn:Hhas; cbn [negb].
  - by apply push_endpoint_total.
  - rewrite push_endpoint_total.
    + rewrite map_set_new_total by assumption. simpl. lia.
    + unfold map_has. by rewrite map_get_set, String.eqb_refl.
Qed.

Lemma materialize_total m :
  endpointCountOf (materialize m)
  = length (concat (map (fun kd => data_endpoints (snd kd)) m)).
Proof.
  unfold endpointCountOf.
  induction m as [|[k d] m IH]; [reflexivity|].
  cbn [materialize flat_map map concat snd].
  fold (materialize m). rewrite map_app, concat_app, !length_app, IH.
  f_equal. destruct (data_endpoints d); cbn; [reflexivity|].
  by rewrite app_nil_r.
Qed.

(** No endpoint is lost or repeated by [groupEndpointsByTag]. *)
Lemma groupEndpointsByTag_total (eps : list ApiEndpoint)
    (declared : option (list OpenApiTag)) :
  endpointCountOf (groupEndpointsByTag eps declared) = length eps.
Proof.
  unfold groupEndpointsByTag. rewrite materialize_total.
  assert (length (concat (map (fun kd => data_endpoints (snd kd))
                            (initialTagMap declared))) = 0) as Hinit.
  { destruct (initialTagMap_distributed declared) as [Hnd Hholds _].
    induction (initialTagMap declared) as [|[k d] m IH]; [reflexivity|].
    cbn [map concat snd]. rewrite length_app.
    rewrite (Hholds k d) by (cbn [map_get]; by rewrite String.eqb_refl).
    cbn [tagged List.filter length Nat.add app]. apply IH.
    - by inversion Hnd.
    - intros k' d' Hget. apply Hholds. cbn [map_get].
      destruct (String.eqb_spec k k') as [<-|]; [|assumption].
      exfalso. inversion Hnd as [|? ? Hnotin _]; subst.
      apply Hnotin, list_elem_of_In. by apply map_get_key in Hget. }
  revert Hinit. generalize (initialTagMap declared). intros m.
  replace (length eps) with (0 + length eps) by lia.
  generalize 0. revert m.
  induction eps as [|e eps IH]; intros m n Hm; cbn [fold_left].
  - simpl. lia.
  - rewrite (IH _ (S n)); [simpl; lia|].
    by rewrite placeEndpoint_total, Hm.
Qed.

End OpenApiGroups.

(** ** The endpoints of a document *)

Section OpenApiEndpoints.

Import Js BaseExtractor OpenApiExtractor.

Variable dereference bundle : string -> Outcome OpenApiDocument.

(** The operations of a path item, each with its method. *)
Lemma In_extractEndpoints (api : OpenApiDocument) (e : ApiEndpoint) :
  In e (extractEndpoints api) <->
  exists p item m op,
    In (p, item) (doc_paths api)
    /\ In (m, Some op) (methodsOf item)
    /\ e = createEndpoint p m op (default [] (pi_parameters item)).
Proof.
  unfold extractEndpoints. rewrite in_flat_map. split.
  - intros ([p item] & Hin & He). apply in_flat_map in He as ([m o] & Hm & He).
    destruct o as [op|]; [|destruct He]. destruct He as [<-|[]].
    by exists p, item, m, op.
  - intros (p & item & m & op & Hin & Hm & ->). exists (p, item).
    split; [assumption|]. apply in_flat_map. exists (m, Some op).
    split; [assumption | by left].
Qed.

Lemma length_flat_map_le {X Y : Type} (f : X -> list Y) (n : nat) (l : list X) :
  (forall x, length (f x) <= n) -> length (flat_map f l) <= n * length l.
Proof.
  intros Hf. induction l as [|x l IH]; cbn [flat_map length]; [lia|].
  rewrite length_app. specialize (Hf x). lia.
Qed.

Lemma length_flat_map_filter {X Y : Type} (f : X -> list Y) (keep : X -> bool)
    (l : list X) :
  (forall x, length (f x) = if keep x then 1 else 0) ->
  length (flat_map f l) = length (List.filter keep l).
Proof.
  intros Hf. induction l as [|x l IH]; [reflexivity|].
  cbn [flat_map List.filter]. rewrite length_app, Hf, IH.
  by destruct (keep x).
Qed.

(** X8.  A successful extraction has parsed the document, by
    dereferencing it or, when that threw, by bundling it; it reports one
    file, and the count of endpoints it reports is the number of
    operations of that document: for each path, the number of the seven
    methods for which the path item has an operation.  This is also the
    number of endpoints in the groups of the project, and at most seven
    for a path. *)
Theorem extract_counts_operations (source : string) (config : ApigenConfig) :
  let r := extract dereference bundle source config in
  success r = true ->
  exists api,
    (dereference source = Returned api
     \/ ((exists message, dereference source = Thrown message)
         /\ bundle source = Returned api))
    /\ filesProcessed r = 1
    /\ endpointsFound r
       = list_sum
           (map
              (fun entry =>
                 let item := snd entry in
                 length
                   (List.filter (fun operation => bool_decide (is_Some operation))
                      [ pi_get item; pi_post item; pi_put item;
                        pi_delete item; pi_patch item; pi_options item;
                        pi_head item ]))
              (doc_paths api))
    /\ (exists p, project r = Some p
                  /\ endpointCountOf (groups p) = endpointsFound r)
    /\ endpointsFound r <= 7 * length (doc_paths api).
Proof.
  intros r Hsuccess. subst r.
  unfold extract, extract_try, parseSpec in Hsuccess |- *.
  assert (forall api,
            length (extractEndpoints api)
            = list_sum
                (map
                   (fun entry =>
                      let item := snd entry in
                      length
                        (List.filter
                           (fun operation => bool_decide (is_Some operation))
                           [ pi_get item; pi_post item; pi_put item;
                             pi_delete item; pi_patch item; pi_options item;
                             pi_head item ]))
                   (doc_paths api))) as Hcount.
  { intros api. unfold extractEndpoints.
    induction (doc_paths api) as [|[p item] l IH]; [reflexivity|].
    cbn [flat_map map list_sum snd]. rewrite length_app, IH. f_equal.
    unfold methodsOf. cbn [flat_map List.filter].
    destruct (pi_get item), (pi_post item), (pi_put item), (pi_delete item),
      (pi_patch item), (pi_options item), (pi_head item); reflexivity. }
  assert (forall api, length (extractEndpoints api) <= 7 * length (doc_paths api))
    as Hbound.
  { intros api. unfold extractEndpoints. apply length_flat_map_le.
    intros [p item]. change 7 with (1 * length (methodsOf item)).
    apply length_flat_map_le. intros [m [op|]]; simpl; lia. }
  assert (forall api,
            let r := createSuccessResult
                       {| info_title := doc_title api;
                          info_version := doc_version api;
                          baseUrl :=
                            match doc_servers api with
                            | Some (url :: _) => url
                            | _ => baseUrl (createEmptyProject OPENAPI source config)
                            end;
                          groups := groupEndpointsByTag (extractEndpoints api)
                                      (doc_tags api);
                          projectType :=
                            projectType (createEmptyProject OPENAPI source config);
                          sourcePath :=
                            sourcePath (createEmptyProject OPENAPI source config) |}
                       1 None in
            filesProcessed r = 1
            /\ endpointsFound r = length (extractEndpoints api)
            /\ exists p, project r = Some p
                         /\ endpointCountOf (groups p) = endpointsFound r)
    as Hresult.
  { intros api r. subst r. rewrite createSuccessResult_endpointsFound.
    cbn [filesProcessed project groups createSuccessResult].
    rewrite groupEndpointsByTag_total.
    split; [reflexivity|]. split; [reflexivity|].
    eexists. split; [reflexivity|]. apply groupEndpointsByTag_total. }
  destruct (dereference source) as [api|message] eqn:Hderef.
  - cbn [fst]. exists api. destruct (Hresult api) as (Hfiles & Hfound & Hproject).
    split; [by left|]. split; [exact Hfiles|].
    split; [by rewrite Hfound, Hcount|]. split; [exact Hproject|].
    rewrite Hfound. apply Hbound.
  - destruct (bundle source) as [api|message'] eqn:Hbundle;
      cbn [fst] in Hsuccess |- *; [|discriminate].
    exists api. destruct (Hresult api) as (Hfiles & Hfound & Hproject).
    split; [right; by eauto|]. split; [exact Hfiles|].
    split; [by rewrite Hfound, Hcount|]. split; [exact Hproject|].
    rewrite Hfound. apply Hbound.
Qed.

End OpenApiEndpoints.

Lemma extract_counts_operations_witness :
  exists api,
    Samples.parsed Samples.petsDocument "openapi.yaml" = Returned api
    /\ endpointsFound
         (OpenApiExtractor.extract (Samples.parsed Samples.petsDocument)
            Samples.unreadable "openapi.yaml" Samples.sampleConfig)
       = list_sum
           (map
              (fun entry =>
                 length
                   (List.filter (fun operation => bool_decide (is_Some operation))
                      [ OpenApiExtractor.pi_get (snd entry);
                        OpenApiExtractor.pi_post (snd entry);
                        OpenApiExtractor.pi_put (snd entry);
                        OpenApiExtractor.pi_delete (snd entry);
                        OpenApiExtractor.pi_patch (snd entry);
                        OpenApiExtractor.pi_options (snd entry);
                        OpenApiExtractor.pi_head (snd entry) ]))
              (OpenApiExtractor.doc_paths api)).
Proof.
  destruct (extract_counts_operations (Samples.parsed Samples.petsDocument)
              Samples.unreadable "openapi.yaml" Samples.sampleConfig)
    as (api & [Hparsed|[[message Hthrown] _]] & _ & Hfound & _).
  - reflexivity.
  - exists api. by split.
  - discriminate Hthrown.
Defined.

(** ** Method and path of the endpoints of a document *)

Section OpenApiDistinct.

Import Js BaseExtractor OpenApiExtractor.

Lemma operations_of_methods (p : string) (pp : list OpenApiParameter)
    (ms : list (HttpMethod * option OpenApiOperation)) (e : ApiEndpoint) :
  In e (flat_map
          (fun '(m, operation) =>
             match operation with
             | None => []
             | Some op => [createEndpoint p m op pp]
             end) ms) ->
  path e = normalizePath p /\ In (method e) (map fst ms).
Proof.
  induction ms as [|[m o] ms IH]; cbn [flat_map map fst]; [intros []|].
  intros [He|He]%in_app_or.
  - destruct o as [op|]; [|destruct He]. destruct He as [<-|[]].
    split; [reflexivity | by left].
  - destruct (IH He). split; [assumption | by right].
Qed.

Lemma operations_distinct (p : string) (pp : list OpenApiParameter)
    (ms : list (HttpMethod * option OpenApiOperation)) :
  NoDup (map fst ms) ->
  NoDup (map (fun e => (method e, path e))
           (flat_map
              (fun '(m, operation) =>
                 match operation with
                 | None => []
                 | Some op => [createEndpoint p m op pp]
                 end) ms)).
Proof.
  induction ms as [|[m o] ms IH]; cbn [flat_map map fst]; [constructor|].
  intros [Hm Hms]%NoDup_cons. specialize (IH Hms).
  destruct o as [op|]; [|exact IH].
  cbn [app map]. apply NoDup_cons. split; [|exact IH].
  rewrite list_elem_of_In, in_map_iff. intros (e & [= Hmeth _] & He).
  apply operations_of_methods in He as [_ Hin].
  apply Hm, list_elem_of_In. by rewrite <- Hmeth.
Qed.

(** X9.  No two endpoints of a document share method and path, as long
    as no two path keys of the document have the same normalized path. *)
Theorem extractEndpoints_distinct (api : OpenApiDocument) :
  NoDup (map (fun entry => normalizePath (fst entry)) (doc_paths api)) ->
  NoDup (map (fun e => (method e, path e)) (extractEndpoints api)).
Proof.
  unfold extractEndpoints.
  induction (doc_paths api) as [|[p item] l IH]; cbn [flat_map map fst];
    [constructor|].
  intros [Hp Hl]%NoDup_cons. specialize (IH Hl).
  rewrite map_app. apply NoDup_app. split; [|split; [|exact IH]].
  - apply operations_distinct. apply (bool_decide_unpack _). by vm_compute.
  - intros [m q]. rewrite !list_elem_of_In, !in_map_iff.
    intros (e & [= _ Hq] & He) (e' & [= _ Hq'] & He').
    apply operations_of_methods in He as [Hpath _].
    apply Hp, list_elem_of_In, in_map_iff.
    apply in_flat_map in He' as ([p' item'] & Hin' & He').
    apply operations_of_methods in He' as [Hpath' _].
    exists (p', item'). split; [|assumption]. cbn [fst]. congruence.
Qed.

Lemma extractEndpoints_distinct_witness :
  NoDup (map (fun e => (method e, path e))
           (extractEndpoints Samples.petsDocument)).
Proof.
  apply extractEndpoints_distinct.
  apply (bool_decide_unpack _). by vm_compute.
Defined.

(** Two path keys with the same normalized path give two endpoints of
    the same method and path. *)
Lemma extractEndpoints_merged_paths :
  let item := Samples.pathItemOf (Some (Samples.operationTagged "list" None)) None in
  let api := {| doc_title := "t"; doc_version := "1";
                doc_servers := None;
                doc_paths := [("/pets", item); ("/pets/", item)];
                doc_tags := None |} in
  map (fun e => (method e, path e)) (extractEndpoints api)
  = [(GET, "/pets"); (GET, "/pets")].
Proof. by vm_compute. Qed.

End OpenApiDistinct.

(** ** Security schemes and request bodies *)

Section OpenApiAuth.

Import Js BaseExtractor OpenApiExtractor.

(** The schemes that a round of the loop passes over. *)
Lemma authOfScheme_None (scheme : OpenApiSecurityScheme) :
  authOfScheme scheme = None
  <-> ss_type scheme <> "apiKey"
      /\ ~ (ss_type scheme = "http"
            /\ (ss_scheme scheme = Some "bearer"
                \/ ss_scheme scheme = Some "basic")).
Proof.
  unfold authOfScheme.
  destruct (String.eqb_spec (ss_type scheme) "http") as [Hhttp|Hhttp];
    destruct (String.eqb_spec (ss_type scheme) "apiKey") as [Hkey|Hkey];
    repeat case_bool_decide; cbn [andb];
    (split; [try discriminate; intros _ | try tauto; intros [Hne Hno]]);
    try congruence; try (exfalso; apply Hno; tauto).
  all: split; [assumption|]; intros [? [?|?]]; congruence.
Qed.

(** What a round of the loop returns. *)
Lemma authOfScheme_Some (scheme : OpenApiSecurityScheme) (auth : ApiAuth) :
  authOfScheme scheme = Some auth ->
  (keyLocation auth = Some query
   <-> ss_type scheme = "apiKey" /\ ss_in scheme = Some "query")
  /\ (auth_type auth = BEARER \/ auth_type auth = API_KEY
      \/ auth_type auth = BASIC)
  /\ (auth_type auth = API_KEY ->
      (exists k, keyName auth = Some k /\ k <> "")
      /\ is_Some (keyLocation auth))
  /\ (auth_type auth <> API_KEY ->
      keyName auth = None /\ keyLocation auth = None).
Proof.
  unfold authOfScheme.
  destruct (String.eqb_spec (ss_type scheme) "http") as [Hhttp|Hhttp];
    destruct (String.eqb_spec (ss_type scheme) "apiKey") as [Hkey|Hkey];
    try congruence; cbn [andb].
  - repeat case_bool_decide; intros [= <-];
      cbn [keyLocation auth_type keyName];
      (split; [split; [discriminate | intros [? _]; congruence]|]);
      (split; [tauto|]); (split; [discriminate | done]).
  - intros [= <-]. cbn [keyLocation auth_type keyName].
    split; [|split; [tauto|split; [|done]]].
    + case_bool_decide; split; try done; try discriminate.
      intros [_ ?]. congruence.
    + intros _. split; [|by eauto].
      destruct (ss_name scheme) as [n|]; [|by eexists].
      destruct (String.eqb_spec n ""); by eexists.
  - discriminate.
Qed.

(** The descriptor of a scheme of each of the three kinds. *)
Lemma authOfScheme_kinds (scheme : OpenApiSecurityScheme) :
  (ss_type scheme = "http" -> ss_scheme scheme = Some "bearer" ->
   authOfScheme scheme
   = Some {| auth_type := BEARER; keyName := None; keyLocation := None;
             tokenPlaceholder := "{{token}}" |})
  /\ (ss_type scheme = "apiKey" ->
      authOfScheme scheme
      = Some {| auth_type := API_KEY;
                keyName :=
                  Some (match ss_name scheme with
                        | Some n => if String.eqb n "" then "X-API-Key" else n
                        | None => "X-API-Key"
                        end);
                keyLocation :=
                  Some (if bool_decide (ss_in scheme = Some "query")
                        then query else header);
                tokenPlaceholder := "{{apiKey}}" |})
  /\ (ss_type scheme = "http" -> ss_scheme scheme = Some "basic" ->
      authOfScheme scheme
      = Some {| auth_type := BASIC; keyName := None; keyLocation := None;
                tokenPlaceholder := "{{basicAuth}}" |}).
Proof.
  unfold authOfScheme. split; [|split].
  - intros -> ->. reflexivity.
  - intros ->. reflexivity.
  - intros -> ->. reflexivity.
Qed.

Lemma authOfScheme_is_Some (scheme : OpenApiSecurityScheme) :
  is_Some (authOfScheme scheme) ->
  (ss_type scheme = "http" /\ ss_scheme scheme = Some "bearer")
  \/ ss_type scheme = "apiKey"
  \/ (ss_type scheme = "http" /\ ss_scheme scheme = Some "basic").
Proof.
  unfold authOfScheme.
  destruct (String.eqb_spec (ss_type scheme) "http") as [Hhttp|Hhttp];
    destruct (String.eqb_spec (ss_type scheme) "apiKey") as [Hkey|Hkey];
    repeat case_bool_decide; cbn [andb]; try tauto.
  all: by intros [? [=]].
Qed.

(** X10.  [extractAuthFromSecuritySchemes] returns nothing exactly when
    no scheme is an HTTP bearer scheme, an API key or an HTTP basic
    scheme.  Otherwise it returns the descriptor of the first scheme of
    one of these three kinds, whatever stands before it: the bearer
    descriptor for a bearer scheme, the basic descriptor for a basic
    scheme, and for an API key the descriptor that bears the name of the
    key, [X-API-Key] when the scheme gives none, and the location
    [query] when the scheme says so and [header] in every other case.
    The type of the descriptor is never OAuth2. *)
Theorem extractAuthFromSecuritySchemes_first
    (schemes : list (string * OpenApiSecurityScheme)) :
  let result := extractAuthFromSecuritySchemes schemes in
  let isBearer scheme :=
    ss_type scheme = "http" /\ ss_scheme scheme = Some "bearer" in
  let isApiKey scheme := ss_type scheme = "apiKey" in
  let isBasic scheme :=
    ss_type scheme = "http" /\ ss_scheme scheme = Some "basic" in
  let recognized scheme :=
    isBearer scheme \/ isApiKey scheme \/ isBasic scheme in
  (result = None
   <-> Forall (fun entry => ~ recognized (snd entry)) schemes)
  /\ (forall auth, result = Some auth ->
        exists before name scheme after,
          schemes = (before ++ (name, scheme) :: after)%list
          /\ Forall (fun entry => ~ recognized (snd entry)) before
          /\ recognized scheme
          /\ (isBearer scheme ->
              auth = {| auth_type := BEARER; keyName := None;
                        keyLocation := None;
                        tokenPlaceholder := "{{token}}" |})
          /\ (isApiKey scheme ->
              exists key location,
                auth = {| auth_type := API_KEY; keyName := Some key;
                          keyLocation := Some location;
                          tokenPlaceholder := "{{apiKey}}" |}
                /\ key <> ""
                /\ (forall n, ss_name scheme = Some n -> n <> "" -> key = n)
                /\ (ss_name scheme = None \/ ss_name scheme = Some "" ->
                    key = "X-API-Key")
                /\ (location = query <-> ss_in scheme = Some "query")
                /\ (location = header <-> ss_in scheme <> Some "query"))
          /\ (isBasic scheme ->
              auth = {| auth_type := BASIC; keyName := None;
                        keyLocation := None;
                        tokenPlaceholder := "{{basicAuth}}" |})
          /\ auth_type auth <> OAUTH2
          /\ auth_type auth <> NONE).
Proof.
  intros result isBearer isApiKey isBasic recognized. subst result.
  assert (forall scheme, authOfScheme scheme = None <-> ~ recognized scheme)
    as Hnone.
  { intros scheme. rewrite authOfScheme_None.
    subst recognized isBearer isApiKey isBasic. cbv beta. tauto. }
  split.
  - induction schemes as [|[name scheme] rest IH];
      cbn [extractAuthFromSecuritySchemes]; [by split|].
    destruct (authOfScheme scheme) as [auth|] eqn:Hauth.
    + split; [discriminate|]. intros [Hno _]%Forall_cons.
      apply Hnone in Hno. cbn [snd] in Hno. congruence.
    + rewrite IH. split.
      * intros Hrest. constructor; [by apply Hnone | exact Hrest].
      * by intros [_ ?]%Forall_cons.
  - induction schemes as [|[name scheme] rest IH];
      cbn [extractAuthFromSecuritySchemes]; [discriminate|].
    intros auth.
    destruct (authOfScheme scheme) as [auth'|] eqn:Hauth.
    + intros [= ->]. exists [], name, scheme, rest.
      split; [reflexivity|]. split; [constructor|].
      assert (recognized scheme) as Hrec.
      { subst recognized isBearer isApiKey isBasic. cbv beta.
        eapply authOfScheme_is_Some; by rewrite Hauth. }
      split; [exact Hrec|].
      destruct (authOfScheme_kinds scheme) as (Hbearer & Hkey & Hbasic).
      split; [intros [Ht Hs]; rewrite (Hbearer Ht Hs) in Hauth; congruence|].
      split.
      { intros Ht. rewrite (Hkey Ht) in Hauth. injection Hauth as <-.
        eexists _, _. split; [reflexivity|].
        split; [destruct (ss_name scheme) as [n|]; [|discriminate];
                by destruct (String.eqb_spec n "")|].
        split; [intros n -> Hn; by destruct (String.eqb_spec n "")|].
        split; [intros [->| ->]; reflexivity|].
        split; case_bool_decide; split; try done; try discriminate. }
      split; [intros [Ht Hs]; rewrite (Hbasic Ht Hs) in Hauth; congruence|].
      destruct Hrec as [[Ht Hs]|[Ht|[Ht Hs]]].
      * rewrite (Hbearer Ht Hs) in Hauth. injection Hauth as <-.
        split; discriminate.
      * rewrite (Hkey Ht) in Hauth. injection Hauth as <-.
        split; discriminate.
      * rewrite (Hbasic Ht Hs) in Hauth. injection Hauth as <-.
        split; discriminate.
    + intros Hrest.
      destruct (IH auth Hrest)
        as (before & n & sch & after & -> & Hbefore & Hresult).
      exists ((name, scheme) :: before), n, sch, after.
      split; [reflexivity|]. split; [|exact Hresult].
      constructor; [by apply Hnone | exact Hbefore].
Qed.

(** An OAuth2 scheme is passed over, and an API key said to be sent in a
    cookie is taken to be sent in a header. *)
Lemma extractAuthFromSecuritySchemes_cookie_key :
  extractAuthFromSecuritySchemes Samples.oauthThenCookieKey
  = Some {| auth_type := API_KEY;
            keyName := Some "X-API-Key";
            keyLocation := Some header;
            tokenPlaceholder := "{{apiKey}}" |}.
Proof. reflexivity. Qed.

(** X11.  The content type of a converted request body is one of the
    content types of the body: [application/json] wherever it stands
    among them, else the first one; a body without content has no
    content type and the schema of an object. *)
Theorem convertRequestBody_contentType (body : OpenApiRequestBody) :
  let converted := convertRequestBody body in
  let declared := map fst (rb_content body) in
  (body_contentType converted = None <-> rb_content body = [])
  /\ (forall ct, body_contentType converted = Some ct -> In ct declared)
  /\ (In "application/json" declared ->
      body_contentType converted = Some "application/json")
  /\ (~ In "application/json" declared ->
      body_contentType converted = head declared)
  /\ (rb_content body = [] ->
      schema_type (body_schema converted) = Typed OBJECT)
  /\ body_required converted = default false (rb_required body).
Proof.
  intros converted declared. subst converted declared.
  unfold convertRequestBody, firstContent. cbn [body_contentType body_schema
    body_required].
  assert (forall (content : list (string * OpenApiMedia)) k,
            match ownProperty content k with
            | Some _ => In k (map fst content)
            | None => ~ In k (map fst content)
            end) as Hown.
  { intros content k. induction content as [|[k' v] content IH];
      cbn [ownProperty map fst]; [by intros []|].
    destruct (String.eqb_spec k' k) as [->|Hk]; [by left|].
    destruct (ownProperty content k); [by right|].
    intros [?|?]; [congruence | by apply IH]. }
  specialize (Hown (rb_content body) "application/json").
  destruct (ownProperty (rb_content body) "application/json") as [media|].
  - cbn [fmap option_fmap option_map fst].
    split; [split; [discriminate | intros Hnil; by rewrite Hnil in Hown]|].
    split; [by intros ct [= <-]|].
    split; [done|]. split; [done|].
    split; [intros Hnil; by rewrite Hnil in Hown | reflexivity].
  - destruct (rb_content body) as [|[k v] content];
      cbn [head fmap option_fmap option_map fst map mbind option_bind].
    + repeat split; try done.
    + split; [split; discriminate|].
      split; [intros ct [= <-]; by left|].
      split; [done|]. split; [done|]. split; [discriminate | reflexivity].
Qed.

End OpenApiAuth.

(** ** The selection of the detector *)

Section DetectorSelection.

Import Js ProjectDetector.

Open Scope Z_scope.

(** The first element of the sorted results is the first of the results
    whose confidence is the highest. *)
Lemma sort_head_first_maximum (results : list DetectionResult) :
  match sort (fun a b => confidence b - confidence a) results with
  | [] => results = []
  | best :: _ =>
      exists before after,
        results = (before ++ best :: after)%list
        /\ Forall (fun r => confidence r < confidence best) before
        /\ Forall (fun r => confidence r <= confidence best) after
  end.
Proof.
  induction results as [|x l IH]; [reflexivity|].
  cbn [sort fold_right]. fold (sort (fun a b => confidence b - confidence a) l).
  destruct (sort _ l) as [|y l'].
  - subst l. exists [], []. by repeat split.
  - destruct IH as (before & after & -> & Hbefore & Hafter).
    cbn [sort_insert].
    destruct (Z.leb_spec (confidence y - confidence x) 0) as [Hle|Hgt].
    + exists [], (before ++ y :: after)%list.
      split; [reflexivity|]. split; [constructor|].
      apply Forall_app. split; [|constructor].
      * eapply Forall_impl; [exact Hbefore|]. cbv beta. intros; lia.
      * lia.
      * eapply Forall_impl; [exact Hafter|]. cbv beta. intros; lia.
    + exists (x :: before), after.
      split; [reflexivity|]. split; [|assumption].
      constructor; [lia | assumption].
Qed.

(** X12.  [selectBest] returns the first of the candidates whose
    confidence is the highest, so that among equals the strategy that ran
    first wins; when no candidate reaches the threshold it returns the
    unknown result. *)
Theorem selectBest_first_maximum (results : list DetectionResult) :
  (Forall (fun r => confidence r < MIN_CONFIDENCE_THRESHOLD) results
   /\ selectBest results = createUnknownResult)
  \/ (exists before best after,
        results = (before ++ best :: after)%list
        /\ selectBest results = best
        /\ MIN_CONFIDENCE_THRESHOLD <= confidence best
        /\ Forall (fun r => confidence r < confidence best) before
        /\ Forall (fun r => confidence r <= confidence best) after).
Proof.
  unfold selectBest.
  pose proof (sort_head_first_maximum results) as Hhead.
  destruct (sort _ results) as [|best rest].
  - left. subst results. by split.
  - destruct Hhead as (before & after & -> & Hbefore & Hafter).
    destruct (Z.ltb_spec (confidence best) MIN_CONFIDENCE_THRESHOLD)
      as [Hlow|Hhigh].
    + left. split; [|reflexivity].
      apply Forall_app. split; [|constructor]; [| assumption |].
      * eapply Forall_impl; [exact Hbefore|]. cbv beta. intros; lia.
      * eapply Forall_impl; [exact Hafter|]. cbv beta. intros; lia.
    + right. exists before, best, after. by repeat split.
Qed.

Lemma detectPython_type (d : Directory) (r : DetectionResult) :
  fst (detectPython d) = Some r ->
  In (type r) [FASTAPI; FLASK; undefined]
  /\ specFile r = None
  /\ is_Some (estimatedEndpoints r).
Proof.
  unfold detectPython, bind, announce, ret.
  destruct (_ && _); [discriminate|].
  destruct (sort _ _) as [|best rest] eqn:Hs; [discriminate|].
  destruct (_ <=? _); [|discriminate].
  cbn [fst]. intros [= <-]. cbn [type specFile estimatedEndpoints].
  split; [|by eauto].
  assert (In best (best :: rest)) as Hin by (by left).
  rewrite <- Hs in Hin. apply sort_In in Hin.
  cbn [In] in Hin. cbn [In].
  destruct Hin as [<-|[<-|[<-|[]]]]; cbn [fst]; tauto.
Qed.

Lemma detectJava_type (d : Directory) (r : DetectionResult) :
  fst (detectJava d) = Some r -> type r = SPRING_BOOT /\ specFile r = None.
Proof.
  unfold detectJava, bind, announce, ret.
  destruct (_ && _); [discriminate|].
  destruct (_ <? _); [discriminate|].
  cbn [fst]. by intros [= <-].
Qed.

Lemma detectDotNet_type (d : Directory) (r : DetectionResult) :
  fst (detectDotNet d) = Some r -> type r = ASPNET_CORE /\ specFile r = None.
Proof.
  unfold detectDotNet, bind, announce, ret.
  destruct (Nat.eqb _ _); [discriminate|].
  destruct (_ <? _); [discriminate|].
  cbn [fst]. by intros [= <-].
Qed.

Lemma detectOpenApi_specFile (d : Directory) (r : DetectionResult) :
  fst (detectOpenApi d) = Some r -> is_Some (specFile r).
Proof.
  unfold detectOpenApi, bind, announce, ret.
  assert (forall patterns r, findConventional d patterns = Some r ->
                             is_Some (specFile r)) as Hconv.
  { induction patterns as [|pat rest IH]; intros r'; cbn [findConventional];
      [discriminate|].
    destruct (_ && _); [|apply IH]. intros [= <-]. by eexists. }
  assert (forall globs r, findGlobbed d globs = Some r ->
                          is_Some (specFile r)) as Hglob.
  { induction globs as [|matches rest IH]; intros r'; cbn [findGlobbed];
      [discriminate|].
    destruct matches as [|specPath ?]; [apply IH|].
    destruct (validateOpenApiSpec d specPath); [|apply IH].
    intros [= <-]. by eexists. }
  destruct (findConventional d OPENAPI_SPEC_PATTERNS) as [r'|] eqn:Hc;
    cbn [fst].
  - intros [= <-]. by eapply Hconv.
  - apply Hglob.
Qed.

(** X13.  What [detect] returns is the unknown result, with confidence
    0, or a candidate whose confidence reaches the threshold: an OpenAPI
    document with confidence 100 and its file, a Python candidate with
    no file, Spring Boot or ASP.NET Core with a confidence of at most
    100.  The type of a Python candidate is FastAPI, Flask or, for Django
    REST framework, [undefined], the enum having no member for it.  The
    type [EXPRESS] is never returned, and no confidence lies strictly
    between 0 and the threshold. *)
Theorem detect_result_classes (d : Directory) :
  let r := fst (detect d) in
  r = createUnknownResult
  \/ (MIN_CONFIDENCE_THRESHOLD <= confidence r
      /\ ((type r = OPENAPI /\ confidence r = OPENAPI_SPEC
           /\ is_Some (specFile r))
          \/ (In (type r) [FASTAPI; FLASK; undefined]
              /\ specFile r = None /\ is_Some (estimatedEndpoints r))
          \/ (type r = SPRING_BOOT /\ confidence r <= 100
              /\ specFile r = None)
          \/ (type r = ASPNET_CORE /\ confidence r <= 100
              /\ specFile r = None))).
Proof.
  intros r. subst r.
  destruct (dir_exists d) eqn:Hd; [|unfold detect; rewrite Hd; by left].
  rewrite (detect_runs_all d Hd). change (fst (?a, ?b)) with a.
  destruct (selectBest_cases
              (collect [ fst (detectOpenApi d); fst (detectPython d);
                         fst (detectJava d); fst (detectDotNet d) ]))
    as [->|[Hin Hmin]]; [by left|].
  right. split; [exact Hmin|].
  apply list_elem_of_In, list_elem_of_omap in Hin as (o & Ho & Hy).
  unfold id in Hy. subst o.
  apply list_elem_of_In in Ho. cbn [In] in Ho.
  destruct Ho as [Ho|[Ho|[Ho|[Ho|[]]]]].
  - left. destruct (detectOpenApi_result _ _ Ho) as [-> ->].
    split; [reflexivity|]. split; [reflexivity|].
    by eapply detectOpenApi_specFile.
  - right; left. by eapply detectPython_type.
  - right; right; left.
    destruct (detectJava_type _ _ Ho) as [-> ->].
    apply detectJava_range in Ho. by repeat split; try lia.
  - right; right; right.
    destruct (detectDotNet_type _ _ Ho) as [-> ->].
    apply detectDotNet_range in Ho. by repeat split; try lia.
Qed.

End DetectorSelection.

(** ** When the strategies of the detector answer *)

Section DetectorStrategies.

Import Js ProjectDetector.

Open Scope Z_scope.

(** X14.  [detectPython] answers with the highest of the three framework
    scores when that score reaches the threshold, and the score is its
    confidence.  Among equal scores FastAPI comes before Flask, and Flask
    before Django REST framework, whose candidate bears the type
    [undefined]: the enum has no member for it. *)
Theorem detectPython_best (d : Directory) :
  let fa := detectFastApi d in
  let fl := detectFlask d in
  let dj := detectDjango d in
  let best := Z.max (score fa) (Z.max (score fl) (score dj)) in
  match fst (detectPython d) with
  | None =>
      (existsb (existsSync d) pythonIndicators = false /\ glob_py d = [])
      \/ best < MIN_CONFIDENCE_THRESHOLD
  | Some r =>
      confidence r = best
      /\ MIN_CONFIDENCE_THRESHOLD <= best
      /\ (type r = FASTAPI
          <-> score fl <= score fa /\ score dj <= score fa)
      /\ (type r = FLASK
          <-> score fa < score fl /\ score dj <= score fl)
      /\ (type r = undefined
          <-> score fa < score dj /\ score fl < score dj)
      /\ (estimatedEndpoints r = Some (endpointCount fa)
          \/ estimatedEndpoints r = Some (endpointCount fl)
          \/ estimatedEndpoints r = Some (endpointCount dj))
  end.
Proof.
  intros fa fl dj best. subst best.
  unfold detectPython, bind, announce, ret.
  fold fa fl dj. clearbody fa fl dj.
  destruct (negb _ && _) eqn:Hpy.
  - cbn [fst]. left. apply andb_prop in Hpy as [Hind Hlen].
    apply negb_true_iff in Hind. split; [assumption|].
    by destruct (glob_py d).
  - clear Hpy. unfold sort. cbn [fold_right sort_insert snd].
    unfold MIN_CONFIDENCE_THRESHOLD.
    destruct (Z.leb_spec (score dj - score fl) 0);
      cbn [sort_insert snd];
      destruct (Z.leb_spec (score fl - score fa) 0);
      cbn [sort_insert snd];
      try destruct (Z.leb_spec (score dj - score fa) 0);
      cbn [sort_insert snd fst];
      match goal with
      | |- context [30 <=? ?x] => destruct (Z.leb_spec 30 x)
      end;
      cbn [fst confidence type estimatedEndpoints];
      try (right; lia);
      (split; [lia|]); (split; [lia|]);
      (split; [split; [try discriminate; intros; lia
                      | try reflexivity; intros; lia]|]);
      (split; [split; [try discriminate; intros; lia
                      | try reflexivity; intros; lia]|]);
      (split; [split; [try discriminate; intros; lia
                      | try reflexivity; intros; lia]|]);
      tauto.
Qed.

(** The scan of the Java files adds to the score for each readable file
    with a controller annotation, and changes nothing otherwise. *)
Lemma fold_scanJava (files : list (File JavaSource)) (s : Score) :
  0 <= endpointCount s ->
  let s' := fold_left scanJava files s in
  0 <= endpointCount s'
  /\ (existsb (fun f => match file_source f with
                        | Some src => java_controller src
                        | None => false
                        end) files = false -> s' = s)
  /\ (existsb (fun f => match file_source f with
                        | Some src => java_controller src
                        | None => false
                        end) files = true -> score s + CODE_PATTERN <= score s').
Proof.
  assert (forall counts, 0 <= total counts) as Htotal.
  { intros counts. unfold total.
    enough (forall n, 0 <= n ->
              0 <= fold_left (fun n k => n + Z.of_nat k) counts n) as H
      by (apply H; lia).
    induction counts as [|k counts IH]; intros n Hn; cbn [fold_left];
      [assumption|]. apply IH. lia. }
  assert (forall l s0, 0 <= endpointCount s0 ->
            0 <= endpointCount (fold_left scanJava l s0)
            /\ score s0 <= score (fold_left scanJava l s0)) as Hmono.
  { intros l. induction l as [|f fs IH]; intros s0 Hs0; cbn [fold_left];
      [lia|].
    assert (0 <= endpointCount (scanJava s0 f)
            /\ score s0 <= score (scanJava s0 f)) as [Hc Hsc].
    { unfold scanJava. destruct (file_source f) as [src|]; [|lia].
      destruct (java_controller src); cbn [score endpointCount]; [|lia].
      specialize (Htotal (java_mappings src)). unfold CODE_PATTERN. lia. }
    destruct (IH _ Hc). lia. }
  revert s. induction files as [|f files IH]; intros s Hs; cbn [fold_left existsb].
  - split; [assumption|]. split; [reflexivity | discriminate].
  - unfold scanJava at 2 4 6.
    destruct (file_source f) as [src|]; [|by apply IH].
    destruct (java_controller src); [|by apply IH].
    cbn [orb].
    set (s1 := {| score := score s + CODE_PATTERN;
                  endpointCount := endpointCount s + total (java_mappings src) |}).
    assert (0 <= endpointCount s1) as Hs1
      by (cbn; specialize (Htotal (java_mappings src)); lia).
    destruct (Hmono files s1 Hs1) as [Hc Hsc].
    split; [assumption|]. split; [discriminate|]. intros _. exact Hsc.
Qed.

(** X15.  With a build file of Maven or Gradle, [detectJava] gives no
    answer exactly when nothing but the build file speaks for Spring
    Boot: the build file does not name it and no readable Java file
    holds a controller annotation.  Without build file it never
    answers. *)
Theorem detectJava_None_iff (d : Directory) :
  let hasMaven := existsSync d "pom.xml" in
  let hasGradle :=
    existsSync d "build.gradle" || existsSync d "build.gradle.kts" in
  fst (detectJava d) = None
  <-> (hasMaven = false /\ hasGradle = false)
      \/ ((hasMaven && pom_spring_boot d) = false
          /\ (hasGradle && gradle_spring_boot d) = false
          /\ existsb (fun f => match file_source f with
                               | Some src => java_controller src
                               | None => false
                               end) (glob_java d) = false).
Proof.
  intros hasMaven hasGradle.
  unfold detectJava, bind, announce, ret, scoreJava.
  fold hasMaven hasGradle.
  set (s0 := {| score := PROJECT_FILE
                         + when (hasMaven && pom_spring_boot d) FRAMEWORK_FILE
                         + when (hasGradle && gradle_spring_boot d) FRAMEWORK_FILE;
                endpointCount := 0 |}).
  destruct (fold_scanJava (glob_java d) s0 ltac:(cbn; lia))
    as (Hcount & Hnone & Hsome).
  set (s := fold_left scanJava (glob_java d) s0) in *.
  assert (0 <= endpointBonus 3 (endpointCount s)) as Hbonus.
  { unfold endpointBonus, MULTIPLE_ENDPOINTS.
    destruct (Z.ltb_spec 0 (endpointCount s)); lia. }
  assert (score s0 = 20 + when (hasMaven && pom_spring_boot d) 40
                     + when (hasGradle && gradle_spring_boot d) 40) as Hs0
    by reflexivity.
  destruct (existsb _ (glob_java d)) eqn:Hctrl.
  - specialize (Hsome eq_refl). unfold CODE_PATTERN in Hsome.
    destruct (negb hasMaven && negb hasGradle) eqn:Hbuild; cbn [fst].
    + apply andb_prop in Hbuild as [Hm Hg].
      apply negb_true_iff in Hm, Hg. split; [intros _; by left | done].
    + unfold addBonus, MIN_CONFIDENCE_THRESHOLD. cbn [score].
      destruct (Z.ltb_spec (score s + endpointBonus 3 (endpointCount s)) 30)
        as [Hlow|Hhigh].
      * exfalso. revert Hlow Hsome Hbonus. rewrite Hs0.
        unfold when. destruct (hasMaven && _), (hasGradle && _); lia.
      * split; [discriminate|].
        intros [[Hm Hg]|(_ & _ & Hno)]; [|discriminate].
        by rewrite Hm, Hg in Hbuild.
  - specialize (Hnone eq_refl).
    destruct (negb hasMaven && negb hasGradle) eqn:Hbuild; cbn [fst].
    + apply andb_prop in Hbuild as [Hm Hg].
      apply negb_true_iff in Hm, Hg. split; [intros _; by left | done].
    + unfold addBonus, MIN_CONFIDENCE_THRESHOLD. cbn [score].
      rewrite Hnone. unfold endpointBonus. cbn [endpointCount score s0].
      change (0 <? 0) with false. cbv iota.
      unfold PROJECT_FILE, FRAMEWORK_FILE, when.
      destruct (hasMaven && pom_spring_boot d),
        (hasGradle && gradle_spring_boot d); cbn.
      all: split; [try discriminate | ].
      all: try (intros _; right; by repeat split).
      all: intros [[Hm Hg]|(? & ? & _)]; try discriminate; try reflexivity.
      all: by rewrite Hm, Hg in Hbuild.
Qed.

Lemma fold_scanCs (files : list (File CsSource)) (s : Score) :
  0 <= endpointCount s ->
  let s' := fold_left scanCs files s in
  0 <= endpointCount s'
  /\ (existsb (fun f => match file_source f with
                        | Some src => cs_controller src
                        | None => false
                        end) files = false -> s' = s)
  /\ (existsb (fun f => match file_source f with
                        | Some src => cs_controller src
                        | None => false
                        end) files = true -> score s + CODE_PATTERN <= score s').
Proof.
  assert (forall counts, 0 <= total counts) as Htotal.
  { intros counts. unfold total.
    enough (forall n, 0 <= n ->
              0 <= fold_left (fun n k => n + Z.of_nat k) counts n) as H
      by (apply H; lia).
    induction counts as [|k counts IH]; intros n Hn; cbn [fold_left];
      [assumption|]. apply IH. lia. }
  assert (forall l s0, 0 <= endpointCount s0 ->
            0 <= endpointCount (fold_left scanCs l s0)
            /\ score s0 <= score (fold_left scanCs l s0)) as Hmono.
  { intros l. induction l as [|f fs IH]; intros s0 Hs0; cbn [fold_left];
      [lia|].
    assert (0 <= endpointCount (scanCs s0 f)
            /\ score s0 <= score (scanCs s0 f)) as [Hc Hsc].
    { unfold scanCs. destruct (file_source f) as [src|]; [|lia].
      destruct (cs_controller src); cbn [score endpointCount]; [|lia].
      specialize (Htotal (cs_http_attributes src)). unfold CODE_PATTERN. lia. }
    destruct (IH _ Hc). lia. }
  revert s. induction files as [|f files IH]; intros s Hs; cbn [fold_left existsb].
  - split; [assumption|]. split; [reflexivity | discriminate].
  - unfold scanCs at 2 4 6.
    destruct (file_source f) as [src|]; [|by apply IH].
    destruct (cs_controller src); [|by apply IH].
    cbn [orb].
    set (s1 := {| score := score s + CODE_PATTERN;
                  endpointCount :=
                    endpointCount s + total (cs_http_attributes src) |}).
    assert (0 <= endpointCount s1) as Hs1
      by (cbn; specialize (Htotal (cs_http_attributes src)); lia).
    destruct (Hmono files s1 Hs1) as [Hc Hsc].
    split; [assumption|]. split; [discriminate|]. intros _. exact Hsc.
Qed.

Lemma fold_scanCsproj (files : list (File bool)) (n : Z) :
  n <= fold_left scanCsproj files n
  /\ (existsb (fun f => bool_decide (file_source f = Some true)) files = false ->
      fold_left scanCsproj files n = n)
  /\ (existsb (fun f => bool_decide (file_source f = Some true)) files = true ->
      n + FRAMEWORK_FILE <= fold_left scanCsproj files n).
Proof.
  revert n. induction files as [|f files IH]; intros n; cbn [fold_left existsb].
  - split; [lia|]. split; [reflexivity | discriminate].
  - assert (scanCsproj n f
            = if bool_decide (file_source f = Some true)
              then n + FRAMEWORK_FILE else n) as ->.
    { unfold scanCsproj. by destruct (file_source f) as [[|]|]. }
    destruct (bool_decide (file_source f = Some true)); cbn [orb];
      [|apply IH].
    destruct (IH (n + FRAMEWORK_FILE)) as (Hle & _ & _).
    unfold FRAMEWORK_FILE in *.
    split; [lia|]. split; [discriminate | intros _; lia].
Qed.

(** X16.  With a project file, [detectDotNet] gives no answer exactly
    when no readable project file names the web SDK and no readable C#
    file holds a controller.  Without project file it never answers. *)
Theorem detectDotNet_None_iff (d : Directory) :
  fst (detectDotNet d) = None
  <-> glob_csproj d = []
      \/ (existsb (fun f => bool_decide (file_source f = Some true))
            (glob_csproj d) = false
          /\ existsb (fun f => match file_source f with
                               | Some src => cs_controller src
                               | None => false
                               end) (glob_cs d) = false).
Proof.
  unfold detectDotNet, bind, announce, ret, scoreDotNet.
  set (n0 := fold_left scanCsproj (glob_csproj d) PROJECT_FILE).
  destruct (fold_scanCsproj (glob_csproj d) PROJECT_FILE)
    as (Hn0 & Hnoweb & Hweb). fold n0 in Hn0, Hnoweb, Hweb.
  set (s0 := {| score := n0; endpointCount := 0 |}).
  destruct (fold_scanCs (glob_cs d) s0 ltac:(cbn; lia))
    as (Hcount & Hnone & Hsome).
  set (s := fold_left scanCs (glob_cs d) s0) in *.
  assert (0 <= endpointBonus 3 (endpointCount s)) as Hbonus.
  { unfold endpointBonus, MULTIPLE_ENDPOINTS.
    destruct (Z.ltb_spec 0 (endpointCount s)); lia. }
  destruct (glob_csproj d) as [|f files] eqn:Hproj; cbn [length Nat.eqb fst].
  - split; [intros _; by left | done].
  - rewrite <- Hproj in *.
    unfold addBonus, MIN_CONFIDENCE_THRESHOLD. cbn [score].
    unfold PROJECT_FILE, FRAMEWORK_FILE, CODE_PATTERN in *.
    destruct (existsb _ (glob_cs d)) eqn:Hctrl.
    + specialize (Hsome eq_refl). cbn [score s0] in Hsome.
      destruct (Z.ltb_spec (score s + endpointBonus 3 (endpointCount s)) 30);
        [lia|].
      split; [discriminate|].
      intros [Hnil|[_ Hno]]; [congruence | discriminate].
    + specialize (Hnone eq_refl). rewrite Hnone.
      unfold endpointBonus. cbn [endpointCount score s0].
      change (0 <? 0) with false. cbv iota.
      destruct (existsb _ (glob_csproj d)) eqn:Hsdk.
      * specialize (Hweb eq_refl).
        destruct (Z.ltb_spec (n0 + 0) 30); [lia|].
        split; [discriminate|].
        intros [Hnil|[Hno _]]; [congruence | discriminate].
      * specialize (Hnoweb eq_refl). rewrite Hnoweb.
        split; [intros _; right; by split | reflexivity].
Qed.

End DetectorStrategies.

(** ** From the detection to the extractor *)

Section ChooseExtractor.

Import ProjectDetector Orchestrator.

(** The type of what [detect] returns, and whether it names a
    specification file. *)
Lemma detect_type_specFile (d : Directory) :
  let r := fst (detect d) in
  r = createUnknownResult
  \/ (type r = OPENAPI /\ is_Some (specFile r))
  \/ (In (type r) [FASTAPI; FLASK; undefined; SPRING_BOOT; ASPNET_CORE]
      /\ specFile r = None).
Proof.
  intros r. subst r.
  destruct (dir_exists d) eqn:Hd; [|unfold detect; rewrite Hd; by left].
  rewrite (detect_runs_all d Hd). change (fst (?a, ?b)) with a.
  destruct (selectBest_cases
              (collect [ fst (detectOpenApi d); fst (detectPython d);
                         fst (detectJava d); fst (detectDotNet d) ]))
    as [->|[Hin _]]; [by left|].
  right.
  apply list_elem_of_In, list_elem_of_omap in Hin as (o & Ho & Hy).
  unfold id in Hy. subst o.
  apply list_elem_of_In in Ho. cbn [In] in Ho.
  destruct Ho as [Ho|[Ho|[Ho|[Ho|[]]]]].
  - left. destruct (detectOpenApi_result _ _ Ho) as [-> _].
    split; [reflexivity|]. by eapply detectOpenApi_specFile.
  - right. destruct (detectPython_type _ _ Ho) as (Ht & -> & _).
    split; [|reflexivity]. cbn [In] in Ht |- *. tauto.
  - right. destruct (detectJava_type _ _ Ho) as [-> ->].
    split; [|reflexivity]. cbn [In]. tauto.
  - right. destruct (detectDotNet_type _ _ Ho) as [-> ->].
    split; [|reflexivity]. cbn [In]. tauto.
Qed.

(** X17.  When the framework is left to the detector, [handleGenerate]
    exits on the unknown result, calls the extractor of the detected type
    on the detected spec file (there is one exactly for the OpenAPI
    extractor), and fails in [selectExtractor] exactly when the type of
    the detected candidate is [undefined], which is the type that the
    detector gives to a Django REST framework project. *)
Theorem chooseExtractor_detected (framework : option string)
    (source : string) (d : Directory) :
  framework = None \/ framework = Some "" \/ framework = Some "auto" ->
  let r := fst (detect d) in
  match chooseExtractor framework source d with
  | Exits => r = createUnknownResult
  | Throws => type r = undefined
  | Extracts extractor spec =>
      selectExtractor (type r) = Some extractor
      /\ spec = specFile r
      /\ (extractor = OpenApi <-> is_Some spec)
  end.
Proof.
  intros Hauto r.
  assert (chooseExtractor framework source d
          = if bool_decide (type r = UNKNOWN) then Exits
            else match selectExtractor (type r) with
                 | Some extractor => Extracts extractor (specFile r)
                 | None => Throws
                 end) as ->
    by (destruct Hauto as [->|[->| ->]]; reflexivity).
  pose proof (detect_type_specFile d) as Hclasses. cbv zeta in Hclasses.
  fold r in Hclasses.
  destruct Hclasses as [Hr|[(Ht & Hspec)|(Ht & Hspec)]]; [by rewrite Hr| |].
  - rewrite Ht. cbn. split; [reflexivity|]. split; [reflexivity|]. done.
  - cbn [In] in Ht.
    destruct Ht as [Ht|[Ht|[Ht|[Ht|[Ht|[]]]]]]; rewrite <- Ht; cbn;
      try reflexivity.
    all: split; [reflexivity|]; split; [reflexivity|]; rewrite Hspec.
    all: split; [discriminate | by intros [? ?]].
Qed.

Lemma chooseExtractor_detected_witness :
  let r := fst (detect Samples.djangoProject) in
  match chooseExtractor (Some "auto") "auto" Samples.djangoProject with
  | Exits => r = createUnknownResult
  | Throws => type r = undefined
  | Extracts extractor spec =>
      selectExtractor (type r) = Some extractor
      /\ spec = specFile r
      /\ (extractor = OpenApi <-> is_Some spec)
  end.
Proof.
  apply chooseExtractor_detected. right; right; reflexivity.
Defined.

(** A Django project is detected as such, and [handleGenerate] fails on
    it. *)
Lemma chooseExtractor_django_project :
  type (fst (detect Samples.djangoProject)) = undefined
  /\ confidence (fst (detect Samples.djangoProject)) = 138%Z
  /\ chooseExtractor (Some "auto") "auto" Samples.djangoProject = Throws.
Proof. by vm_compute. Qed.

(** The strings that the cast takes to a member of [ProjectType]. *)
Lemma asProjectType_cases (f : string) :
  (f = "openapi" /\ asProjectType f = Some OPENAPI)
  \/ (f = "fastapi" /\ asProjectType f = Some FASTAPI)
  \/ (f = "flask" /\ asProjectType f = Some FLASK)
  \/ (f = "spring-boot" /\ asProjectType f = Some SPRING_BOOT)
  \/ (f = "aspnet-core" /\ asProjectType f = Some ASPNET_CORE)
  \/ (f = "express" /\ asProjectType f = Some EXPRESS)
  \/ (f = "unknown" /\ asProjectType f = Some UNKNOWN)
  \/ (asProjectType f = None
      /\ ~ In f ["openapi"; "fastapi"; "flask"; "spring-boot"; "aspnet-core";
                 "express"; "unknown"]).
Proof.
  unfold asProjectType.
  destruct (String.eqb_spec f "openapi") as [->|?]; [by left|].
  destruct (String.eqb_spec f "fastapi") as [->|?]; [by right; left|].
  destruct (String.eqb_spec f "flask") as [->|?]; [by do 2 right; left|].
  destruct (String.eqb_spec f "spring-boot") as [->|?];
    [by do 3 right; left|].
  destruct (String.eqb_spec f "aspnet-core") as [->|?];
    [by do 4 right; left|].
  destruct (String.eqb_spec f "express") as [->|?]; [by do 5 right; left|].
  destruct (String.eqb_spec f "unknown") as [->|?]; [by do 6 right; left|].
  do 7 right. split; [reflexivity|]. cbn [In]. intuition congruence.
Qed.

(** X18.  A framework given by hand is not checked against the
    directory, and [selectExtractor] accepts it exactly when it is the
    value of one of the five members of [ProjectType] that the [switch]
    names.  Of the values that the help of the option names, [spring] and
    [aspnet] are rejected. *)
Theorem chooseExtractor_by_hand (f source : string) (d : Directory) :
  f <> "" -> f <> "auto" ->
  (chooseExtractor (Some f) source d <> Throws
   <-> In f ["openapi"; "fastapi"; "flask"; "spring-boot"; "aspnet-core"])
  /\ chooseExtractor (Some f) source d <> Exits
  /\ (forall d', chooseExtractor (Some f) source d'
                 = chooseExtractor (Some f) source d)
  /\ (In f frameworkOptionValues ->
      (chooseExtractor (Some f) source d = Throws
       <-> f = "spring" \/ f = "aspnet")).
Proof.
  intros Hempty Hauto.
  assert (forall d',
            chooseExtractor (Some f) source d'
            = match asProjectType f ≫= selectExtractor with
              | Some extractor =>
                  Extracts extractor
                    (if bool_decide (asProjectType f = Some OPENAPI)
                        && negb (String.eqb source "auto")
                     then Some source else None)
              | None => Throws
              end) as Hchoice.
  { intros d'. unfold chooseExtractor.
    destruct (String.eqb_spec f "") as [|_]; [congruence|].
    by destruct (String.eqb_spec f "auto") as [|_]; [congruence|]. }
  rewrite Hchoice.
  split; [|split; [|split; [intros d'; by rewrite Hchoice|]]].
  - destruct (asProjectType_cases f)
      as [[-> ->]|[[-> ->]|[[-> ->]|[[-> ->]|[[-> ->]|[[-> ->]|[[-> ->]
         |[-> Hother]]]]]]]]; cbn [mbind option_bind selectExtractor In].
    1-5: split; [intros _; tauto | discriminate].
    1-2: split; [congruence|];
      intros H; exfalso;
      repeat (destruct H as [H|H]; [by apply String.eqb_eq in H|]);
      destruct H.
    split; [congruence|]. intros H. exfalso. apply Hother.
    cbn [In] in *. tauto.
  - by destruct (asProjectType f ≫= selectExtractor).
  - unfold frameworkOptionValues. cbn [In]. intros Hin.
    destruct (asProjectType_cases f)
      as [[-> ->]|[[-> ->]|[[-> ->]|[[-> ->]|[[-> ->]|[[-> ->]|[[-> ->]
         |[-> Hother]]]]]]]]; cbn [mbind option_bind selectExtractor].
    1-5: split; [discriminate|];
      intros H; exfalso;
      repeat (destruct H as [H|H]; [by apply String.eqb_eq in H|]);
      by apply String.eqb_eq in H.
    1-2: exfalso;
      repeat (destruct Hin as [Hin|Hin]; [by apply String.eqb_eq in Hin|]);
      destruct Hin.
    split; [intros _|reflexivity].
    cbn [In] in Hother.
    destruct Hin as [Hin|[Hin|[Hin|[Hin|[Hin|[Hin|[]]]]]]];
      first [ congruence
            | exfalso; apply Hother; tauto
            | symmetry in Hin; tauto ].
Qed.

Lemma chooseExtractor_by_hand_witness :
  chooseExtractor (Some "spring") "auto" Samples.mavenProject = Throws
  <-> "spring" = "spring" \/ "spring" = "aspnet".
Proof.
  destruct (chooseExtractor_by_hand "spring" "auto" Samples.mavenProject)
    as (_ & _ & _ & H); [discriminate | discriminate |].
  apply H. vm_compute. tauto.
Defined.

End ChooseExtractor.

(** ** The parameter text of a FastAPI handler *)

Section SplitParams.

Import Js FastApiExtractor.

Lemma append_nil_r (s : string) : s ++ "" = s.
Proof.
  induction s as [|c s IH]; [reflexivity|].
  change (String c (s ++ "") = String c s). by rewrite IH.
Qed.

Lemma join_snoc (sep : string) (l : list string) (x : string) :
  join sep (l ++ [x])
  = match l with
    | [] => x
    | _ => join sep l ++ sep ++ x
    end.
Proof.
  induction l as [|y l IH]; [reflexivity|].
  destruct l as [|z l]; [reflexivity|].
  change (join sep ((y :: z :: l) ++ [x]))
    with (y ++ sep ++ join sep ((z :: l) ++ [x])).
  rewrite IH.
  change (join sep (y :: z :: l)) with (y ++ sep ++ join sep (z :: l)).
  by rewrite !append_assoc.
Qed.

Lemma join_snoc_append (sep : string) (l : list string) (x y : string) :
  join sep (l ++ [x ++ y]) = join sep (l ++ [x]) ++ y.
Proof.
  rewrite !join_snoc. destruct l; [reflexivity|]. by rewrite !append_assoc.
Qed.

(** The text read so far is kept in the parts and the current part. *)
Lemma splitParams_from_join (str : string) (result : list string)
    (current : string) (depth : Z) :
  let parts := splitParams_from result current depth str in
  join "," parts = join "," (result ++ [current]) ++ str
  \/ join "," parts ++ "," = join "," (result ++ [current]) ++ str.
Proof.
  revert result current depth.
  induction str as [|char rest IH]; intros result current depth parts;
    subst parts; cbn [splitParams_from].
  - rewrite append_nil_r.
    destruct (String.eqb_spec current "") as [->|Hne]; cbn [negb].
    + rewrite join_snoc. destruct result; [by left | right].
      by rewrite append_nil_r.
    + by left.
  - assert (forall l c,
              join "," (l ++ [c ++ String char ""]) ++ rest
              = join "," (l ++ [c]) ++ String char rest) as Hpush.
    { intros l c. by rewrite join_snoc_append, append_assoc. }
    destruct (isOpening char); [rewrite <- Hpush; apply IH|].
    destruct (isClosing char); [rewrite <- Hpush; apply IH|].
    destruct (Ascii.eqb_spec char ",") as [->|Hchar]; cbn [andb].
    + destruct (depth =? 0)%Z.
      * replace (join "," (result ++ [current]) ++ String "," rest)
          with (join "," ((result ++ [current]) ++ [""]) ++ rest);
          [apply IH|].
        rewrite (join_snoc "," (result ++ [current])).
        destruct (result ++ [current])%list eqn:Hl;
          [by destruct result|].
        by rewrite append_nil_r, append_assoc.
      * rewrite <- Hpush. apply IH.
    + rewrite <- Hpush. apply IH.
Qed.

(** X19.  [splitParams] loses no text: joined with commas, the parts
    give the text back, but for one comma at its end when the text ends
    with a comma outside brackets. *)
Theorem splitParams_join (str : string) :
  join "," (splitParams str) = str
  \/ join "," (splitParams str) ++ "," = str.
Proof. apply (splitParams_from_join str [] "" 0). Qed.

(** A text without comma outside brackets is added to the current
    part. *)
Lemma splitParams_from_part (p : string) (result : list string)
    (current : string) (depth d' : Z) (rest : string) :
  depthAfter depth p = Some d' ->
  splitParams_from result current depth (p ++ rest)
  = splitParams_from result (current ++ p) d' rest.
Proof.
  revert current depth. induction p as [|char p IH]; intros current depth.
  - intros [= <-]. by rewrite append_nil_r.
  - change (String char p ++ rest) with (String char (p ++ rest)).
    cbn [depthAfter splitParams_from].
    replace (current ++ String char p) with ((current ++ String char "") ++ p)
      by (by rewrite append_assoc).
    destruct (isOpening char); [apply IH|].
    destruct (isClosing char); [apply IH|].
    destruct (Ascii.eqb char "," && (depth =? 0)%Z); [discriminate | apply IH].
Qed.

Lemma splitParams_from_parts (parts result : list string) :
  Forall (fun p => depthAfter 0 p = Some 0%Z) parts ->
  last parts <> Some "" ->
  splitParams_from result "" 0 (join "," parts) = (result ++ parts)%list.
Proof.
  revert result. induction parts as [|p parts IH]; intros result Hparts Hlast.
  - cbn. by rewrite app_nil_r.
  - apply Forall_cons in Hparts as [Hp Hparts].
    destruct parts as [|q parts].
    + cbn [join].
      replace (splitParams_from result "" 0 p)
        with (splitParams_from result "" 0 (p ++ ""))
        by (by rewrite append_nil_r).
      rewrite (splitParams_from_part p _ _ _ _ _ Hp). cbn [splitParams_from].
      change ("" ++ p) with p.
      destruct (String.eqb_spec p "") as [->|_]; [by destruct Hlast|].
      reflexivity.
    + change (join "," (p :: q :: parts)) with (p ++ "," ++ join "," (q :: parts)).
      rewrite (splitParams_from_part p _ _ _ _ _ Hp).
      change ("" ++ p) with p.
      change ("," ++ join "," (q :: parts))
        with (String "," (join "," (q :: parts))).
      cbn [splitParams_from isOpening isClosing].
      change (Ascii.eqb "," "(" || Ascii.eqb "," "[" || Ascii.eqb "," "{")
        with false.
      change (Ascii.eqb "," ")" || Ascii.eqb "," "]" || Ascii.eqb "," "}")
        with false.
      change (Ascii.eqb "," "," && (0 =? 0)%Z) with true. cbv iota.
      rewrite IH; [by rewrite <- app_assoc | assumption | exact Hlast].
Qed.

(** X20.  Parts that hold no comma outside brackets and close the
    brackets they open are found again when the text joined with commas
    is split, provided the last part is not empty: a comma between
    brackets does not split. *)
Theorem splitParams_of_join (parts : list string) :
  Forall (fun p => depthAfter 0 p = Some 0%Z) parts ->
  last parts <> Some "" ->
  splitParams (join "," parts) = parts.
Proof. apply (splitParams_from_parts parts []). Qed.

Lemma splitParams_of_join_witness :
  splitParams
    (join "," ["item_id: int"; " tags: Dict[str, int] = {}"; " q: str = None"])
  = ["item_id: int"; " tags: Dict[str, int] = {}"; " q: str = None"].
Proof.
  apply splitParams_of_join.
  - repeat constructor.
  - discriminate.
Defined.

(** After a closing bracket that nothing opens no comma splits. *)
Lemma splitParams_unopened_bracket :
  splitParams "a), b, c" = ["a), b, c"].
Proof. reflexivity. Qed.

End SplitParams.

(** ** Types and parameters of a FastAPI route *)

Section FastApiRoutes.

Import Js BaseExtractor FastApiExtractor.

Lemma trimEnd_bracket (u v : string) :
  trimEnd (u ++ String "[" v) = u ++ String "[" (trimEnd v).
Proof.
  induction u as [|c u IH].
  - change ("" ++ String "[" v) with (String "[" v). cbn [trimEnd].
    change (isStrWhiteSpace "[") with false. reflexivity.
  - change (String c u ++ String "[" v) with (String c (u ++ String "[" v)).
    cbn [trimEnd]. rewrite IH.
    destruct u; cbn; by rewrite andb_false_r.
Qed.

Lemma trimStart_app (u v : string) :
  u <> "" -> trimStart u = u -> trimStart (u ++ v) = u ++ v.
Proof.
  destruct u as [|c u]; [done|]. intros _.
  change (String c u ++ v) with (String c (u ++ v)). cbn [trimStart].
  destruct (isStrWhiteSpace c); [|reflexivity].
  intros Hu. exfalso.
  assert (forall s, String.length (trimStart s) <= String.length s) as Hlen.
  { induction s as [|a s IH]; cbn [trimStart]; [lia|].
    destruct (isStrWhiteSpace a); simpl; lia. }
  specialize (Hlen u). rewrite Hu in Hlen. simpl in Hlen. lia.
Qed.

Lemma beforeFirst_app (sep : ascii) (u v : string) :
  includes u (String sep "") = false ->
  beforeFirst sep (u ++ String sep v) = u.
Proof.
  induction u as [|c u IH].
  - intros _. change ("" ++ String sep v) with (String sep v).
    cbn [beforeFirst]. by rewrite Ascii.eqb_refl.
  - rewrite includes_char_cons. intros [Hc Hu]%orb_false_elim.
    change (String c u ++ String sep v) with (String c (u ++ String sep v)).
    cbn [beforeFirst]. rewrite Ascii.eqb_sym, Hc. by rewrite IH.
Qed.

(** X21.  The type arguments of a generic type hint play no part in the
    schema type: only the name before the first opening bracket is
    looked up, so that [Optional[int]] is a string like [Optional]. *)
Theorem pythonTypeToSchemaType_generic (base args : string) :
  trimStart base = base ->
  includes base "[" = false ->
  pythonTypeToSchemaType (base ++ "[" ++ args)
  = lookupOr TYPE_PATTERNS base STRING.
Proof.
  intros Hstart Hno. unfold pythonTypeToSchemaType, trim.
  change ("[" ++ args) with (String "[" args).
  assert (trimStart (base ++ String "[" args) = base ++ String "[" args)
    as ->.
  { destruct base as [|c base]; [reflexivity|]. by apply trimStart_app. }
  by rewrite trimEnd_bracket, beforeFirst_app.
Qed.

Lemma pythonTypeToSchemaType_generic_witness :
  pythonTypeToSchemaType ("Optional" ++ "[" ++ "int]")
  = lookupOr TYPE_PATTERNS "Optional" STRING.
Proof.
  apply pythonTypeToSchemaType_generic; reflexivity.
Defined.

Lemma pythonTypeToSchemaType_optional_int :
  pythonTypeToSchemaType "Optional[int]" = Typed STRING
  /\ pythonTypeToSchemaType "int" = Typed INTEGER
  /\ pythonTypeToSchemaType "List[int]" = Typed ARRAY.
Proof. by vm_compute. Qed.

Variable models : gmap string ExtractedModel.
Variable routers : gmap string RouterInfo.
Variable parseFunctionParams : string -> list FuncParam.

(** X22.  The parameters of a FastAPI endpoint are path and query
    parameters only.  A query parameter comes from a parameter of the
    handler that bears the name of no placeholder, is none of [request],
    [db] and [session], and whose type is no model; it is required
    exactly when the handler gives it no default.  There is a request
    body exactly when the method is POST, PUT or PATCH and some parameter
    of the handler has a model for type; the responses are always 200 and
    422. *)
Theorem routeToEndpoint_parameters (route : ExtractedRoute) :
  let e := routeToEndpoint models routers parseFunctionParams route in
  let placeholders := extractPathParams (fullPathOf routers route) in
  let funcParams := parseFunctionParams (functionParams route) in
  (forall p, In p (parameters e) ->
     (param_in p = Typed PATH /\ In (param_name p) placeholders
      /\ param_required p = true)
     \/ (param_in p = Typed QUERY
         /\ ~ In (param_name p) placeholders
         /\ ~ In (param_name p) ["request"; "db"; "session"]
         /\ exists fp, In fp funcParams
                       /\ fp_name fp = param_name p
                       /\ models !! fp_type fp = None
                       /\ param_required p = negb (hasDefault fp)))
  /\ (is_Some (requestBody e)
      <-> bodyMethod (method e) = true
          /\ exists fp, In fp funcParams /\ is_Some (models !! fp_type fp))
  /\ map statusCode (responses e) = [200; 422]%Z.
Proof.
  intros e placeholders funcParams. subst e.
  unfold routeToEndpoint. fold placeholders funcParams.
  cbn [parameters requestBody method responses].
  split; [|split; [|reflexivity]].
  - intros p [Hp|Hp]%in_app_or.
    + left. unfold pathParameters in Hp.
      apply in_map_iff in Hp as (name & <- & Hname). by repeat split.
    + right. unfold queryParameters in Hp.
      apply in_flat_map in Hp as (fp & Hfp & Hp).
      destruct (existsb (String.eqb (fp_name fp)) placeholders) eqn:Hph;
        [destruct Hp|].
      destruct (String.eqb_spec (fp_name fp) "request") as [|Hreq];
        [destruct Hp|].
      destruct (String.eqb_spec (fp_name fp) "db") as [|Hdb];
        [destruct Hp|].
      destruct (String.eqb_spec (fp_name fp) "session") as [|Hsession];
        [destruct Hp|].
      cbn [orb] in Hp. case_bool_decide as Hmodel; [destruct Hp|].
      destruct Hp as [<-|[]]. cbn [param_in param_name param_required].
      split; [reflexivity|]. split; [|split].
      * intros Hin.
        assert (existsb (String.eqb (fp_name fp)) placeholders = true)
          as Htrue; [|congruence].
        apply existsb_exists. exists (fp_name fp).
        split; [assumption | apply String.eqb_refl].
      * cbn [In]. intuition congruence.
      * exists fp. repeat split; try assumption.
        destruct (models !! fp_type fp) eqn:Hm; [|reflexivity].
        exfalso. apply Hmodel. by eexists.
  - destruct (find _ funcParams) as [bp|] eqn:Hfind.
    + apply find_some in Hfind as [Hin Hmodel].
      apply bool_decide_eq_true in Hmodel.
      destruct (bodyMethod (route_method route)).
      * split; [|by eauto]. intros _. split; [reflexivity|]. by exists bp.
      * split; [by intros [? ?] | by intros [? _]].
    + split; [by intros [? ?]|].
      intros [_ (fp & Hin & Hmodel)]. exfalso.
      pose proof (find_none _ _ Hfind fp Hin) as Hno. cbv beta in Hno.
      by apply bool_decide_eq_false in Hno.
Qed.

End FastApiRoutes.

(** ** The endpoints of a registered ViewSet *)

Section ViewSetEndpoints.

Import Js BaseExtractor DjangoRestExtractor.

Lemma includes_char_app (d : ascii) (s t : string) :
  includes (s ++ t) (String d "")
  = includes s (String d "") || includes t (String d "").
Proof.
  induction s as [|c s IH]; [reflexivity|].
  change (String c s ++ t) with (String c (s ++ t)).
  rewrite !includes_char_cons, IH. by rewrite orb_assoc.
Qed.

(** [generateViewSetRoutes] yields six routes for each registered
    ViewSet whose class was found, and none for the others. *)
Lemma generateViewSetRoutes_length (st : State) :
  length (generateViewSetRoutes st)
  = 6 * length
          (List.filter (fun reg => bool_decide (is_Some (viewSets st !! fst reg)))
             (routerRegistrations st)).
Proof.
  unfold generateViewSetRoutes.
  induction (routerRegistrations st) as [|[name urlPrefix] regs IH];
    [reflexivity|].
  cbn [flat_map List.filter fst]. rewrite length_app, IH.
  rewrite registrationRoutes_crud.
  destruct (viewSets st !! name) as [info|].
  - rewrite bool_decide_eq_true_2 by (by eexists). cbn [length crudRoutes map].
    lia.
  - rewrite bool_decide_eq_false_2 by (by intros [? ?]). simpl. lia.
Qed.

(** X24.  The six endpoints of a registered ViewSet whose class was
    found, when the URL prefix holds no opening brace: the two on the
    collection path have no parameter, the four on the path of one
    element have the one path parameter [id], an integer; POST, PUT and
    PATCH have a request body; POST answers 201 and the others 200.  The
    operation id is made of the ViewSet name and the method, so the two
    GET endpoints bear the same one. *)
Theorem viewSet_endpoints (files : list ScannedFile) (name urlPrefix : string)
    (info : ViewSetInfo) :
  let st := firstPass files in
  In (name, urlPrefix) (routerRegistrations st) ->
  viewSets st !! name = Some info ->
  includes urlPrefix "{" = false ->
  let collection := normalizePath ("/api/" ++ urlPrefix) in
  let element := normalizePath ("/api/" ++ urlPrefix ++ "/{id}") in
  let id := {| param_name := "id";
               param_in := Typed PATH;
               param_required := true;
               param_schema := {| schema_type := Typed INTEGER |} |} in
  map (fun e => (method e, path e, parameters e,
                 bool_decide (is_Some (requestBody e)),
                 map statusCode (responses e), operationId e))
    (map routeToEndpoint (routesOf name (generateViewSetRoutes st)))
  = [ (GET, collection, [], false, [200%Z], Some (name ++ "_get"));
      (POST, collection, [], true, [201%Z], Some (name ++ "_post"));
      (GET, element, [id], false, [200%Z], Some (name ++ "_get"));
      (PUT, element, [id], true, [200%Z], Some (name ++ "_put"));
      (PATCH, element, [id], true, [200%Z], Some (name ++ "_patch"));
      (DELETE, element, [id], false, [200%Z], Some (name ++ "_delete")) ].
Proof.
  intros st Hin Hinfo Hprefix collection element id.
  pose proof (firstPass_registrations_NoDup files) as Hnd. fold st in Hnd.
  assert (routesOf name (generateViewSetRoutes st)
          = crudRoutes name urlPrefix (vs_filePath info)) as ->.
  { clearbody st. destruct st as [vs regs].
    rewrite (routesOf_registration vs regs name urlPrefix Hnd Hin).
    cbn [viewSets] in Hinfo. by rewrite Hinfo. }
  assert (extractPathParams ("/api/" ++ urlPrefix) = []) as Hcollection.
  { apply extractPathParams_no_brace.
    by rewrite includes_char_app, Hprefix. }
  assert (extractPathParams ("/api/" ++ urlPrefix ++ "/{id}") = ["id"])
    as Helement.
  { replace ("/api/" ++ urlPrefix ++ "/{id}")
      with (("/api/" ++ urlPrefix ++ "/") ++ "{" ++ "id" ++ "}" ++ "")
      by (by rewrite !append_assoc).
    rewrite extractPathParams_app_no_brace
      by (by rewrite !includes_char_app, Hprefix).
    by vm_compute. }
  unfold crudRoutes, routeToEndpoint.
  cbn [map route_method route_path viewName method path parameters
       requestBody responses operationId bodyMethod].
  rewrite Hcollection, Helement. cbn [map].
  reflexivity.
Qed.

Lemma viewSet_endpoints_witness :
  map (fun e => (method e, path e, map param_name (parameters e)))
    (map routeToEndpoint
       (routesOf "UserViewSet"
          (generateViewSetRoutes
             (firstPass [Samples.viewsFile; Samples.urlsFile]))))
  = [ (GET, "/api/users", []); (POST, "/api/users", []);
      (GET, "/api/users/{id}", ["id"]); (PUT, "/api/users/{id}", ["id"]);
      (PATCH, "/api/users/{id}", ["id"]); (DELETE, "/api/users/{id}", ["id"]) ].
Proof.
  pose proof (viewSet_endpoints [Samples.viewsFile; Samples.urlsFile]
                "UserViewSet" "users"
                {| vs_name := "UserViewSet"; vs_basePath := None;
                   vs_filePath := "api/views.py" |}) as H.
  cbv zeta in H.
  apply (f_equal (map (fun '(m, p, ps, _, _, _) => (m, p, map param_name ps))))
    in H.
  - rewrite map_map in H. exact H.
  - vm_compute. by left.
  - by vm_compute.
  - by vm_compute.
Defined.

End ViewSetEndpoints.

(** ** The paths of Django URL patterns *)

Section UrlPatterns.

Import Js BaseExtractor DjangoRestExtractor.

Lemma replaceTypedConverters_cons (c : ascii) (rest : string) :
  replaceTypedConverters (String c rest) =
    if Ascii.eqb c "<"
    then match typedConverter rest with
         | Some (_, name, after) =>
             "{" ++ name ++ "}" ++ replaceTypedConverters after
         | None => String c (replaceTypedConverters rest)
         end
    else String c (replaceTypedConverters rest).
Proof.
  simp replaceTypedConverters.
  destruct (Ascii.eqb c "<"); cbn; [|reflexivity].
  destruct (typedConverter rest) as [[[conv name] after]|]; reflexivity.
Qed.

Lemma replacePlainConverters_cons (c : ascii) (rest : string) :
  replacePlainConverters (String c rest) =
    if Ascii.eqb c "<"
    then match plainConverter rest with
         | Some (name, after) =>
             "{" ++ name ++ "}" ++ replacePlainConverters after
         | None => String c (replacePlainConverters rest)
         end
    else String c (replacePlainConverters rest).
Proof.
  simp replacePlainConverters.
  destruct (Ascii.eqb c "<"); cbn; [|reflexivity].
  destruct (plainConverter rest) as [[name after]|]; reflexivity.
Qed.

(** A word followed by a code unit that is no word character is the run
    of word characters at the start. *)
Lemma wordRun_app (w : string) (c : ascii) (r : string) :
  allWordChars w = true -> isWordChar c = false ->
  wordRun (w ++ String c r) = (w, String c r).
Proof.
  intros Hw Hc. induction w as [|a w IH].
  - change ("" ++ String c r) with (String c r). cbn [wordRun]. by rewrite Hc.
  - cbn [allWordChars] in Hw. apply andb_prop in Hw as [Ha Hw].
    change (String a w ++ String c r) with (String a (w ++ String c r)).
    cbn [wordRun]. by rewrite Ha, (IH Hw).
Qed.

Lemma allWordChars_no (w : string) (c : ascii) :
  allWordChars w = true -> isWordChar c = false ->
  includes w (String c "") = false.
Proof.
  intros Hw Hc. induction w as [|a w IH]; [reflexivity|].
  cbn [allWordChars] in Hw. apply andb_prop in Hw as [Ha Hw].
  rewrite includes_char_cons, (IH Hw), orb_false_r.
  destruct (Ascii.eqb_spec c a) as [->|]; [congruence | reflexivity].
Qed.

Lemma typedConverter_match (converter name after : string) :
  allWordChars converter = true -> converter <> "" ->
  allWordChars name = true -> name <> "" ->
  typedConverter (converter ++ ":" ++ name ++ ">" ++ after)
  = Some (converter, name, after).
Proof.
  intros Hconv Hconv' Hname Hname'. unfold typedConverter.
  change (":" ++ name ++ ">" ++ after) with (String ":" (name ++ ">" ++ after)).
  rewrite (wordRun_app converter) by done.
  destruct (String.eqb_spec converter ""); [done|].
  change (">" ++ after) with (String ">" after).
  rewrite (wordRun_app name) by done.
  by destruct (String.eqb_spec name "").
Qed.

Lemma typedConverter_plain (name after : string) :
  allWordChars name = true ->
  typedConverter (name ++ ">" ++ after) = None.
Proof.
  intros Hname. unfold typedConverter.
  change (">" ++ after) with (String ">" after).
  rewrite (wordRun_app name) by done.
  by destruct (String.eqb name "").
Qed.

Lemma plainConverter_match (name after : string) :
  allWordChars name = true -> name <> "" ->
  plainConverter (name ++ ">" ++ after) = Some (name, after).
Proof.
  intros Hname Hname'. unfold plainConverter.
  change (">" ++ after) with (String ">" after).
  rewrite (wordRun_app name) by done.
  by destruct (String.eqb_spec name "").
Qed.

(** A text without opening angle bracket is kept as it is. *)
Lemma replaceTypedConverters_app (lit s : string) :
  includes lit "<" = false ->
  replaceTypedConverters (lit ++ s) = lit ++ replaceTypedConverters s.
Proof.
  induction lit as [|c lit IH]; [reflexivity|].
  rewrite includes_char_cons. intros [Hc Hlit]%orb_false_elim.
  change (String c lit ++ s) with (String c (lit ++ s)).
  rewrite replaceTypedConverters_cons, Ascii.eqb_sym, Hc, (IH Hlit).
  reflexivity.
Qed.

Lemma replacePlainConverters_app (lit s : string) :
  includes lit "<" = false ->
  replacePlainConverters (lit ++ s) = lit ++ replacePlainConverters s.
Proof.
  induction lit as [|c lit IH]; [reflexivity|].
  rewrite includes_char_cons. intros [Hc Hlit]%orb_false_elim.
  change (String c lit ++ s) with (String c (lit ++ s)).
  rewrite replacePlainConverters_cons, Ascii.eqb_sym, Hc, (IH Hlit).
  reflexivity.
Qed.

(** X25.  In the path of a URL pattern a converter [<type:name>] and a
    converter [<name>] both become the placeholder [{name}]: the type
    of the converter is dropped, and the text around the converters is
    kept. *)
Theorem normalizedPath_converters (lit converter name rest : string) :
  includes lit "<" = false ->
  allWordChars converter = true -> converter <> "" ->
  allWordChars name = true -> name <> "" ->
  normalizedPath (lit ++ "<" ++ converter ++ ":" ++ name ++ ">" ++ rest)
  = "/" ++ lit ++ "{" ++ name ++ "}"
      ++ replacePlainConverters (replaceTypedConverters rest)
  /\ normalizedPath (lit ++ "<" ++ name ++ ">" ++ rest)
     = "/" ++ lit ++ "{" ++ name ++ "}"
         ++ replacePlainConverters (replaceTypedConverters rest)
  /\ normalizedPath lit = "/" ++ lit.
Proof.
  intros Hlit Hconv Hconv' Hname Hname'. unfold normalizedPath.
  assert (includes name "<" = false) as Hname_lt
    by (by apply allWordChars_no).
  assert (forall X,
            replacePlainConverters (lit ++ "{" ++ name ++ "}" ++ X)
            = lit ++ "{" ++ name ++ "}" ++ replacePlainConverters X) as Hplain.
  { intros X. rewrite replacePlainConverters_app by assumption. f_equal.
    change ("{" ++ name ++ "}" ++ X) with (String "{" (name ++ "}" ++ X)).
    rewrite replacePlainConverters_cons. change (Ascii.eqb "{" "<") with false.
    cbv iota. f_equal.
    rewrite replacePlainConverters_app by assumption. f_equal.
    change ("}" ++ X) with (String "}" X).
    by rewrite replacePlainConverters_cons. }
  split; [|split].
  - f_equal. rewrite replaceTypedConverters_app by assumption.
    change ("<" ++ converter ++ ":" ++ name ++ ">" ++ rest)
      with (String "<" (converter ++ ":" ++ name ++ ">" ++ rest)).
    rewrite replaceTypedConverters_cons. change (Ascii.eqb "<" "<") with true.
    cbv iota. rewrite typedConverter_match by assumption.
    apply Hplain.
  - f_equal. rewrite replaceTypedConverters_app by assumption.
    change ("<" ++ name ++ ">" ++ rest)
      with (String "<" (name ++ ">" ++ rest)).
    rewrite replaceTypedConverters_cons. change (Ascii.eqb "<" "<") with true.
    cbv iota. rewrite typedConverter_plain by assumption.
    rewrite replaceTypedConverters_app by assumption.
    change (">" ++ rest) with (String ">" rest).
    rewrite replaceTypedConverters_cons. change (Ascii.eqb ">" "<") with false.
    cbv iota.
    rewrite replacePlainConverters_app by assumption. f_equal.
    change (String "<" (name ++ String ">" (replaceTypedConverters rest)))
      with (String "<" (name ++ ">" ++ replaceTypedConverters rest)).
    rewrite replacePlainConverters_cons. change (Ascii.eqb "<" "<") with true.
    cbv iota. by rewrite plainConverter_match by assumption.
  - f_equal.
    rewrite <- (append_nil_r lit) at 1.
    rewrite replaceTypedConverters_app by assumption.
    simp replaceTypedConverters.
    rewrite replacePlainConverters_app by assumption.
    simp replacePlainConverters. by rewrite !append_nil_r.
Qed.

Lemma normalizedPath_converters_witness :
  normalizedPath ("users/" ++ "<" ++ "int" ++ ":" ++ "pk" ++ ">" ++ "/posts")
  = "/" ++ "users/" ++ "{" ++ "pk" ++ "}"
      ++ replacePlainConverters (replaceTypedConverters "/posts").
Proof.
  refine (proj1 (normalizedPath_converters "users/" "int" "pk" "/posts"
                   _ _ _ _ _)); first [reflexivity | discriminate].
Defined.

(** The type of a path parameter follows from its name alone: an
    integer converter gives a string, a string converter named [pk] an
    integer. *)
Lemma urlPathRoutes_parameter_types :
  map (fun e => (path e, map (fun p => (param_name p, param_schema p))
                           (parameters e)))
    (map routeToEndpoint
       (urlPathRoutes ∅ "urls.py"
          [ ("users/<int:user_id>/", "UserDetail");
            ("items/<str:pk>", "ItemView") ]))
  = [ ("/users/{user_id}",
        [("user_id", {| schema_type := Typed STRING |})]);
      ("/items/{pk}", [("pk", {| schema_type := Typed INTEGER |})]) ].
Proof. by vm_compute. Qed.

End UrlPatterns.

(** ** The paths of function-based views *)

Section FunctionViews.

Import Js BaseExtractor DjangoRestExtractor.

Lemma isWordChar_lowerChar (c : ascii) :
  isWordChar c = true -> isWordChar (lowerChar c) = true.
Proof. by destruct c as [[] [] [] [] [] [] [] []]. Qed.

Lemma isAsciiUpper_word (c : ascii) :
  isAsciiUpper c = true -> isWordChar c = true.
Proof. by destruct c as [[] [] [] [] [] [] [] []]. Qed.

Lemma underscoreCapitals_chars (s : string) (c : ascii) :
  allWordChars s = true ->
  includes (underscoreCapitals s) (String c "") = true ->
  isWordChar c = true.
Proof.
  induction s as [|a s IH]; [discriminate|].
  cbn [allWordChars underscoreCapitals]. intros [Ha Hs]%andb_prop.
  destruct (isAsciiUpper a); rewrite !includes_char_cons.
  - intros [Hc|[Hc|Hc]%orb_prop]%orb_prop; [| |by apply IH].
    + by apply Ascii.eqb_eq in Hc as ->.
    + apply Ascii.eqb_eq in Hc as ->. exact Ha.
  - intros [Hc|Hc]%orb_prop; [|by apply IH].
    by apply Ascii.eqb_eq in Hc as ->.
Qed.

Lemma toLowerCase_chars (s : string) (c : ascii) :
  includes (toLowerCase s) (String c "") = true ->
  exists c0, includes s (String c0 "") = true /\ c = lowerChar c0.
Proof.
  induction s as [|a s IH]; [discriminate|].
  cbn [toLowerCase]. rewrite includes_char_cons.
  intros [Hc|Hc]%orb_prop.
  - apply Ascii.eqb_eq in Hc as ->. exists a.
    by rewrite includes_char_cons, Ascii.eqb_refl.
  - destruct (IH Hc) as (c0 & Hc0 & ->). exists c0.
    by rewrite includes_char_cons, Hc0, orb_true_r.
Qed.

Lemma camelToSnake_chars (s : string) (c : ascii) :
  allWordChars s = true ->
  includes (camelToSnake s) (String c "") = true ->
  isWordChar c = true /\ isAsciiUpper c = false.
Proof.
  intros Hs Hc.
  assert (includes (toLowerCase (underscoreCapitals s)) (String c "") = true)
    as Hlow.
  { revert Hc. unfold camelToSnake.
    destruct (toLowerCase (underscoreCapitals s)) as [|a rest]; [done|].
    destruct (Ascii.eqb a "_"); [|done].
    intros Hc. by apply includes_skip. }
  apply toLowerCase_chars in Hlow as (c0 & Hc0 & ->).
  split; [|apply lowerChar_not_upper].
  apply isWordChar_lowerChar. by eapply underscoreCapitals_chars.
Qed.

Lemma hyphenate_chars (s : string) (c : ascii) :
  includes (hyphenate s) (String c "") = true ->
  c = "-"%char \/ (c <> "_"%char /\ includes s (String c "") = true).
Proof.
  induction s as [|a s IH]; [discriminate|].
  cbn [hyphenate]. rewrite !includes_char_cons.
  intros [Hc|Hc]%orb_prop.
  - apply Ascii.eqb_eq in Hc as ->.
    destruct (Ascii.eqb_spec a "_") as [->|Ha]; [by left|].
    right. split; [assumption|]. by rewrite Ascii.eqb_refl.
  - destruct (IH Hc) as [->|[Hne Hin]]; [by left|].
    right. split; [assumption|]. by rewrite Hin, orb_true_r.
Qed.

Lemma hasAsciiUpper_char (s : string) :
  hasAsciiUpper s = true ->
  exists c, includes s (String c "") = true /\ isAsciiUpper c = true.
Proof.
  induction s as [|a s IH]; [discriminate|].
  cbn [hasAsciiUpper]. intros [Ha|Hs]%orb_prop.
  - exists a. by rewrite includes_char_cons, Ascii.eqb_refl.
  - destruct (IH Hs) as (c & Hc & Hup). exists c.
    by rewrite includes_char_cons, Hc, orb_true_r.
Qed.

Lemma includes_double (s : string) (c : ascii) :
  includes s (String c (String c "")) = true ->
  includes s (String c "") = true.
Proof.
  induction s as [|a s IH]; [discriminate|].
  rewrite includes_cons, includes_char_cons. cbn [isPrefix].
  destruct (Ascii.eqb c a); [reflexivity|]. cbn [andb orb]. exact IH.
Qed.

Lemma endsWith_char (s : string) (c : ascii) :
  endsWith s (String c "") = true -> includes s (String c "") = true.
Proof.
  induction s as [|a s IH]; [discriminate|].
  cbn [endsWith]. rewrite includes_char_cons.
  destruct (String.eqb_spec (String a s) (String c "")) as [[= -> ->]|_].
  - by rewrite Ascii.eqb_refl.
  - intros Hs. by rewrite (IH Hs), orb_true_r.
Qed.

(** The path of a function-based view. *)
Lemma functionRoute_path_chars (funcName : string) (c : ascii) :
  allWordChars funcName = true ->
  includes (hyphenate (camelToSnake funcName)) (String c "") = true ->
  c = "-"%char
  \/ (c <> "_"%char /\ isWordChar c = true /\ isAsciiUpper c = false).
Proof.
  intros Hname [->|[Hne Hin]]%hyphenate_chars; [by left|].
  right. split; [assumption|]. by eapply camelToSnake_chars.
Qed.

(** X26.  The endpoint of a function-based view: its path is a slash
    and the name of the function with an underscore before each capital,
    in lower case, without underscore at the start and with hyphens for
    underscores; the path holds no capital, no underscore and no
    placeholder, so the endpoint has no parameter. *)
Theorem functionView_endpoint (m : HttpMethod) (funcName file : string) :
  allWordChars funcName = true ->
  let route := functionRoute m funcName file in
  let e := routeToEndpoint route in
  path e = "/" ++ hyphenate (camelToSnake funcName)
  /\ parameters e = []
  /\ includes (path e) "_" = false
  /\ hasAsciiUpper (path e) = false
  /\ extractPathParams (path e) = [].
Proof.
  intros Hname route e. subst e route.
  set (x := hyphenate (camelToSnake funcName)).
  assert (forall c, isWordChar c = false -> c <> "-"%char ->
                    includes x (String c "") = false) as Hother.
  { intros c Hc Hhyphen.
    destruct (includes x (String c "")) eqn:Hin; [|reflexivity].
    apply functionRoute_path_chars in Hin as [->|(_ & Hword & _)];
      [done | congruence | assumption]. }
  assert (includes x "/" = false) as Hslash by (by apply Hother).
  assert (includes x "{" = false) as Hbrace by (by apply Hother).
  assert (includes x "_" = false) as Hunder.
  { destruct (includes x "_") eqn:Hin; [|reflexivity].
    by apply functionRoute_path_chars in Hin as [?|(? & _)]. }
  assert (hasAsciiUpper x = false) as Hupper.
  { destruct (hasAsciiUpper x) eqn:Hup; [|reflexivity].
    apply hasAsciiUpper_char in Hup as (c & Hc & Hup).
    apply functionRoute_path_chars in Hc as [->|(_ & _ & Hlow)];
      [done | congruence | assumption]. }
  assert (normalizePath ("/" ++ x) = "/" ++ x) as Hpath.
  { apply normalizePath_normal; [reflexivity | |].
    - change ("/" ++ x) with (String "/" x). rewrite includes_cons.
      change (isPrefix "//" (String "/" x)) with (true && isPrefix "/" x).
      cbn [andb].
      destruct (isPrefix "/" x) eqn:Hpre.
      + apply includes_prefix in Hpre. congruence.
      + destruct (includes x "//") eqn:Hdouble; [|reflexivity].
        apply includes_double in Hdouble. congruence.
    - change ("/" ++ x) with (String "/" x). cbn [endsWith].
      destruct (String.eqb_spec (String "/" x) "/") as [->|_]; [done|].
      intros Hends%endsWith_char. congruence. }
  unfold routeToEndpoint, functionRoute.
  cbn [route_path route_method path parameters]. fold x.
  rewrite Hpath.
  assert (extractPathParams ("/" ++ x) = []) as Hparams.
  { apply extractPathParams_no_brace.
    change ("/" ++ x) with (String "/" x).
    by rewrite includes_char_cons, Hbrace. }
  rewrite Hparams.
  split; [reflexivity|]. split; [reflexivity|].
  change ("/" ++ x) with (String "/" x).
  split; [by rewrite includes_char_cons, Hunder|].
  split; [cbn [hasAsciiUpper]; by rewrite Hupper | reflexivity].
Qed.

Lemma functionView_endpoint_witness :
  path (routeToEndpoint (functionRoute GET "UserList" "api/views.py"))
  = "/" ++ hyphenate (camelToSnake "UserList").
Proof.
  refine (proj1 (functionView_endpoint GET "UserList" "api/views.py" _)).
  reflexivity.
Defined.

(** Functions whose names differ in their capitals and underscores only
    get the same path. *)
Lemma functionRoute_same_path :
  map (fun f => route_path (functionRoute GET f "api/views.py"))
    ["UserList"; "user_list"; "userList"; "_user_list"]
  = ["/user-list"; "/user-list"; "/user-list"; "/user-list"].
Proof. by vm_compute. Qed.

End FunctionViews.

(** ** [parseHttpMethod] *)

Section HttpMethods.

Import Js BaseExtractor.

(** A property of all code units below 256, checked on each of them. *)
Lemma ascii_all (P : ascii -> bool) :
  forallb P (map ascii_of_nat (seq 0 256)) = true -> forall c, P c = true.
Proof.
  intros Hall c. rewrite forallb_forall in Hall. apply Hall.
  rewrite <- (ascii_nat_embedding c). apply in_map, in_seq.
  pose proof (nat_ascii_bounded c). lia.
Qed.

(** A code unit has the capital [u] for upper case exactly when it has
    the lower case of [u] for lower case. *)
Lemma upperUnits_capital (c u : ascii) :
  isAsciiUpper u = true ->
  match upperUnits c with
  | [x] => (x =? N_of_ascii u)%N
  | _ => false
  end = Ascii.eqb (lowerChar c) (lowerChar u).
Proof.
  intros Hu.
  pose proof (ascii_all
    (fun c => forallb
       (fun u => implb (isAsciiUpper u)
                   (Bool.eqb
                      match upperUnits c with
                      | [x] => (x =? N_of_ascii u)%N
                      | _ => false
                      end
                      (Ascii.eqb (lowerChar c) (lowerChar u))))
       (map ascii_of_nat (seq 0 256)))) as Hall.
  specialize (Hall ltac:(by vm_compute) c). cbv beta in Hall.
  rewrite forallb_forall in Hall. specialize (Hall u).
  rewrite Hu in Hall. cbn [implb] in Hall.
  apply Bool.eqb_prop, Hall.
  rewrite <- (ascii_nat_embedding u). apply in_map, in_seq.
  pose proof (nat_ascii_bounded u). lia.
Qed.

(** The upper case of a code unit is one code unit, or [SS]. *)
Lemma upperUnits_shape (c : ascii) :
  (exists x, upperUnits c = [x]
             /\ negb ((97 <=? x)%N && (x <=? 122)%N) = true)
  \/ upperUnits c = [83%N; 83%N].
Proof.
  pose proof (ascii_all
    (fun c => match upperUnits c with
              | [x] => negb ((97 <=? x)%N && (x <=? 122)%N)
              | [a; b] => (a =? 83)%N && (b =? 83)%N
              | _ => false
              end)) as Hall.
  specialize (Hall ltac:(by vm_compute) c). cbv beta in Hall.
  destruct (upperUnits c) as [|x [|y [|z l]]]; try discriminate.
  - left. exists x. by split.
  - right. apply andb_prop in Hall as [->%N.eqb_eq ->%N.eqb_eq]. reflexivity.
Qed.

Lemma ofCodeUnits_codeUnits (s : string) : ofCodeUnits (codeUnits s) = Some s.
Proof.
  induction s as [|c s IH]; [reflexivity|]. cbn [codeUnits ofCodeUnits].
  pose proof (N_ascii_bounded c) as Hc. apply N.ltb_lt in Hc. rewrite Hc, IH.
  cbn. by rewrite ascii_N_embedding.
Qed.

Lemma ofCodeUnits_Some (units : list N) (s : string) :
  ofCodeUnits units = Some s -> units = codeUnits s.
Proof.
  revert s. induction units as [|n units IH]; intros s; cbn [ofCodeUnits].
  - by intros [= <-].
  - destruct (N.ltb_spec n 256) as [Hn|]; [|discriminate].
    destruct (ofCodeUnits units) as [s'|]; [|discriminate].
    intros [= <-]. cbn [codeUnits]. rewrite (IH s' eq_refl).
    by rewrite N_ascii_embedding.
Qed.

Lemma codeUnits_inj (s t : string) : codeUnits s = codeUnits t -> s = t.
Proof.
  intros H. apply (f_equal ofCodeUnits) in H.
  rewrite !ofCodeUnits_codeUnits in H. congruence.
Qed.

(** The upper case of a text is a word of capitals, in which no two S
    follow each other, exactly when the lower case of the text is the
    lower case of that word. *)
Lemma toUpperCase_capitals (s key : string) :
  (forall c, includes key (String c "") = true -> isAsciiUpper c = true) ->
  includes key "SS" = false ->
  toUpperCase s = codeUnits key <-> toLowerCase s = toLowerCase key.
Proof.
  revert key. induction s as [|c s IH]; intros key Hkey Hss.
  - destruct key; split; try discriminate; reflexivity.
  - cbn [toUpperCase toLowerCase].
    destruct key as [|u key].
    + split; [|discriminate]. cbn [codeUnits].
      by destruct (upperUnits_shape c) as [(x & -> & _)| ->].
    + assert (isAsciiUpper u = true) as Hu.
      { apply Hkey. by rewrite includes_char_cons, Ascii.eqb_refl. }
      assert (forall c', includes key (String c' "") = true ->
                         isAsciiUpper c' = true) as Hkey'.
      { intros c' Hc'. apply Hkey. by apply includes_skip. }
      assert (includes key "SS" = false) as Hss'.
      { rewrite includes_cons in Hss.
        by destruct (isPrefix "SS" (String u key)). }
      pose proof (upperUnits_capital c u Hu) as Hcap.
      cbn [codeUnits toLowerCase].
      destruct (upperUnits_shape c) as [(x & Hx & _)|Hx]; rewrite Hx in *.
      * cbn [app]. destruct (IH key Hkey' Hss') as [IH1 IH2]. split.
        -- intros [= -> Hrest]. rewrite N.eqb_refl in Hcap.
           symmetry in Hcap. apply Ascii.eqb_eq in Hcap.
           by rewrite Hcap, (IH1 Hrest).
        -- intros [= Hlow Hrest].
           rewrite Hlow, Ascii.eqb_refl in Hcap. apply N.eqb_eq in Hcap.
           by rewrite Hcap, (IH2 Hrest).
      * split.
        -- cbn [app]. intros [= Hu1 Hrest]. exfalso.
           destruct key as [|u2 key]; [by destruct s|].
           cbn [codeUnits] in Hrest.
           assert (u = "S"%char) as ->.
           { rewrite <- (ascii_N_embedding u), <- Hu1. reflexivity. }
           assert (u2 = "S"%char) as ->.
           { destruct (upperUnits_shape "S") as [_|_].
             injection Hrest as Hu2 _.
             rewrite <- (ascii_N_embedding u2), <- Hu2. reflexivity.
             injection Hrest as Hu2 _.
             rewrite <- (ascii_N_embedding u2), <- Hu2. reflexivity. }
           by rewrite includes_cons in Hss.
        -- intros [= Hlow _]. rewrite Hlow, Ascii.eqb_refl in Hcap.
           discriminate.
Qed.

(** X27.  [parseHttpMethod] reads its argument without regard to case:
    it returns the method whose name is the argument in capitals, and
    nothing for any other text.  It never returns a member inherited
    from [Object.prototype], whose names all hold a small letter. *)
Theorem parseHttpMethod_cases (method : string) :
  match parseHttpMethod method with
  | Own m => toLowerCase method = toLowerCase (methodValue m)
  | Inherited _ => False
  | Undefined => forall m, toLowerCase method <> toLowerCase (methodValue m)
  end.
Proof.
  assert (forall m,
            toUpperCase method = codeUnits (methodValue m)
            <-> toLowerCase method = toLowerCase (methodValue m)) as Hkey.
  { intros m. apply toUpperCase_capitals; [|by destruct m].
    intros c Hc. destruct m; cbn [methodValue] in Hc;
      repeat (rewrite includes_char_cons in Hc;
              apply orb_prop in Hc as [->%Ascii.eqb_eq|Hc]; [reflexivity|]);
      discriminate. }
  assert (forall k, In k Object_prototype_keys ->
                    toUpperCase method <> codeUnits k) as Hproto.
  { intros k Hk Heq.
    assert (forallb (fun x => negb ((97 <=? x)%N && (x <=? 122)%N))
              (toUpperCase method) = true) as Hupper.
    { clear. induction method as [|c s IH]; [reflexivity|].
      cbn [toUpperCase]. rewrite forallb_app, IH, andb_true_r.
      destruct (upperUnits_shape c) as [(x & -> & Hx)| ->];
        [|reflexivity].
      cbn [forallb]. by rewrite Hx. }
    rewrite Heq in Hupper. clear -Hk Hupper.
    unfold Object_prototype_keys in Hk. cbn [In] in Hk.
    repeat (destruct Hk as [<-|Hk]; [by vm_compute in Hupper|]).
    destruct Hk. }
  unfold parseHttpMethod.
  destruct (ofCodeUnits (toUpperCase method)) as [upper|] eqn:Hupper.
  - apply ofCodeUnits_Some in Hupper. unfold getProperty.
    destruct (ownProperty methods upper) as [m|] eqn:Hown.
    + apply Hkey. rewrite Hupper. f_equal.
      revert Hown. unfold methods. cbn [ownProperty].
      do 7 (match goal with
            | |- context [String.eqb ?k upper] =>
                destruct (String.eqb_spec k upper) as [Hk|_];
                [intros [= <-]; by rewrite <- Hk|]
            end).
      discriminate.
    + destruct (existsb (String.eqb upper) Object_prototype_keys) eqn:Hin.
      * apply existsb_exists in Hin as (k & Hk & ->%String.eqb_eq).
        by apply (Hproto k Hk).
      * intros m Hm. apply Hkey in Hm. rewrite Hupper in Hm.
        apply codeUnits_inj in Hm. subst upper. by destruct m.
  - intros m Hm. apply Hkey in Hm.
    by rewrite Hm, ofCodeUnits_codeUnits in Hupper.
Qed.

(** The names that the route regular expressions hand over are found in
    either case; a name of [Object.prototype] is not a method. *)
Lemma parseHttpMethod_samples :
  map parseHttpMethod ["get"; "Delete"; "PATCH"; "constructor"; "fetch"]
  = [Own GET; Own DELETE; Own PATCH; Undefined; Undefined].
Proof. by vm_compute. Qed.

End HttpMethods.

(** ** The groups and the result of the Django extractor *)

Section DjangoExtract.

Import Js BaseExtractor DjangoRestExtractor.

Lemma append_length (s t : string) :
  String.length (s ++ t) = String.length s + String.length t.
Proof.
  induction s as [|c s IH]; [reflexivity|].
  change (String c s ++ t) with (String c (s ++ t)). simpl. by rewrite IH.
Qed.

Lemma substring_app (s t : string) :
  String.substring 0 (String.length s) (s ++ t) = s.
Proof.
  induction s as [|c s IH]; [by destruct t|].
  change (String c s ++ t) with (String c (s ++ t)). simpl. by rewrite IH.
Qed.

Lemma endsWith_app_same (s x : string) : endsWith (s ++ x) x = true.
Proof.
  induction s as [|c s IH].
  - change ("" ++ x) with x. destruct x; cbn [endsWith];
      by rewrite String.eqb_refl.
  - change (String c s ++ x) with (String c (s ++ x)). cbn [endsWith].
    rewrite IH. by destruct (String.eqb _ _).
Qed.

Lemma append_last_inj (s t : string) (c d : ascii) :
  s ++ String c "" = t ++ String d "" -> c = d.
Proof.
  revert t. induction s as [|a s IH]; intros [|b t].
  - by intros [= ->].
  - intros [= _ H]. by destruct t.
  - intros [= _ H]. by destruct s.
  - intros [= _ H]. by apply (IH t).
Qed.

Lemma endsWith_last (s x : string) (c d : ascii) :
  endsWith (s ++ String c "") (x ++ String d "") = true -> c = d.
Proof.
  induction s as [|a s IH].
  - change ("" ++ String c "") with (String c ""). cbn [endsWith].
    destruct (String.eqb_spec (String c "") (x ++ String d "")) as [Heq|_].
    + intros _. by apply (append_last_inj "" x).
    + destruct (String.eqb_spec "" (x ++ String d "")) as [Heq|_];
        [by destruct x | discriminate].
  - change (String a s ++ String c "") with (String a (s ++ String c "")).
    cbn [endsWith].
    destruct (String.eqb_spec (String a (s ++ String c "")) (x ++ String d ""))
      as [Heq|_]; [|exact IH].
    intros _. by apply (append_last_inj (String a s) x).
Qed.

Lemma replaceSuffix_app (suffix s : string) :
  replaceSuffix suffix "" (s ++ suffix) = s.
Proof.
  unfold replaceSuffix. rewrite endsWith_app_same, append_length.
  replace (String.length s + String.length suffix - String.length suffix)
    with (String.length s) by lia.
  by rewrite substring_app, append_nil_r.
Qed.

Lemma replaceSuffix_other (suffix s : string) :
  endsWith s suffix = false -> replaceSuffix suffix "" s = s.
Proof. intros H. unfold replaceSuffix. by rewrite H. Qed.

(** X23.  The group of a route bears the name of its view without the
    suffix [ViewSet] or [View]: a ViewSet [UserViewSet], a view
    [UserView] and a view [User] all go into the group [User]. *)
Theorem groupNameOf_suffix (route : ExtractedRoute) (name : string) :
  endsWith name "View" = false ->
  viewName route = name ++ "ViewSet"
  \/ viewName route = name ++ "View"
  \/ (viewName route = name /\ endsWith name "ViewSet" = false) ->
  groupNameOf route = name.
Proof.
  intros Hname Hview. unfold groupNameOf.
  destruct Hview as [->|[->|[-> Hset]]].
  - rewrite (replaceSuffix_app "ViewSet"). by apply replaceSuffix_other.
  - rewrite (replaceSuffix_other "ViewSet").
    + apply (replaceSuffix_app "View").
    + destruct (endsWith (name ++ "View") "ViewSet") eqn:Hends;
        [|reflexivity].
      replace (name ++ "View") with ((name ++ "Vie") ++ "w") in Hends
        by (by rewrite append_assoc).
      by apply (endsWith_last _ "ViewSe") in Hends.
  - rewrite (replaceSuffix_other "ViewSet") by assumption.
    by apply replaceSuffix_other.
Qed.

Lemma groupNameOf_suffix_witness :
  groupNameOf
    {| route_method := GET; route_path := "/api/users";
       viewName := "User" ++ "ViewSet"; viewType := viewset;
       filePath := "api/views.py" |}
  = "User".
Proof.
  apply groupNameOf_suffix; [reflexivity | by left].
Defined.

(** With as many routes as endpoints, the loop of
    [groupEndpointsByView] is the grouping loop over the routes. *)
Lemma groupEndpointsByView_from_routes (routes : list ExtractedRoute)
    (groups : list (string * list ApiEndpoint)) :
  groupEndpointsByView_from groups (map routeToEndpoint routes) routes
  = Some (fold_left
            (fun m r => map_file m (groupNameOf r) (routeToEndpoint r))
            routes groups).
Proof.
  revert groups. induction routes as [|r routes IH]; intros groups;
    [reflexivity|].
  cbn [map groupEndpointsByView_from fold_left]. apply IH.
Qed.

Lemma urlPathRoutes_length (vs : gmap string ViewSetInfo) (file : string)
    (matches : list (string * string)) :
  length (urlPathRoutes vs file matches)
  = length (List.filter (fun m => bool_decide (vs !! snd m = None)) matches).
Proof.
  unfold urlPathRoutes. apply length_flat_map_filter.
  intros [urlPath viewName]. cbn [snd].
  by destruct (vs !! viewName).
Qed.

(** X28.  The Django extraction succeeds exactly when there is a file,
    every file can be read and some route is found.  It then reports the
    number of files and the number of routes: one for each function
    route, one for each URL pattern whose view is no known ViewSet, six
    for each registered ViewSet whose class was found.  The type of the
    project is [undefined], the enum having no member for Django REST
    framework.  The groups bear the distinct group names of the routes
    in the order of their first occurrence, and each holds the endpoints
    of the routes of its name, in their order. *)
Theorem django_extract_counts (files : list PythonFile)
    (projectName source : string) (config : ApigenConfig) :
  let r := extract files projectName source config in
  let routes := allRoutesOf files in
  let st := firstPass (map scanned files) in
  (success r = true
   <-> files <> [] /\ Forall (fun f => readError f = None) files
       /\ routes <> [])
  /\ (success r = false -> project r = None /\ endpointsFound r = 0)
  /\ (success r = true ->
      filesProcessed r = length files
      /\ endpointsFound r = length routes
      /\ exists p,
           project r = Some p
           /\ projectType p = undefined
           /\ map group_name (groups p)
              = distinctInOrder (map groupNameOf routes)
           /\ forall g, In g (groups p) ->
                endpoints g
                = map routeToEndpoint
                    (List.filter
                       (fun route =>
                          String.eqb (groupNameOf route) (group_name g))
                       routes))
  /\ length routes
     = length (flat_map (fun f => functionRoutes (routeMatches f)) files)
       + length
           (List.filter (fun m => bool_decide (viewSets st !! snd m = None))
              (flat_map (fun f => urlPaths (routeMatches f)) files))
       + 6 * length
               (List.filter
                  (fun reg => bool_decide (is_Some (viewSets st !! fst reg)))
                  (routerRegistrations st)).
Proof.
  intros r routes st.
  assert (omap readError files = []
          <-> Forall (fun f => readError f = None) files) as Hread.
  { clear. induction files as [|f files IH]; [by split|].
    change (omap readError (f :: files))
      with (match readError f with
            | Some y => y :: omap readError files
            | None => omap readError files
            end).
    destruct (readError f) as [e|] eqn:He.
    - split; [discriminate|]. intros [Hf _]%Forall_cons. congruence.
    - rewrite IH. split; [by constructor | by intros [_ ?]%Forall_cons]. }
  split; [|split; [|split]].
  - subst r. unfold extract, extract_try. fold routes.
    destruct files as [|f files']; [cbn; split; [discriminate | by intros [? _]]|].
    cbn [length Nat.eqb].
    destruct (omap readError (f :: files')) as [|e es] eqn:Herr.
    + assert (Forall (fun f => readError f = None) (f :: files')) as Hall
        by (by apply Hread).
      destruct routes as [|route routes'] eqn:Hroutes;
        [cbn; split; [discriminate | by intros (_ & _ & ?)]|].
      cbn [length Nat.eqb]. unfold groupEndpointsByView.
      rewrite groupEndpointsByView_from_routes.
      cbn [fmap option_fmap option_map success createSuccessResult].
      split; [intros _; by repeat split | reflexivity].
    + cbn. split; [discriminate|]. intros (_ & Hall & _).
      apply Hread in Hall. discriminate.
  - subst r. unfold extract, extract_try. fold routes.
    destruct (Nat.eqb (length files) 0); [by split|].
    destruct (omap readError files); [|by split].
    destruct (Nat.eqb (length routes) 0); [by split|].
    unfold groupEndpointsByView. rewrite groupEndpointsByView_from_routes.
    cbn. discriminate.
  - subst r. unfold extract, extract_try. fold routes.
    destruct (Nat.eqb (length files) 0); [discriminate|].
    destruct (omap readError files); [|discriminate].
    destruct (Nat.eqb (length routes) 0); [discriminate|].
    unfold groupEndpointsByView. rewrite groupEndpointsByView_from_routes.
    cbn [fmap option_fmap option_map]. intros _.
    rewrite createSuccessResult_endpointsFound.
    cbn [filesProcessed project groups createSuccessResult].
    set (m := fold_left _ routes []).
    pose proof (map_file_loop_keys groupNameOf routeToEndpoint routes) as Hkeys.
    pose proof (map_file_loop_NoDup groupNameOf routeToEndpoint routes) as Hnd.
    pose proof (map_file_loop_get groupNameOf routeToEndpoint routes) as Hget.
    pose proof (map_file_loop_total groupNameOf routeToEndpoint routes)
      as Htotal.
    fold m in Hkeys, Hnd, Hget, Htotal.
    split; [reflexivity|]. split.
    + unfold endpointCountOf. rewrite <- Htotal. do 2 f_equal.
      rewrite map_map. apply map_ext. by intros [name l].
    + eexists. split; [reflexivity|]. cbn [projectType groups].
      split; [reflexivity|]. split.
      * rewrite <- Hkeys, map_map. apply map_ext. by intros [name l].
      * intros g ([k l] & <- & Hkl)%in_map_iff. cbn [endpoints group_name].
        apply (In_map_get _ _ _ Hnd) in Hkl. rewrite Hget in Hkl.
        destruct (List.filter _ routes); [discriminate|]. congruence.
  - subst routes. unfold allRoutesOf. fold st.
    rewrite length_app, generateViewSetRoutes_length. f_equal.
    generalize (viewSets st). intros vs. clear.
    induction files as [|f files IH]; [reflexivity|].
    cbn [flat_map]. unfold extractRoutes at 1.
    rewrite !length_app, List.filter_app, length_app, IH, urlPathRoutes_length.
    lia.
Qed.

Lemma django_extract_counts_witness :
  let r := extract Samples.djangoFiles "api" "/srv/api" Samples.sampleConfig in
  success r = true /\ filesProcessed r = 2 /\ endpointsFound r = 8.
Proof.
  pose proof (django_extract_counts Samples.djangoFiles "api" "/srv/api"
                Samples.sampleConfig) as (_ & _ & H & _).
  cbv zeta in H. specialize (H ltac:(by vm_compute)).
  destruct H as (Hfiles & Hfound & _).
  split; [by vm_compute|]. split; [exact Hfiles|].
  rewrite Hfound. by vm_compute.
Defined.

End DjangoExtract.


(** ** The result of the FastAPI extractor *)

Section FastApiExtract.

Import Js BaseExtractor FastApiExtractor.

Variable parseFunctionParams : string -> list FuncParam.
Variable basename : string -> string -> string.
Variable formatGroupName : string -> string.

Lemma groupEndpointsByFile_from_routes (f : ExtractedRoute -> ApiEndpoint)
    (allRoutes : list ExtractedRoute)
    (groups : list (string * list ApiEndpoint)) :
  groupEndpointsByFile_from basename formatGroupName groups
    (map f allRoutes) allRoutes
  = Some (fold_left
            (fun m r => map_file m (groupNameOf basename formatGroupName r) (f r))
            allRoutes groups).
Proof.
  revert groups. induction allRoutes as [|r allRoutes IH]; intros groups;
    [reflexivity|].
  cbn [map groupEndpointsByFile_from fold_left]. apply IH.
Qed.

Lemma readErrors_none (files : list PythonFile) :
  omap readError files = [] <-> Forall (fun f => readError f = None) files.
Proof.
  induction files as [|f files IH]; [by split|].
  change (omap readError (f :: files))
    with (match readError f with
          | Some y => y :: omap readError files
          | None => omap readError files
          end).
  destruct (readError f) as [e|] eqn:He.
  - split; [discriminate|]. intros [Hf _]%Forall_cons. congruence.
  - rewrite IH. split; [by constructor | by intros [_ ?]%Forall_cons].
Qed.

(** X29.  The FastAPI extraction succeeds exactly when there is a file,
    every file can be read, some route is found and [pyproject.toml],
    if it exists, can be read.  It then reports the number of files, one
    endpoint for each route and the warning that the extractor is
    experimental; the title of the project is the name that
    [pyproject.toml] declares, and the name of the directory when there
    is no such file or it declares none.  The groups bear the distinct
    group names of the routes in the order of their first occurrence,
    none has a description, and each holds the endpoints of the routes
    of its name, in their order. *)
Theorem fastapi_extract_counts (files : list PythonFile)
    (dirName : string) (pyproject : ProjectFile) (source : string)
    (config : ApigenConfig) :
  let r := extract parseFunctionParams basename formatGroupName files
             dirName pyproject source config in
  let allRoutes := flat_map routes files in
  let nameOf := groupNameOf basename formatGroupName in
  (success r = true
   <-> files <> [] /\ Forall (fun f => readError f = None) files
       /\ allRoutes <> []
       /\ forall errorMessage, pyproject <> Unreadable errorMessage)
  /\ (success r = false -> project r = None /\ endpointsFound r = 0)
  /\ (files <> [] -> Forall (fun f => readError f = None) files ->
      allRoutes <> [] ->
      forall errorMessage, pyproject = Unreadable errorMessage ->
      errors r = Some ["FastAPI parse hatası: " ++ errorMessage])
  /\ (success r = true ->
      filesProcessed r = length files
      /\ endpointsFound r = length allRoutes
      /\ warnings r
         = Some [ "FastAPI extractor experimental'dir. Tüm endpoint'ler algılanmamış olabilir." ]
      /\ exists p,
           project r = Some p
           /\ projectType p = FASTAPI
           /\ info_title p
              = match pyproject with
                | Read (Some name) => name
                | _ => dirName
                end
           /\ map group_name (groups p) = distinctInOrder (map nameOf allRoutes)
           /\ forall g, In g (groups p) ->
                group_description g = None
                /\ endpoints g
                   = map (endpointOf parseFunctionParams files)
                       (List.filter
                          (fun route => String.eqb (nameOf route) (group_name g))
                          allRoutes)).
Proof.
  intros r allRoutes nameOf.
  pose proof (readErrors_none files) as Hread.
  assert (forall errorMessage title,
            extractProjectName dirName pyproject = Returned title ->
            pyproject <> Unreadable errorMessage) as Hreadable
    by (intros errorMessage title; destruct pyproject; by intros ? [=]).
  split; [|split; [|split]].
  - subst r. unfold extract, extract_try. fold allRoutes.
    destruct files as [|f files']; [cbn; split; [discriminate | by intros [? _]]|].
    cbn [length Nat.eqb].
    destruct (omap readError (f :: files')) as [|e es] eqn:Herr.
    + assert (Forall (fun f => readError f = None) (f :: files')) as Hall
        by (by apply Hread).
      destruct allRoutes as [|route routes'] eqn:Hroutes;
        [cbn; split; [discriminate | by intros (_ & _ & ? & _)]|].
      cbn [length Nat.eqb].
      destruct (extractProjectName dirName pyproject) as [title|message]
        eqn:Hname.
      * unfold groupEndpointsByFile.
        rewrite groupEndpointsByFile_from_routes.
        cbn [fmap option_fmap option_map success createSuccessResult].
        split; [intros _|reflexivity].
        split; [done|]. split; [exact Hall|]. split; [done|].
        intros errorMessage. by eapply Hreadable.
      * cbn. split; [discriminate|]. intros (_ & _ & _ & Hno).
        destruct pyproject as [|errorMessage|[name|]]; try discriminate.
        by destruct (Hno errorMessage).
    + cbn. split; [discriminate|]. intros (_ & Hall & _).
      apply Hread in Hall. discriminate.
  - subst r. unfold extract, extract_try. fold allRoutes.
    destruct (Nat.eqb (length files) 0); [by split|].
    destruct (omap readError files); [|by split].
    destruct (Nat.eqb (length allRoutes) 0); [by split|].
    destruct (extractProjectName dirName pyproject); [|by split].
    unfold groupEndpointsByFile. rewrite groupEndpointsByFile_from_routes.
    cbn. discriminate.
  - intros Hfiles Hall Hroutes errorMessage ->.
    subst r. unfold extract, extract_try. fold allRoutes.
    destruct files as [|f files']; [done|]. cbn [length Nat.eqb].
    apply Hread in Hall. rewrite Hall.
    destruct allRoutes; [done|]. reflexivity.
  - subst r. unfold extract, extract_try. fold allRoutes.
    destruct (Nat.eqb (length files) 0); [discriminate|].
    destruct (omap readError files); [|discriminate].
    destruct (Nat.eqb (length allRoutes) 0); [discriminate|].
    destruct (extractProjectName dirName pyproject) as [title|message]
      eqn:Hname; [|discriminate].
    unfold groupEndpointsByFile. rewrite groupEndpointsByFile_from_routes.
    cbn [fmap option_fmap option_map]. intros _.
    rewrite createSuccessResult_endpointsFound.
    cbn [filesProcessed project groups warnings createSuccessResult].
    set (f := endpointOf parseFunctionParams files).
    fold nameOf.
    set (m := fold_left _ allRoutes []).
    pose proof (map_file_loop_keys nameOf f allRoutes) as Hkeys.
    pose proof (map_file_loop_NoDup nameOf f allRoutes) as Hnd.
    pose proof (map_file_loop_get nameOf f allRoutes) as Hget.
    pose proof (map_file_loop_total nameOf f allRoutes) as Htotal.
    fold m in Hkeys, Hnd, Hget, Htotal.
    split; [reflexivity|]. split; [|split; [reflexivity|]].
    + unfold endpointCountOf. rewrite <- Htotal. do 2 f_equal.
      rewrite map_map. apply map_ext. by intros [name l].
    + eexists. split; [reflexivity|]. cbn [projectType groups info_title].
      split; [reflexivity|].
      split; [destruct pyproject as [| |[name|]]; cbn in Hname; congruence|].
      split.
      * rewrite <- Hkeys, map_map. apply map_ext. by intros [name l].
      * intros g ([k l] & <- & Hkl)%in_map_iff.
        cbn [endpoints group_name group_description].
        split; [reflexivity|].
        apply (In_map_get _ _ _ Hnd) in Hkl. rewrite Hget in Hkl.
        destruct (List.filter _ allRoutes); [discriminate|]. congruence.
Qed.

Lemma extractRouterDefinitions_from (filePath : string)
    (defs : list (string * string)) (rs : gmap string RouterInfo)
    (name : string) :
  ~ In name (map fst defs) ->
  fold_left
    (fun rs '(routerName, routerPrefix) =>
       <[ routerName := {| router_name := routerName;
                           prefix := routerPrefix;
                           router_filePath := filePath |} ]> rs)
    defs rs !! name
  = rs !! name.
Proof.
  revert rs. induction defs as [|[n p] defs IH]; intros rs Hnot;
    [reflexivity|].
  cbn [fold_left]. rewrite IH.
  - apply lookup_insert_ne. intros ->. apply Hnot. by left.
  - intros Hin. apply Hnot. by right.
Qed.

Lemma extractRouterDefinitions_other (file : PythonFile)
    (rs : gmap string RouterInfo) (name : string) :
  ~ In name (map fst (routerDefinitions file)) ->
  extractRouterDefinitions file rs !! name = rs !! name.
Proof. apply extractRouterDefinitions_from. Qed.

Lemma routers_fold_other (files : list PythonFile)
    (rs : gmap string RouterInfo) (name : string) :
  Forall (fun f => ~ In name (map fst (routerDefinitions f))) files ->
  fold_left (fun rs file => extractRouterDefinitions file rs) files rs !! name
  = rs !! name.
Proof.
  revert rs. induction files as [|f files IH]; intros rs Hall;
    [reflexivity|].
  apply Forall_cons in Hall as [Hf Hall]. cbn [fold_left].
  rewrite IH by assumption. by apply extractRouterDefinitions_other.
Qed.

(** X30.  Routers are known by name across all the files: the path of a
    route is prefixed with the prefix of the last definition of its
    router name in the last file that defines it, whichever file the route
    is in. *)
Theorem router_prefix_last_definition (before after : list PythonFile)
    (file : PythonFile) (defs1 defs2 : list (string * string))
    (name routerPrefix : string) (route : ExtractedRoute) :
  routerDefinitions file = (defs1 ++ (name, routerPrefix) :: defs2)%list ->
  ~ In name (map fst defs2) ->
  Forall (fun f => ~ In name (map fst (routerDefinitions f))) after ->
  routerName route = name ->
  let files := (before ++ file :: after)%list in
  routersOf files !! name
  = Some {| router_name := name; prefix := routerPrefix;
            router_filePath := file_path file |}
  /\ path (endpointOf parseFunctionParams files route)
     = normalizePath
         (if String.eqb routerPrefix "" then route_path route
          else routerPrefix ++ route_path route).
Proof.
  intros Hdefs Hlast Hafter Hroute files.
  assert (routersOf files !! name
          = Some {| router_name := name; prefix := routerPrefix;
                    router_filePath := file_path file |}) as Hrouter.
  { subst files. unfold routersOf. rewrite fold_left_app. cbn [fold_left].
    rewrite routers_fold_other by assumption.
    unfold extractRouterDefinitions. rewrite Hdefs, fold_left_app.
    cbn [fold_left]. rewrite extractRouterDefinitions_from by assumption.
    apply lookup_insert_eq. }
  split; [exact Hrouter|].
  unfold endpointOf, routeToEndpoint. cbn [path]. unfold fullPathOf.
  rewrite Hroute. fold files. rewrite Hrouter. by cbn [prefix].
Qed.

End FastApiExtract.

Lemma fastapi_extract_counts_witness :
  let r := FastApiExtractor.extract (fun _ => []) Samples.sampleBasename id
             Samples.fastapiFiles "app"
             (FastApiExtractor.Read (Some "shop-api")) "/srv/app"
             Samples.sampleConfig in
  success r = true /\ filesProcessed r = 2 /\ endpointsFound r = 3.
Proof.
  pose proof (fastapi_extract_counts (fun _ => []) Samples.sampleBasename id
                Samples.fastapiFiles "app"
                (FastApiExtractor.Read (Some "shop-api")) "/srv/app"
                Samples.sampleConfig)
    as (_ & _ & _ & H).
  cbv zeta in H. specialize (H ltac:(by vm_compute)).
  destruct H as (Hfiles & Hfound & _).
  split; [by vm_compute|]. split; [exact Hfiles|].
  rewrite Hfound. by vm_compute.
Defined.

Lemma router_prefix_last_definition_witness :
  path (FastApiExtractor.endpointOf (fun _ => [])
          [Samples.itemsFile; Samples.ordersFile] Samples.itemRoute)
  = "/orders/{item_id}".
Proof.
  refine (eq_trans
            (proj2 (router_prefix_last_definition (fun _ => [])
                      [Samples.itemsFile] [] Samples.ordersFile [] []
                      "router" "/orders" Samples.itemRoute _ _ _ _)) _);
    first [reflexivity | by intros [] | by constructor | by vm_compute].
Defined.

(** ** The path parameters of the Flask, Spring Boot and ASP.NET Core
    extractors *)

Section WordRuns.

Import Js BaseExtractor DjangoRestExtractor.





End WordRuns.

Section FlaskPathParameters.

Import Js BaseExtractor DjangoRestExtractor FlaskExtractor.







End FlaskPathParameters.

Section ControllerPathParameters.

Import Js BaseExtractor DjangoRestExtractor.




End ControllerPathParameters.

Section SpringPathParameters.

Import Js BaseExtractor DjangoRestExtractor SpringBootExtractor.




Variable dtos : gmap string ExtractedDto.
Variable scanMethodParams : string -> MethodParamMatches.



End SpringPathParameters.

Section AspNetPathParameters.

Import Js BaseExtractor AspNetExtractor.

Variable dtos : gmap string ExtractedDto.
Variable scanMethodParams : string -> MethodParamMatches.




End AspNetPathParameters.

Section PathParametersOfExtractors.

Import Js BaseExtractor.


(** A Flask path that holds an opening brace keeps it: the text between
    the braces counts as a placeholder and has no parameter. *)
Lemma flask_brace_in_path :
  let e := FlaskExtractor.routeToEndpoint Samples.flaskBlueprints
             (Samples.flaskRoute "/<int:user_id>/files/{name}") GET in
  path e = "/users/{user_id}/files/{name}"
  /\ map param_name (parameters e) = ["user_id"].
Proof. by vm_compute. Qed.

(** A path variable declared twice yields two path parameters. *)
Lemma spring_repeated_path_variable :
  let scan := fun _ : string =>
    {| SpringBootExtractor.pathVariables :=
         [(None, "Long", "id"); (Some "id", "Long", "userId")];
       SpringBootExtractor.requestParams := [];
       SpringBootExtractor.requestBodyType := None |} in
  map param_name
    (pathParametersNamed "id"
       (SpringBootExtractor.routeToEndpoint ∅ scan
          (Samples.springRoute
             "@PathVariable Long id, @PathVariable(id) Long userId")))
  = ["id"; "id"].
Proof. by vm_compute. Qed.

(** A parameter without attribute whose name is that of a placeholder is
    made a query parameter, and the placeholder gets no path parameter. *)
Lemma aspnet_simple_parameter_in_path :
  let e := AspNetExtractor.routeToEndpoint ∅ Samples.aspnetScan
             (Samples.aspnetRoute "int id, string fields") in
  extractPathParams (path e) = ["id"]
  /\ map (fun p => (param_name p, param_in p, param_required p)) (parameters e)
     = [("id", Typed QUERY, false)]
  /\ ~ PathParameterComplete e.
Proof.
  intros e. split; [by vm_compute|]. split; [by vm_compute|].
  intros Hcomplete. destruct (Hcomplete "id") as (p & Hp & _);
    [vm_compute; by left|].
  by vm_compute in Hp.
Qed.

(** The same for a request parameter of a Spring handler. *)
Lemma spring_request_param_in_path :
  let e := SpringBootExtractor.routeToEndpoint ∅ Samples.springScanQueryOnly
             (Samples.springRoute "@RequestParam String id") in
  extractPathParams (path e) = ["id"]
  /\ map (fun p => (param_name p, param_in p, param_required p)) (parameters e)
     = [("id", Typed QUERY, false)].
Proof. by vm_compute. Qed.


End PathParametersOfExtractors.

